(** * quiz-api: document index, search and quiz grading

    A shallow embedding of the request handlers of [app/routers/documents.py],
    [app/routers/quizzes.py] and [app/routers/analytics.py] over the tables
    of [app/models.py], with the properties of the document identifier
    allocator, of the search pagination, of quiz creation, of grading and
    of the statistics.

    Conventions of the embedding.
    - A Python [str] is a Rocq [string] whose characters are the code points
      of the text; code points above 255 are outside the model.
    - A Python [int] is a [Z].
    - A handler is a function from its arguments and the committed
      [Database] to an [outcome] and the [Database] left behind.  A raised
      [HTTPException] and an exception nobody catches are both failures;
      they are kept apart because the framework answers the first with the
      given status and the second with status 500.
    - What the handlers obtain from outside the repository (the file
      system and the text extractors, the full-text primitives of
      PostgreSQL, its reading of UUIDs, the generation service, [uuid4],
      the clock) is passed in.
    - The database refuses some values, and the request then ends in a
      [DBAPIError]: a text with the code point 0 in a row or in
      [to_tsvector], an integer outside the 32 bits of an [Integer] column
      or the 64 bits of LIMIT and OFFSET, a parameter of another type than
      its column, a text that is no UUID for a column of that type. *)

From Stdlib Require Import ZArith QArith Qround String Ascii DecimalString DecimalZ.
From stdpp Require Import base option list strings gmap sorting.

Local Open Scope string_scope.
Local Open Scope Z_scope.

(** ** Python built-ins used by the handlers *)

Module Py.

(** Code point of a character. *)
Definition ord (c : ascii) : N := N_of_ascii c.

(** [str.isspace] on one character: the Unicode white space below 256. *)
Definition is_space (c : ascii) : bool :=
  let n := ord c in
  ((9 <=? n) && (n <=? 13) || (28 <=? n) && (n <=? 32)
   || (n =? 133) || (n =? 160))%N.

(** White space as [int()] sees it: ASCII white space, and the Unicode
    spaces above 127, which it first maps to a blank. *)
Definition is_int_space (c : ascii) : bool :=
  let n := ord c in
  ((9 <=? n) && (n <=? 13) || (n =? 32) || (n =? 133) || (n =? 160))%N.

Definition is_digit (c : ascii) : bool :=
  let n := ord c in ((48 <=? n) && (n <=? 57))%N.

Fixpoint lstrip_with (sp : ascii → bool) (s : string) : string :=
  match s with
  | String c r => if sp c then lstrip_with sp r else s
  | EmptyString => EmptyString
  end.

Fixpoint rstrip_with (sp : ascii → bool) (s : string) : string :=
  match s with
  | String c r =>
      match rstrip_with sp r with
      | EmptyString => if sp c then EmptyString else String c EmptyString
      | r' => String c r'
      end
  | EmptyString => EmptyString
  end.

(** [s.strip()] *)
Definition strip (s : string) : string :=
  rstrip_with is_space (lstrip_with is_space s).

(** [s.split(sep)] for a one-character separator. *)
Fixpoint split (sep : ascii) (s : string) : list string :=
  match s with
  | EmptyString => [EmptyString]
  | String c r =>
      if Ascii.eqb c sep then EmptyString :: split sep r
      else match split sep r with
           | h :: t => String c h :: t
           | [] => [String c EmptyString]
           end
  end.

Fixpoint replace_fuel (fuel : nat) (old new s : string) : string :=
  match fuel with
  | O => s
  | S fuel' =>
      if String.prefix old s
      then new ++ replace_fuel fuel' old new
                    (String.substring (String.length old)
                       (String.length s - String.length old) s)
      else match s with
           | EmptyString => EmptyString
           | String c r => String c (replace_fuel fuel' old new r)
           end
  end.

(** [s.replace(old, new)] for a non-empty [old]: the occurrences are
    replaced from left to right, without overlap. *)
Definition replace (old new s : string) : string :=
  replace_fuel (String.length s) old new s.

(** [str(n)] for an [int]. *)
Definition str (n : Z) : string := NilZero.string_of_int (Z.to_int n).

(** [s.zfill(width)]: zeros go after a leading sign. *)
Definition zfill (width : nat) (s : string) : string :=
  let n := String.length s in
  if (width <=? n)%nat then s
  else
    let pad := String.string_of_list_ascii (repeat "0"%char (width - n)) in
    match s with
    | String c r =>
        if Ascii.eqb c "-" || Ascii.eqb c "+"
        then String c (pad ++ r) else pad ++ s
    | EmptyString => pad
    end.

(** The body of a decimal literal as [int()] takes it: digits, with single
    underscores between digits. [after_digit] tells whether the previous
    character was a digit. *)
Fixpoint literal_ok (after_digit : bool) (s : string) : bool :=
  match s with
  | EmptyString => after_digit
  | String c r =>
      if is_digit c then literal_ok true r
      else if Ascii.eqb c "_" then after_digit && literal_ok false r
      else false
  end.

Fixpoint drop_underscores (s : string) : string :=
  match s with
  | EmptyString => EmptyString
  | String c r =>
      if Ascii.eqb c "_" then drop_underscores r
      else String c (drop_underscores r)
  end.

Definition literal_value (s : string) : option Z :=
  if literal_ok false s
  then Z.of_uint <$> NilEmpty.uint_of_string (drop_underscores s)
  else None.

(** [int(s)] in base 10; [None] is [ValueError].  The limit of the
    interpreter on the number of digits is not modelled. *)
Definition int (s : string) : option Z :=
  let t := rstrip_with is_int_space (lstrip_with is_int_space s) in
  match t with
  | String c r =>
      if Ascii.eqb c "-" then Z.opp <$> literal_value r
      else if Ascii.eqb c "+" then literal_value r
      else literal_value t
  | EmptyString => None
  end.

(** [max(l, default=d)] *)
Definition max_default (d : Z) (l : list Z) : Z :=
  match l with
  | [] => d
  | x :: r => foldl Z.max x r
  end.

(** [sep.join(l)] *)
Fixpoint join (sep : string) (l : list string) : string :=
  match l with
  | [] => EmptyString
  | [x] => x
  | x :: r => x ++ sep ++ join sep r
  end.

(** Truth value of a [str] that may be [None]. *)
Definition truthy (s : option string) : bool :=
  match s with
  | Some (String _ _) => true
  | _ => false
  end.

Definition newline : string := String "010" EmptyString.

End Py.

(** ** Dynamic values

    What [eval] of the generated text, or the JSON body of a request, can
    hand to the handlers.  [PyFloat] carries the bits of the double (no
    handler computes with one) and [PyObject] stands for a value of any other
    built-in type (set, bytes, ...): it has no subscript and no JSON form. *)

#[local] Set Warnings "-register-all".

Inductive pyvalue : Type :=
| PyNone
| PyBool (b : bool)
| PyInt (n : Z)
| PyFloat (bits : Z)
| PyStr (s : string)
| PyList (items : list pyvalue)
| PyTuple (items : list pyvalue)
| PyDict (entries : list (pyvalue * pyvalue))
| PyObject.

Inductive exception : Type :=
| KeyError (key : string)
| TypeError
| ValueError
| ZeroDivisionError
| StopIteration
| ExtractionError
| DBAPIError.

(** A request fails with an [HTTPException] the handler raised, or with an
    exception it did not catch. *)
Inductive failure : Type :=
| HTTPException (status_code : Z) (detail : string)
| Unhandled (e : exception).

Inductive outcome (A : Type) : Type :=
| Return (a : A)
| Raise (f : failure).
Arguments Return {A} a.
Arguments Raise {A} f.

(** Status of the HTTP answer to a failed request. *)
Definition status_of (f : failure) : Z :=
  match f with
  | HTTPException code _ => code
  | Unhandled _ => 500
  end.

Module Value.

(** [s == v] for a [str] on the left. *)
Definition str_eq (s : string) (v : pyvalue) : bool :=
  match v with
  | PyStr t => String.eqb s t
  | _ => false
  end.

Fixpoint dict_get (key : string) (entries : list (pyvalue * pyvalue))
  : option pyvalue :=
  match entries with
  | [] => None
  | (k, v) :: rest => if str_eq key k then Some v else dict_get key rest
  end.

(** [v[key]] for a [str] key. *)
Definition subscript (v : pyvalue) (key : string) : outcome pyvalue :=
  match v with
  | PyDict entries =>
      match dict_get key entries with
      | Some x => Return x
      | None => Raise (Unhandled (KeyError key))
      end
  | _ => Raise (Unhandled TypeError)
  end.

Definition json_key (k : pyvalue) : bool :=
  match k with
  | PyNone | PyBool _ | PyInt _ | PyFloat _ | PyStr _ => true
  | _ => false
  end.

(** Whether [json.dumps] accepts the value. *)
Fixpoint json_serializable (v : pyvalue) : bool :=
  match v with
  | PyNone | PyBool _ | PyInt _ | PyFloat _ | PyStr _ => true
  | PyList items | PyTuple items => forallb json_serializable items
  | PyDict entries =>
      forallb (λ kv, let '(k, x) := kv in json_key k && json_serializable x)
        entries
  | PyObject => false
  end.

(** What a [String]/[Text] column accepts as a parameter. *)
Definition as_text (v : pyvalue) : option string :=
  match v with
  | PyStr s => Some s
  | _ => None
  end.

End Value.

(** The text [json.dumps(v)]; only its origin is recorded. *)
Inductive json_text : Type := JsonDumps (v : pyvalue).

Definition json_dumps (v : pyvalue) : outcome json_text :=
  if Value.json_serializable v then Return (JsonDumps v)
  else Raise (Unhandled TypeError).

(** The value of [to_tsvector(text)]; only its origin is recorded. *)
Inductive tsvector : Type := ToTsvector (text : string).

(** ** Tables ([app/models.py]) *)

Module Document.
(** The surrogate key [id], which the database assigns and no handler
    reads, is left out. *)
Record t : Type := Build {
  file_id : string;
  name : string;
  file_type : string;
  content : option string;
  search_vector : option tsvector
}.
End Document.

Module Quiz.
Record t : Type := Build {
  quiz_id : string;
  name : string;
  difficulty : string;
  topic : string;
  number_of_questions : Z;
  question_type : string;
  custom_instructions : option string;
  created_at : Z
}.
End Quiz.

Module Question.
Record t : Type := Build {
  question_id : string;
  quiz_id : string;
  question : string;
  options : json_text;
  correct_answer : string
}.
End Question.

Module Submission.
Record t : Type := Build {
  submission_id : string;
  quiz_id : string;
  user_id : string;
  question_id : string;
  selected_answer : string;
  is_correct : bool;
  created_at : Z
}.
End Submission.

Record Database : Type := {
  documents : list Document.t;
  quizzes : list Quiz.t;
  questions : list Question.t;
  quiz_submissions : list Submission.t
}.

Definition empty_database : Database :=
  {| documents := []; quizzes := []; questions := []; quiz_submissions := [] |}.

(** ** The database session

    [db.add] queues an object, [db.commit] writes the queue in one
    transaction; a request that fails before its commit leaves nothing
    behind.  The objects carry what the handler gave them, dynamic values
    included; the columns take them at the commit. *)

Inductive orm_object : Type :=
| NewDocument (file_id name file_type : string) (content : option string)
    (search_vector : option tsvector)
| NewQuiz (quiz_id name difficulty topic : string) (number_of_questions : Z)
    (question_type custom_instructions : string)
| NewQuestion (question_id quiz_id : string) (question : pyvalue)
    (options : json_text) (correct_answer : pyvalue)
| NewSubmission (submission_id quiz_id user_id : string)
    (question_id selected_answer : pyvalue) (is_correct : bool).

(** What the database takes as a text: any text without the code point
    0. *)
Fixpoint pg_text (s : string) : bool :=
  match s with
  | EmptyString => true
  | String c r => negb (Ascii.eqb c "000") && pg_text r
  end.

(** What a column of type [Integer] takes: a 32-bit integer. *)
Definition pg_int4 (n : Z) : bool := (- 2 ^ 31 <=? n) && (n <? 2 ^ 31).

(** A dynamic value that is a text is one the database takes. *)
Definition pg_value (v : pyvalue) : bool :=
  match v with
  | PyStr s => pg_text s
  | _ => true
  end.

(** The values of the object are values the database takes for the columns
    of type [String], [Text] and [Integer].  The text of [json.dumps] has
    no code point 0; the columns of type UUID get what [uuid4] gave. *)
Definition storable (o : orm_object) : bool :=
  match o with
  | NewDocument fid nm ft c sv =>
      pg_text fid && pg_text nm && pg_text ft
      && match c with Some text => pg_text text | None => true end
  | NewQuiz qid nm df tp n qt ci =>
      pg_text qid && pg_text nm && pg_text df && pg_text tp && pg_int4 n
      && pg_text qt && pg_text ci
  | NewQuestion qnid qid q opts ca =>
      pg_text qnid && pg_text qid && pg_value q && pg_value ca
  | NewSubmission sid qid uid qnid sel ok =>
      pg_text qid && pg_value qnid && pg_value sel
  end.

(** The constraints of the tables on a row: unique key, foreign key, NOT
    NULL, column type. *)
Definition insert_row (now : Z) (o : orm_object) (db : Database) : option Database :=
  match o with
  | NewDocument fid nm ft c sv =>
      if bool_decide (fid ∈ Document.file_id <$> documents db) then None
      else Some {| documents := documents db ++ [Document.Build fid nm ft c sv];
                   quizzes := quizzes db;
                   questions := questions db;
                   quiz_submissions := quiz_submissions db |}
  | NewQuiz qid nm df tp n qt ci =>
      if bool_decide (qid ∈ Quiz.quiz_id <$> quizzes db) then None
      else Some {| documents := documents db;
                   quizzes := quizzes db ++ [Quiz.Build qid nm df tp n qt (Some ci) now];
                   questions := questions db;
                   quiz_submissions := quiz_submissions db |}
  | NewQuestion qnid qid q opts ca =>
      if bool_decide (qnid ∈ Question.question_id <$> questions db) then None
      else if bool_decide (qid ∈ Quiz.quiz_id <$> quizzes db) then
        match Value.as_text q, Value.as_text ca with
        | Some q', Some ca' =>
            Some {| documents := documents db;
                    quizzes := quizzes db;
                    questions := questions db ++ [Question.Build qnid qid q' opts ca'];
                    quiz_submissions := quiz_submissions db |}
        | _, _ => None
        end
      else None
  | NewSubmission sid qid uid qnid sel ok =>
      if bool_decide (sid ∈ Submission.submission_id <$> quiz_submissions db) then None
      else
        match Value.as_text qnid, Value.as_text sel with
        | Some qnid', Some sel' =>
            Some {| documents := documents db;
                    quizzes := quizzes db;
                    questions := questions db;
                    quiz_submissions :=
                      quiz_submissions db ++ [Submission.Build sid qid uid qnid' sel' ok now] |}
        | _, _ => None
        end
  end.

(** One INSERT at time [now]; [None] when the database refuses a value or a
    constraint of the table refuses the row. *)
Definition insert (now : Z) (o : orm_object) (db : Database) : option Database :=
  if storable o then insert_row now o db else None.

Fixpoint flush (now : Z) (queue : list orm_object) (db : Database) : option Database :=
  match queue with
  | [] => Some db
  | o :: rest =>
      match insert now o db with
      | Some db' => flush now rest db'
      | None => None
      end
  end.

Record Session : Type := { store : Database; pending : list orm_object }.

Definition request (A : Type) : Type := Session → outcome A * Session.

#[global] Instance request_ret : MRet request :=
  λ A (a : A) s, (Return a, s).

#[global] Instance request_bind : MBind request :=
  λ A B (k : A → request B) (m : request A) s,
    match m s with
    | (Return a, s') => k a s'
    | (Raise f, s') => (Raise f, s')
    end.

Definition raise {A} (f : failure) : request A := λ s, (Raise f, s).

Definition lift {A} (o : outcome A) : request A := λ s, (o, s).

(** A SELECT over the committed rows. *)
Definition select {A} (f : Database → A) : request A := λ s, (Return (f (store s)), s).

Definition db_add (o : orm_object) : request unit :=
  λ s, (Return (), {| store := store s; pending := pending s ++ [o] |}).

Definition db_add_all (l : list orm_object) : request unit :=
  λ s, (Return (), {| store := store s; pending := pending s ++ l |}).

Definition db_commit (now : Z) : request unit :=
  λ s, match flush now (pending s) (store s) with
       | Some db' => (Return (), {| store := db'; pending := [] |})
       | None => (Raise (Unhandled DBAPIError), {| store := store s; pending := [] |})
       end.

(** A request runs in a session of its own ([get_db]); what it had queued
    and not committed is dropped when the session closes. *)
Definition serve {A} (m : request A) (db : Database) : outcome A * Database :=
  let '(r, s) := m {| store := db; pending := [] |} in (r, store s).

(** ** Python dictionaries with [str] keys

    The entries in insertion order, which is the order of [values()]; the
    keys of a dictionary are pairwise distinct. *)

Module Dict.

Definition t (V : Type) : Type := list (string * V).

(** [key in d] *)
Definition mem {V} (key : string) (d : t V) : bool :=
  existsb (λ kv, String.eqb kv.1 key) d.

(** [d[key]] *)
Definition get {V} (key : string) (d : t V) : option V :=
  snd <$> List.find (λ kv, String.eqb kv.1 key) d.

(** [d[key] = v]: in place for a key of [d], at the end for a new one. *)
Fixpoint set {V} (key : string) (v : V) (d : t V) : t V :=
  match d with
  | [] => [(key, v)]
  | (k, x) :: rest =>
      if String.eqb k key then (k, v) :: rest else (k, x) :: set key v rest
  end.

(** An update of the value stored under [key], as [d[key][...] += ...]. *)
Definition alter {V} (f : V → V) (key : string) (d : t V) : t V :=
  (λ kv, if String.eqb kv.1 key then (kv.1, f kv.2) else kv) <$> d.

(** [d.values()] *)
Definition values {V} (d : t V) : list V := snd <$> d.

End Dict.

(** A list comprehension whose element expression may raise. *)
Fixpoint traverse {A B} (f : A → outcome B) (l : list A) : outcome (list B) :=
  match l with
  | [] => Return []
  | x :: rest =>
      match f x with
      | Return y =>
          match traverse f rest with
          | Return ys => Return (y :: ys)
          | Raise e => Raise e
          end
      | Raise e => Raise e
      end
  end.

(** [sum(s.is_correct for s in submissions)] *)
Definition sum_correct (submissions : list Submission.t) : Z :=
  foldl (λ acc s, if Submission.is_correct s then acc + 1 else acc) 0 submissions.

(** ** [app/routers/documents.py] *)

Module Documents.

Record UploadFile : Type := {
  filename : string;
  content_type : string;
  body : string
}.

(** A value of the submitted form: a plain field has no [filename]. *)
Inductive form_value : Type :=
| FormField (value : string)
| FormFile (file : UploadFile).

(** The parsed form is a multi-dictionary built from the parts of the
    request, each under its field name: [len(form)] counts the names, and
    [form.values()] has one value for each name, the last one sent. *)
Definition form_values (parts : list (string * form_value)) : list form_value :=
  Dict.values (foldl (λ d part, Dict.set part.1 part.2 d) [] parts).

(** The file system and the text extractors: writing the bytes of the
    upload under a path, reading the text of a plain file, of a PDF and of
    a DOCX from the bytes written, and removing the file of a path. *)
Record Extractors : Type := {
  write_temp : string → string → outcome unit;
  read_utf8 : string → outcome string;
  extract_text : string → outcome string;
  docx_paragraphs : string → outcome (list string);
  remove_temp : string → outcome unit
}.

Record UploadResponse : Type := { message : string; file_id : string }.

Definition text_plain : string := "text/plain".
Definition application_pdf : string := "application/pdf".
Definition application_docx : string :=
  "application/vnd.openxmlformats-officedocument.wordprocessingml.document".

Definition allowed_types : list string :=
  [text_plain; application_pdf; application_docx].

Definition extract (ext : Extractors) (file : UploadFile) : outcome (option string) :=
  if String.eqb (content_type file) text_plain then
    match read_utf8 ext (body file) with
    | Return t => Return (Some t)
    | Raise f => Raise f
    end
  else if String.eqb (content_type file) application_pdf then
    match extract_text ext (body file) with
    | Return t => Return (Some t)
    | Raise f => Raise f
    end
  else if String.eqb (content_type file) application_docx then
    match docx_paragraphs ext (body file) with
    | Return ps => Return (Some (Py.join Py.newline ps))
    | Raise f => Raise f
    end
  else Return None.

(** [int(file_id.replace("file", ""))] *)
Definition numeric_suffix (file_id : string) : option Z :=
  Py.int (Py.replace "file" "" file_id).

(** [[int(file_id.replace("file", "")) for file_id, in rows]] *)
Fixpoint existing_ids (rows : list string) : outcome (list Z) :=
  match rows with
  | [] => Return []
  | file_id :: rest =>
      match numeric_suffix file_id with
      | Some n =>
          match existing_ids rest with
          | Return ns => Return (n :: ns)
          | Raise f => Raise f
          end
      | None => Raise (Unhandled ValueError)
      end
  end.

Definition custom_file_id (next_id : Z) : string :=
  "file" ++ Py.zfill 3 (Py.str next_id).

(** The full-text primitives and the collation of the database:
    whether [to_tsvector] takes a text that has no code point 0 (the
    search vector of a long text can be more than a search vector holds);
    by the text of the query, whether [to_tsquery] accepts it, [@@] and
    [ts_rank] against a search vector, and the order of [ORDER BY name].
    [heap_le] is the order in which the query with a given LIMIT and
    OFFSET meets the rows of the table: ORDER BY leaves rows of equal key
    in that order, which need not be the same from one query to the
    next. *)
Record Postgres : Type := {
  to_tsvector_ok : string → bool;
  to_tsquery_ok : string → bool;
  ts_match : tsvector → string → bool;
  ts_rank : tsvector → string → Q;
  collate_le : string → string → bool;
  heap_le : Z → Z → Document.t → Document.t → bool
}.

(** SELECT to_tsvector(:text_content) *)
Definition to_tsvector (pg : Postgres) (text_content : option string)
  : outcome (option tsvector) :=
  match text_content with
  | None => Return None
  | Some text =>
      if pg_text text && to_tsvector_ok pg text then Return (Some (ToTsvector text))
      else Raise (Unhandled DBAPIError)
  end.

Definition temp_file_path (file : UploadFile) : string := "temp_" ++ filename file.

Definition upload_file (pg : Postgres) (ext : Extractors) (now : Z)
  (form : list (string * form_value)) : request UploadResponse :=
  if negb (length (form_values form) =? 1)%nat then
    raise (HTTPException 400 "Exactly one file must be uploaded.")
  else
    match form_values form with
    | FormFile file :: _ =>
        if negb (bool_decide (content_type file ∈ allowed_types)) then
          raise (HTTPException 400 "Unsupported file type")
        else
          lift (write_temp ext (temp_file_path file) (body file));;
          extracted_content ← lift (extract ext file);
          rows ← select (λ db, Document.file_id <$> documents db);
          ids ← lift (existing_ids rows);
          let next_id := Py.max_default 0 ids + 1 in
          search_vector ← lift (to_tsvector pg extracted_content);
          db_add (NewDocument (custom_file_id next_id) (filename file)
                    (content_type file) extracted_content search_vector);;
          db_commit now;;
          lift (remove_temp ext (temp_file_path file));;
          mret {| message := "File uploaded successfully";
                  file_id := custom_file_id next_id |}
    | _ => raise (HTTPException 400 "No valid file uploaded.")
    end.

Record SearchRow : Type := {
  row_file_id : string;
  row_name : string;
  row_file_type : string;
  relevance : Q
}.

Record SearchResponse : Type := {
  search_term : string;
  file_types : list string;
  sort : string;
  current_page : Z;
  limit : Z;
  total_results : Z;
  total_pages : Z;
  results : list SearchRow
}.

Definition mime_map : gmap string string :=
  <["txt" := text_plain]> (<["pdf" := application_pdf]>
    (<["docx" := application_docx]> ∅)).

(** [[mime_map[file_type.strip()] for file_type in parts]] *)
Fixpoint map_file_types (parts : list string) : outcome (list string) :=
  match parts with
  | [] => Return []
  | file_type :: rest =>
      match mime_map !! Py.strip file_type with
      | Some mime =>
          match map_file_types rest with
          | Return l => Return (mime :: l)
          | Raise f => Raise f
          end
      | None => Raise (Unhandled (KeyError (Py.strip file_type)))
      end
  end.

Fixpoint insert_by {A} (le : A → A → bool) (x : A) (l : list A) : list A :=
  match l with
  | [] => [x]
  | y :: r => if le x y then x :: l else y :: insert_by le x r
  end.

(** ORDER BY, rows of equal key kept in the order given. *)
Definition order_by {A} (le : A → A → bool) (l : list A) : list A :=
  foldr (insert_by le) [] l.

(** WHERE search_vector @@ to_tsquery(:query) [AND file_type = ANY(:file_types)] *)
Definition matches (pg : Postgres) (q : string) (types : list string)
  (d : Document.t) : bool :=
  match Document.search_vector d with
  | Some v => ts_match pg v q
  | None => false
  end
  && match types with
     | [] => true
     | _ => bool_decide (Document.file_type d ∈ types)
     end.

Definition search_row (pg : Postgres) (q : string) (d : Document.t) : SearchRow :=
  {| row_file_id := Document.file_id d;
     row_name := Document.name d;
     row_file_type := Document.file_type d;
     relevance := match Document.search_vector d with
                  | Some v => ts_rank pg v q
                  | None => 0%Q
                  end |}.

(** What the database takes as LIMIT or OFFSET: a 64-bit integer that is
    not negative. *)
Definition row_count (n : Z) : bool := (0 <=? n) && (n <? 2 ^ 63).

(** The paginated query; the database refuses a query text [to_tsquery]
    cannot parse and a LIMIT or OFFSET that is no [row_count]. *)
Definition search_rows (pg : Postgres) (q : string) (types : list string)
  (by_relevance : bool) (lim offset : Z) (db : Database)
  : outcome (list SearchRow) :=
  if negb (to_tsquery_ok pg q) || negb (row_count lim) || negb (row_count offset) then
    Raise (Unhandled DBAPIError)
  else
    let found :=
      order_by (heap_le pg lim offset)
        (List.filter (matches pg q types) (documents db)) in
    let rows := search_row pg q <$> found in
    let le :=
      if by_relevance then λ a b, Qle_bool (relevance b) (relevance a)
      else λ a b, collate_le pg (row_name a) (row_name b) in
    Return (take (Z.to_nat lim) (drop (Z.to_nat offset) (order_by le rows))).

Definition search_count (pg : Postgres) (q : string) (types : list string)
  (db : Database) : outcome Z :=
  if negb (to_tsquery_ok pg q) then Raise (Unhandled DBAPIError)
  else Return (Z.of_nat (length (List.filter (matches pg q types) (documents db)))).

(** [a // b] and [a % b] *)
Definition floordiv (a b : Z) : outcome Z :=
  if b =? 0 then Raise (Unhandled ZeroDivisionError) else Return (a / b).
Definition modulo (a b : Z) : outcome Z :=
  if b =? 0 then Raise (Unhandled ZeroDivisionError) else Return (a mod b).

(** [[...] if type else []]: no filter for a missing or empty [type]. *)
Definition type_filter (type : option string) : outcome (list string) :=
  match type with
  | Some (String _ _ as t) => map_file_types (Py.split "," t)
  | _ => Return []
  end.

Definition search_files (pg : Postgres) (q : string) (page lim : Z)
  (sort_by : string) (type : option string) : request SearchResponse :=
  if negb (bool_decide (sort_by ∈ ["relevance"; "name"])) then
    raise (HTTPException 400 "Invalid sort parameter")
  else
    let offset := (page - 1) * lim in
    types ← lift (type_filter type);
    rows ← (λ s, (search_rows pg q types (String.eqb sort_by "relevance")
                    lim offset (store s), s));
    total ← (λ s, (search_count pg q types (store s), s));
    quotient ← lift (floordiv total lim);
    remainder ← lift (modulo total lim);
    let pages := quotient + (if 0 <? remainder then 1 else 0) in
    mret {| search_term := q;
            file_types := types;
            sort := sort_by;
            current_page := page;
            limit := lim;
            total_results := total;
            total_pages := pages;
            results := rows |}.

(** The answer of [get_document]; [retrieved_at] is the reading of the
    clock. *)
Record DocumentDetails : Type := {
  data_file_id : string;
  data_name : string;
  data_file_type : string;
  data_content : option string;
  metadata_length : Z;
  metadata_retrieved_at : string
}.

Definition find_document (file_id : string) (db : Database) : option Document.t :=
  head (List.filter (λ d, String.eqb (Document.file_id d) file_id) (documents db)).

Definition get_document (utcnow : string) (file_id : string)
  : request DocumentDetails :=
  found ← select (find_document file_id);
  match found with
  | None => raise (HTTPException 404 "Document not found")
  | Some document =>
      mret {| data_file_id := Document.file_id document;
              data_name := Document.name document;
              data_file_type := Document.file_type document;
              data_content := Document.content document;
              metadata_length :=
                match Document.content document with
                | Some (String _ _ as text) => Z.of_nat (String.length text)
                | _ => 0
                end;
              metadata_retrieved_at := utcnow |}
  end.

End Documents.

(** ** [app/routers/quizzes.py] *)

Module Quizzes.

Record QuizCreateRequest : Type := {
  name : string;
  difficulty : string;
  topic : string;
  file_ids : list string;
  number_of_questions : Z;
  question_type : string;
  custom_instructions : string
}.

(** What the prompt sent to the generation service is built from. *)
Record Prompt : Type := {
  prompt_number_of_questions : Z;
  prompt_topic : string;
  prompt_difficulty : string;
  prompt_question_type : string;
  combined_content : string
}.

(** How the [try] block around the call of the service and the [eval] of
    its answer ends: with an exception of message [message], or with the
    value of the answer. *)
Inductive generation : Type :=
| GenerationFailed (message : string)
| Generated (generated_questions : pyvalue).

Record CreateResponse : Type := {
  create_message : string;
  created_quiz_id : string
}.

Definition question_id_of (quiz_id : string) (index : Z) : string :=
  quiz_id ++ "_q" ++ Py.str index.

(** The loop over [enumerate(generated_questions, start=index)]. *)
Fixpoint add_questions (quiz_id : string) (index : Z) (l : list pyvalue)
  : request unit :=
  match l with
  | [] => mret ()
  | question :: rest =>
      text ← lift (Value.subscript question "question");
      options ← lift (Value.subscript question "options");
      dumped ← lift (json_dumps options);
      correct_answer ← lift (Value.subscript question "correct_answer");
      db_add (NewQuestion (question_id_of quiz_id index) quiz_id text dumped
                correct_answer);;
      add_questions quiz_id (index + 1) rest
  end.

Definition some_content (d : Document.t) : option string :=
  if Py.truthy (Document.content d) then Document.content d else None.

(** SELECT ... WHERE file_id IN (:file_ids) *)
Definition requested_documents (ids : list string) (db : Database)
  : list Document.t :=
  List.filter (λ d, bool_decide (Document.file_id d ∈ ids)) (documents db).

Definition create_quiz (service : Prompt → generation) (uuid4 : nat → string)
  (now : Z) (payload : QuizCreateRequest) : request CreateResponse :=
  docs ← select (requested_documents (file_ids payload));
  if bool_decide (docs = []) || negb (length docs =? length (file_ids payload))%nat then
    raise (HTTPException 400 "One or more file IDs are invalid.")
  else
    let prompt :=
      {| prompt_number_of_questions := number_of_questions payload;
         prompt_topic := topic payload;
         prompt_difficulty := difficulty payload;
         prompt_question_type := question_type payload;
         combined_content :=
           Py.join (Py.newline ++ Py.newline) (omap some_content docs) |} in
    match service prompt with
    | GenerationFailed message =>
        raise (HTTPException 500 ("OpenAI error: " ++ message))
    | Generated (PyList generated_questions) =>
        if negb (Z.of_nat (length generated_questions) =? number_of_questions payload) then
          raise (HTTPException 500 "Invalid response from OpenAI.")
        else
          let quiz_id := uuid4 0%nat in
          db_add (NewQuiz quiz_id (name payload) (difficulty payload)
                    (topic payload) (number_of_questions payload)
                    (question_type payload) (custom_instructions payload));;
          add_questions quiz_id 1 generated_questions;;
          db_commit now;;
          mret {| create_message := "Quiz created successfully.";
                  created_quiz_id := quiz_id |}
    | Generated _ =>
        raise (HTTPException 500 "Invalid response from OpenAI.")
    end.

Record QuestionView : Type := {
  view_question_id : string;
  view_question : string;
  view_options : json_text
}.

Record QuizDetails : Type := {
  details_quiz_id : string;
  details_name : string;
  details_difficulty : string;
  details_topic : string;
  details_number_of_questions : Z;
  details_question_type : string;
  details_custom_instructions : option string;
  details_questions : list QuestionView
}.

Definition find_quiz (quiz_id : string) (db : Database) : option Quiz.t :=
  head (List.filter (λ z, String.eqb (Quiz.quiz_id z) quiz_id) (quizzes db)).

Definition get_quiz (quiz_id : string) : request QuizDetails :=
  found ← select (find_quiz quiz_id);
  match found with
  | None => raise (HTTPException 404 "Quiz not found")
  | Some quiz =>
      rows ← select (λ db, List.filter
                             (λ q, String.eqb (Question.quiz_id q) quiz_id)
                             (questions db));
      mret {| details_quiz_id := Quiz.quiz_id quiz;
              details_name := Quiz.name quiz;
              details_difficulty := Quiz.difficulty quiz;
              details_topic := Quiz.topic quiz;
              details_number_of_questions := Quiz.number_of_questions quiz;
              details_question_type := Quiz.question_type quiz;
              details_custom_instructions := Quiz.custom_instructions quiz;
              details_questions :=
                (λ q, {| view_question_id := Question.question_id q;
                         view_question := Question.question q;
                         view_options := Question.options q |}) <$> rows |}
  end.

Record QuizPage : Type := {
  page_data : list Quiz.t;
  page_number : Z;
  page_limit : Z;
  total_items : Z
}.

(** [collate_ge] is the order of [ORDER BY quiz_id DESC]; the database
    refuses a LIMIT or OFFSET that is no [row_count]. *)
Definition get_all_quizzes (collate_ge : string → string → bool) (page lim : Z)
  : request QuizPage :=
  if (page <? 1) || (lim <? 1) then
    raise (HTTPException 400 "Page and limit must be positive integers.")
  else
    let offset := (page - 1) * lim in
    rows ← (λ s,
              (if Documents.row_count lim && Documents.row_count offset then
                 Return (take (Z.to_nat lim)
                           (drop (Z.to_nat offset)
                              (Documents.order_by
                                 (λ a b, collate_ge (Quiz.quiz_id a) (Quiz.quiz_id b))
                                 (quizzes (store s)))))
               else Raise (Unhandled DBAPIError), s));
    total ← select (λ db, Z.of_nat (length (quizzes db)));
    mret {| page_data := rows; page_number := page; page_limit := lim;
            total_items := total |}.

(** The value of [round((score / total) * 100, 2)] for a non-zero [total];
    the float is not computed. *)
Inductive percent : Type := Round2 (score total : Z).

Record SubmitResponse : Type := {
  submit_quiz_id : string;
  score : Z;
  total_questions : Z;
  percentage : percent
}.

(** [[answer["question_id"] for answer in answers]] *)
Fixpoint question_ids_of (answers : list pyvalue) : outcome (list pyvalue) :=
  match answers with
  | [] => Return []
  | answer :: rest =>
      match Value.subscript answer "question_id" with
      | Return v =>
          match question_ids_of rest with
          | Return l => Return (v :: l)
          | Raise f => Raise f
          end
      | Raise f => Raise f
      end
  end.

(** What the driver sends for a [String] parameter: a text, or null for
    [None]. *)
Definition text_or_null (v : pyvalue) : bool :=
  match v with
  | PyStr _ | PyNone => true
  | _ => false
  end.

(** SELECT ... WHERE quiz_id = :quiz_id AND question_id IN (:ids); a null
    among the identifiers equals no identifier, and the database refuses a
    parameter that is neither a text nor null. *)
Definition select_questions (quiz_id : string) (ids : list pyvalue)
  (db : Database) : outcome (list Question.t) :=
  if forallb text_or_null ids then
    Return (List.filter
              (λ q, String.eqb (Question.quiz_id q) quiz_id
                    && existsb (Value.str_eq (Question.question_id q)) ids)
              (questions db))
  else Raise (Unhandled DBAPIError).

(** [next(q for q in found if q.question_id == v)] *)
Definition next_question (found : list Question.t) (v : pyvalue)
  : outcome Question.t :=
  match List.find (λ q, Value.str_eq (Question.question_id q) v) found with
  | Some q => Return q
  | None => Raise (Unhandled StopIteration)
  end.

(** The grading loop: the submissions built so far and the score, with [k]
    the number of identifiers drawn from [uuid4] before this answer. *)
Fixpoint grade (uuid4 : nat → string) (quiz_id user_id : string)
  (found : list Question.t) (k : nat) (answers : list pyvalue)
  (submissions : list orm_object) (score : Z)
  : outcome (list orm_object * Z) :=
  match answers with
  | [] => Return (submissions, score)
  | answer :: rest =>
      match Value.subscript answer "question_id" with
      | Raise f => Raise f
      | Return qid =>
          match next_question found qid with
          | Raise f => Raise f
          | Return question =>
              match Value.subscript answer "selected_answer" with
              | Raise f => Raise f
              | Return selected =>
                  let is_correct :=
                    Value.str_eq (Question.correct_answer question) selected in
                  grade uuid4 quiz_id user_id found (S k) rest
                    (submissions ++
                       [NewSubmission (uuid4 k) quiz_id user_id qid selected is_correct])
                    (if is_correct then score + 1 else score)
              end
          end
      end
  end.

Definition percentage_of (score total : Z) : outcome percent :=
  if total =? 0 then Raise (Unhandled ZeroDivisionError)
  else Return (Round2 score total).

Definition submit_quiz (uuid4 : nat → string) (now : Z) (quiz_id : string)
  (answers : list pyvalue) : request SubmitResponse :=
  found ← select (find_quiz quiz_id);
  match found with
  | None => raise (HTTPException 404 "Quiz not found")
  | Some _ =>
      question_ids ← lift (question_ids_of answers);
      rows ← (λ s, (select_questions quiz_id question_ids (store s), s));
      if negb (length rows =? length answers)%nat then
        raise (HTTPException 400 "Some questions do not belong to this quiz")
      else
        let total := Z.of_nat (length answers) in
        let user_id := uuid4 0%nat in
        graded ← lift (grade uuid4 quiz_id user_id rows 1 answers [] 0);
        db_add_all graded.1;;
        db_commit now;;
        pct ← lift (percentage_of graded.2 total);
        mret {| submit_quiz_id := quiz_id;
                score := graded.2;
                total_questions := total;
                percentage := pct |}
  end.

Record AnswerView : Type := {
  answer_question_id : string;
  answer_selected : string;
  answer_is_correct : bool
}.

(** An entry of [results_by_user] while the submissions are read; its
    [percentage], 0.0 until the second loop, is left out. *)
Record UserTally : Type := {
  tally_user_id : string;
  tally_quiz_id : string;
  tally_score : Z;
  tally_total_questions : Z;
  tally_answers : list AnswerView
}.

Record UserResult : Type := {
  result_user_id : string;
  result_quiz_id : string;
  result_score : Z;
  result_total_questions : Z;
  result_percentage : percent;
  result_answers : list AnswerView
}.

(** The body of the loop over the submissions of the quiz. *)
Definition record_submission (quiz_id : string) (results_by_user : Dict.t UserTally)
  (submission : Submission.t) : Dict.t UserTally :=
  let user_id := Submission.user_id submission in
  let started :=
    if negb (Dict.mem user_id results_by_user) then
      Dict.set user_id
        {| tally_user_id := user_id;
           tally_quiz_id := quiz_id;
           tally_score := 0;
           tally_total_questions := 0;
           tally_answers := [] |}
        results_by_user
    else results_by_user in
  Dict.alter
    (λ r, {| tally_user_id := tally_user_id r;
             tally_quiz_id := tally_quiz_id r;
             tally_score :=
               if Submission.is_correct submission then tally_score r + 1
               else tally_score r;
             tally_total_questions := tally_total_questions r + 1;
             tally_answers :=
               tally_answers r
               ++ [{| answer_question_id := Submission.question_id submission;
                      answer_selected := Submission.selected_answer submission;
                      answer_is_correct := Submission.is_correct submission |}] |})
    user_id started.

(** The second loop: the percentage of a user. *)
Definition with_percentage (r : UserTally) : outcome UserResult :=
  match percentage_of (tally_score r) (tally_total_questions r) with
  | Return pct =>
      Return {| result_user_id := tally_user_id r;
                result_quiz_id := tally_quiz_id r;
                result_score := tally_score r;
                result_total_questions := tally_total_questions r;
                result_percentage := pct;
                result_answers := tally_answers r |}
  | Raise e => Raise e
  end.

Definition submissions_of (quiz_id : string) (db : Database) : list Submission.t :=
  List.filter (λ s, String.eqb (Submission.quiz_id s) quiz_id) (quiz_submissions db).

Definition get_quiz_results (quiz_id : string) : request (list UserResult) :=
  found ← select (find_quiz quiz_id);
  match found with
  | None => raise (HTTPException 404 "Quiz not found")
  | Some _ =>
      submissions ← select (submissions_of quiz_id);
      match submissions with
      | [] => raise (HTTPException 404 "No submissions found for this quiz")
      | _ =>
          let results_by_user := foldl (record_submission quiz_id) [] submissions in
          lift (traverse with_percentage (Dict.values results_by_user))
      end
  end.

End Quizzes.

(** ** [app/routers/analytics.py] *)

Module Analytics.

(** An entry of [question_stats] or of [quiz_stats]; [stats_key] is its
    [question_id] or its [quiz_id]. *)
Record Stats : Type := {
  stats_key : string;
  total_attempts : Z;
  correct_attempts : Z
}.

Record StatsView : Type := {
  view_key : string;
  view_total_attempts : Z;
  view_correct_attempts : Z;
  view_accuracy_percentage : Quizzes.percent
}.

(** The body of the loop over the submissions, the same in both handlers
    but for the column [key] the statistics are kept by. *)
Definition record_attempt (key : Submission.t → string) (stats : Dict.t Stats)
  (submission : Submission.t) : Dict.t Stats :=
  let k := key submission in
  let started :=
    if negb (Dict.mem k stats) then
      Dict.set k {| stats_key := k; total_attempts := 0; correct_attempts := 0 |} stats
    else stats in
  let counted :=
    Dict.alter (λ r, {| stats_key := stats_key r;
                        total_attempts := total_attempts r + 1;
                        correct_attempts := correct_attempts r |}) k started in
  if Submission.is_correct submission then
    Dict.alter (λ r, {| stats_key := stats_key r;
                        total_attempts := total_attempts r;
                        correct_attempts := correct_attempts r + 1 |}) k counted
  else counted.

(** [{**stats, "accuracy_percentage": round(...)}] *)
Definition with_accuracy (r : Stats) : outcome StatsView :=
  match Quizzes.percentage_of (correct_attempts r) (total_attempts r) with
  | Return pct =>
      Return {| view_key := stats_key r;
                view_total_attempts := total_attempts r;
                view_correct_attempts := correct_attempts r;
                view_accuracy_percentage := pct |}
  | Raise e => Raise e
  end.

(** [round((correct / total) * 100, 2) if total > 0 else 0.0] *)
Inductive accuracy : Type :=
| Accuracy (pct : Quizzes.percent)
| ZeroAccuracy.

Definition accuracy_of (correct total : Z) : accuracy :=
  if 0 <? total then Accuracy (Quizzes.Round2 correct total) else ZeroAccuracy.

Record QuizAnalytics : Type := {
  analytics_quiz_id : string;
  analytics_start_date : option string;
  analytics_end_date : option string;
  quiz_total_submissions : Z;
  quiz_total_correct : Z;
  quiz_accuracy_percentage : accuracy;
  question_stats : list StatsView
}.

(** [datetime.strptime(date, "%Y-%m-%d") if date else None]; [strptime]
    gives the instant of the date, or nothing for a [ValueError]. *)
Definition parse_bound (strptime : string → option Z) (date : option string)
  : option (option Z) :=
  match date with
  | Some (String _ _ as text) =>
      match strptime text with
      | Some instant => Some (Some instant)
      | None => None
      end
  | _ => Some None
  end.

(** The submissions of the quiz within the bounds that are given. *)
Definition submissions_between (quiz_id : string) (start finish : option Z)
  (db : Database) : list Submission.t :=
  List.filter
    (λ s, String.eqb (Submission.quiz_id s) quiz_id
          && match start with
             | Some t => t <=? Submission.created_at s
             | None => true
             end
          && match finish with
             | Some t => Submission.created_at s <=? t
             | None => true
             end)
    (quiz_submissions db).

Definition get_quiz_analytics (strptime : string → option Z) (quiz_id : string)
  (start_date end_date : option string) : request QuizAnalytics :=
  found ← select (Quizzes.find_quiz quiz_id);
  match found with
  | None => raise (HTTPException 404 "Quiz not found")
  | Some _ =>
      match parse_bound strptime start_date, parse_bound strptime end_date with
      | Some start, Some finish =>
          submissions ← select (submissions_between quiz_id start finish);
          match submissions with
          | [] =>
              raise (HTTPException 404
                       "No submissions found for this quiz in the given date range")
          | _ =>
              let total_submissions := Z.of_nat (length submissions) in
              let total_correct := sum_correct submissions in
              let stats := foldl (record_attempt Submission.question_id) [] submissions in
              stats_list ← lift (traverse with_accuracy (Dict.values stats));
              mret {| analytics_quiz_id := quiz_id;
                      analytics_start_date := start_date;
                      analytics_end_date := end_date;
                      quiz_total_submissions := total_submissions;
                      quiz_total_correct := total_correct;
                      quiz_accuracy_percentage :=
                        accuracy_of total_correct total_submissions;
                      question_stats := stats_list |}
          end
      | _, _ => raise (HTTPException 400 "Invalid date format. Use YYYY-MM-DD.")
      end
  end.

Record UserAnalytics : Type := {
  analytics_user_id : string;
  total_attempted_quizzes : Z;
  user_total_submissions : Z;
  user_total_correct : Z;
  user_accuracy_percentage : accuracy;
  quiz_stats : list StatsView
}.

(** SELECT ... WHERE user_id = :user_id, on a column of type UUID: the
    texts are compared as the UUIDs they spell.  [uuid_of] is the reading
    of a text as a UUID by the database driver: the 128 bits for a text it
    takes, in any of the spellings it takes, nothing for a text it
    refuses. *)
Definition submissions_by (uuid_of : string → option N) (user_id : string)
  (db : Database) : list Submission.t :=
  match uuid_of user_id with
  | Some u =>
      List.filter (λ s, bool_decide (uuid_of (Submission.user_id s) = Some u))
        (quiz_submissions db)
  | None => []
  end.

Definition get_user_analytics (uuid_of : string → option N) (user_id : string)
  : request UserAnalytics :=
  match uuid_of user_id with
  | None => raise (Unhandled DBAPIError)
  | Some _ =>
  submissions ← select (submissions_by uuid_of user_id);
  match submissions with
  | [] => raise (HTTPException 404 "No submissions found for this user")
  | _ =>
      let attempted : gset string := list_to_set (Submission.quiz_id <$> submissions) in
      let total_submissions := Z.of_nat (length submissions) in
      let total_correct := sum_correct submissions in
      let stats := foldl (record_attempt Submission.quiz_id) [] submissions in
      stats_list ← lift (traverse with_accuracy (Dict.values stats));
      mret {| analytics_user_id := user_id;
              total_attempted_quizzes := Z.of_nat (size attempted);
              user_total_submissions := total_submissions;
              user_total_correct := total_correct;
              user_accuracy_percentage := accuracy_of total_correct total_submissions;
              quiz_stats := stats_list |}
  end
  end.

End Analytics.

(** ** Vocabulary of the statements *)

(** The identifiers of the request resolve: [create_quiz] gets as far as the
    generation service. *)
Definition files_resolve (payload : Quizzes.QuizCreateRequest) (db : Database)
  : Prop :=
  Quizzes.requested_documents (Quizzes.file_ids payload) db ≠ []
  ∧ length (Quizzes.requested_documents (Quizzes.file_ids payload) db)
    = length (Quizzes.file_ids payload).

(** Output that did not parse, is not a list, or has not the requested
    length. *)
Definition malformed (n : Z) (g : Quizzes.generation) : Prop :=
  match g with
  | Quizzes.GenerationFailed _ => True
  | Quizzes.Generated (PyList l) => Z.of_nat (length l) ≠ n
  | Quizzes.Generated _ => True
  end.

(** Two questions that differ at most in their correct answer. *)
Definition same_but_answer (a b : Question.t) : Prop :=
  Question.question_id a = Question.question_id b
  ∧ Question.quiz_id a = Question.quiz_id b
  ∧ Question.question a = Question.question b
  ∧ Question.options a = Question.options b.

(** Two stored states that differ at most in the correct answers of their
    questions. *)
Definition same_but_answers (db1 db2 : Database) : Prop :=
  documents db1 = documents db2
  ∧ quizzes db1 = quizzes db2
  ∧ Forall2 same_but_answer (questions db1) (questions db2)
  ∧ quiz_submissions db1 = quiz_submissions db2.

(** What [get_quiz] shows of a question. *)
Definition view (q : Question.t) : Quizzes.QuestionView :=
  {| Quizzes.view_question_id := Question.question_id q;
     Quizzes.view_question := Question.question q;
     Quizzes.view_options := Question.options q |}.

(** The questions of a quiz, in table order. *)
Definition questions_of (quiz_id : string) (db : Database) : list Question.t :=
  List.filter (λ q, String.eqb (Question.quiz_id q) quiz_id) (questions db).

(** The documents a search matches, before pagination. *)
Definition matching (pg : Documents.Postgres) (q : string) (types : list string)
  (db : Database) : list Document.t :=
  List.filter (Documents.matches pg q types) (documents db).

(** The aliases of a file-type filter. *)
Definition aliases (type : string) : list string :=
  Py.strip <$> Py.split "," type.

Definition recognized (alias : string) : Prop :=
  alias = "txt" ∨ alias = "pdf" ∨ alias = "docx".

(** The primary key of [questions]. *)
Definition questions_keyed (db : Database) : Prop :=
  NoDup (Question.question_id <$> questions db).

(** The answer [a] of a submission is for the question [question_id]. *)
Definition references (a : pyvalue) (question_id : string) : Prop :=
  Value.subscript a "question_id" = Return (PyStr question_id).



(** The answer [a] of a submission selects [qa.2] for the question [qa.1]. *)
Definition answers_with (a : pyvalue) (qa : string * string) : Prop :=
  Value.subscript a "question_id" = Return (PyStr qa.1)
  ∧ Value.subscript a "selected_answer" = Return (PyStr qa.2).

(** The stored correct answer of a question of a quiz. *)
Definition stored_answer (quiz_id question_id : string) (db : Database)
  : option string :=
  Question.correct_answer
    <$> List.find (λ q, String.eqb (Question.question_id q) question_id)
          (questions_of quiz_id db).

(** Exact equality of the selected answer with the stored one. *)
Definition exactly_right (quiz_id : string) (db : Database) (qa : string * string)
  : bool :=
  bool_decide (stored_answer quiz_id qa.1 db = Some qa.2).

(** The rows a graded submission adds: the answers in order, each under the
    next identifier drawn from [uuid4], [k] being the first. *)
Fixpoint graded_rows (uuid4 : nat → string) (now : Z) (quiz_id : string)
  (db : Database) (k : nat) (qas : list (string * string)) : list Submission.t :=
  match qas with
  | [] => []
  | qa :: rest =>
      Submission.Build (uuid4 k) quiz_id (uuid4 0%nat) qa.1 qa.2
        (exactly_right quiz_id db qa) now
      :: graded_rows uuid4 now quiz_id db (S k) rest
  end.

(** The same rows as the objects [submit_quiz] queues. *)
Fixpoint graded_objects (uuid4 : nat → string) (quiz_id : string)
  (db : Database) (k : nat) (qas : list (string * string)) : list orm_object :=
  match qas with
  | [] => []
  | qa :: rest =>
      NewSubmission (uuid4 k) quiz_id (uuid4 0%nat) (PyStr qa.1) (PyStr qa.2)
        (exactly_right quiz_id db qa)
      :: graded_objects uuid4 quiz_id db (S k) rest
  end.

(** A database with more submissions. *)
Definition with_submissions (db : Database) (rows : list Submission.t) : Database :=
  {| documents := documents db;
     quizzes := quizzes db;
     questions := questions db;
     quiz_submissions := quiz_submissions db ++ rows |}.

(** The rows the validation query of [submit_quiz] finds: the questions of
    the quiz that one of the answers names. *)
Definition resolved (quiz_id : string) (ids : list string) (db : Database)
  : list Question.t :=
  List.filter
    (λ q, String.eqb (Question.quiz_id q) quiz_id
          && existsb (Value.str_eq (Question.question_id q)) (PyStr <$> ids))
    (questions db).

(** The check the specification asks of a generated entry: its correct
    answer is, character for character, one of its options. *)
Definition answer_among_options (entry : pyvalue) : bool :=
  match Value.subscript entry "correct_answer", Value.subscript entry "options" with
  | Return (PyStr answer), Return (PyList options) =>
      existsb (Value.str_eq answer) options
  | _, _ => false
  end.

(** What [create_quiz] needs of a generated entry to store it: a text under
    [question], a value with a JSON form under [options], a text under
    [correct_answer]. *)
Definition entry_fields (entry : pyvalue) : option (string * pyvalue * string) :=
  match Value.subscript entry "question", Value.subscript entry "options",
        Value.subscript entry "correct_answer" with
  | Return (PyStr text), Return options, Return (PyStr answer) =>
      if Value.json_serializable options then Some (text, options, answer) else None
  | _, _, _ => None
  end.

(** The questions [create_quiz] queues for entries with these fields,
    numbered from [index]. *)
Fixpoint question_objects (quiz_id : string) (index : Z)
  (fields : list (string * pyvalue * string)) : list orm_object :=
  match fields with
  | [] => []
  | (text, options, answer) :: rest =>
      NewQuestion (Quizzes.question_id_of quiz_id index) quiz_id (PyStr text)
        (JsonDumps options) (PyStr answer)
      :: question_objects quiz_id (index + 1) rest
  end.

(** The rows of these questions. *)
Fixpoint question_rows (quiz_id : string) (index : Z)
  (fields : list (string * pyvalue * string)) : list Question.t :=
  match fields with
  | [] => []
  | (text, options, answer) :: rest =>
      Question.Build (Quizzes.question_id_of quiz_id index) quiz_id text
        (JsonDumps options) answer
      :: question_rows quiz_id (index + 1) rest
  end.

(** The row of the quiz a request creates. *)
Definition quiz_row (payload : Quizzes.QuizCreateRequest) (quiz_id : string)
  (now : Z) : Quiz.t :=
  Quiz.Build quiz_id (Quizzes.name payload) (Quizzes.difficulty payload)
    (Quizzes.topic payload) (Quizzes.number_of_questions payload)
    (Quizzes.question_type payload) (Some (Quizzes.custom_instructions payload)) now.

(** A database with one more quiz and its questions. *)
Definition with_quiz (db : Database) (quiz : Quiz.t) (rows : list Question.t)
  : Database :=
  {| documents := documents db;
     quizzes := quizzes db ++ [quiz];
     questions := questions db ++ rows;
     quiz_submissions := quiz_submissions db |}.

(** The database takes the texts and the number of the request. *)
Definition request_storable (payload : Quizzes.QuizCreateRequest) : bool :=
  pg_text (Quizzes.name payload) && pg_text (Quizzes.difficulty payload)
  && pg_text (Quizzes.topic payload) && pg_int4 (Quizzes.number_of_questions payload)
  && pg_text (Quizzes.question_type payload)
  && pg_text (Quizzes.custom_instructions payload).

(** The database takes the identifier and the selected answer of an
    answer. *)
Definition answer_storable (qa : string * string) : bool :=
  pg_text qa.1 && pg_text qa.2.

(** The database takes the text and the correct answer of a generated
    entry. *)
Definition fields_storable (f : string * pyvalue * string) : bool :=
  pg_text f.1.1 && pg_text f.2.

(** The object [create_quiz] queues for a generated entry that has the three
    fields and options with a JSON form. *)
Definition queued_for (quiz_id : string) (entry : pyvalue) (o : orm_object) : Prop :=
  ∃ question_id text options answer,
    o = NewQuestion question_id quiz_id text (JsonDumps options) answer
    ∧ Value.subscript entry "question" = Return text
    ∧ Value.subscript entry "options" = Return options
    ∧ Value.json_serializable options = true
    ∧ Value.subscript entry "correct_answer" = Return answer.

(** A file [upload_file] takes as far as the allocation of its identifier:
    of an allowed type, written under its temporary path, and its text
    extracts. *)
Definition uploadable (ext : Documents.Extractors) (file : Documents.UploadFile)
  : Prop :=
  Documents.content_type file ∈ Documents.allowed_types
  ∧ Documents.write_temp ext (Documents.temp_file_path file) (Documents.body file)
    = Return ()
  ∧ ∃ text, Documents.extract ext file = Return text.

(** A file whose upload is carried through with the extracted [text]: it
    is of an allowed type and written under its temporary path, [text]
    extracts, [to_tsvector] gives its search vector, the database takes the
    name of the file, and the temporary file is removed. *)
Definition accepted_with (pg : Documents.Postgres) (ext : Documents.Extractors)
  (file : Documents.UploadFile) (text : option string) : Prop :=
  Documents.content_type file ∈ Documents.allowed_types
  ∧ Documents.write_temp ext (Documents.temp_file_path file) (Documents.body file)
    = Return ()
  ∧ Documents.extract ext file = Return text
  ∧ Documents.to_tsvector pg text = Return (ToTsvector <$> text)
  ∧ pg_text (Documents.filename file) = true
  ∧ Documents.remove_temp ext (Documents.temp_file_path file) = Return ().

Definition accepted (pg : Documents.Postgres) (ext : Documents.Extractors)
  (file : Documents.UploadFile) : Prop :=
  ∃ text, accepted_with pg ext file text.

(** Uploads served one after the other, each the only part of its form,
    under the field name "file": the answers and the database left. *)
Fixpoint ingest_all (pg : Documents.Postgres) (ext : Documents.Extractors) (now : Z)
  (files : list Documents.UploadFile) (db : Database)
  : list (outcome Documents.UploadResponse) * Database :=
  match files with
  | [] => ([], db)
  | file :: rest =>
      let '(r, db') :=
        serve (Documents.upload_file pg ext now [("file", Documents.FormFile file)])
          db in
      let '(rs, db'') := ingest_all pg ext now rest db' in
      (r :: rs, db'')
  end.

(** [k] zeros. *)
Definition zeros (k : nat) : string :=
  String.string_of_list_ascii (repeat "0"%char k).

Fixpoint all_chars (p : ascii → bool) (s : string) : bool :=
  match s with
  | EmptyString => true
  | String c r => p c && all_chars p r
  end.

(** The identifiers of [n] uploads served one after the other on a table
    whose greatest numeric suffix is [m]. *)
Definition allocated (m : Z) (n : nat) : list string :=
  (λ k, Documents.custom_file_id (m + 1 + Z.of_nat k)) <$> seq 0 n.

(** The number of submissions of [l] whose column [key] is [k], and the
    number of the correct ones among them. *)
Definition attempts (key : Submission.t → string) (k : string)
  (l : list Submission.t) : Z :=
  Z.of_nat (length (List.filter (λ s, String.eqb (key s) k) l)).

Definition correct_among (key : Submission.t → string) (k : string)
  (l : list Submission.t) : Z :=
  Z.of_nat (length (List.filter
                      (λ s, String.eqb (key s) k && Submission.is_correct s) l)).

(** The statistics the analytics handlers build by the column [key]. *)
Definition tally (key : Submission.t → string) (l : list Submission.t)
  : Dict.t Analytics.Stats :=
  foldl (Analytics.record_attempt key) [] l.

(** An entry of the statistics with its percentage. *)
Definition stats_view (r : Analytics.Stats) : Analytics.StatsView :=
  {| Analytics.view_key := Analytics.stats_key r;
     Analytics.view_total_attempts := Analytics.total_attempts r;
     Analytics.view_correct_attempts := Analytics.correct_attempts r;
     Analytics.view_accuracy_percentage :=
       Quizzes.Round2 (Analytics.correct_attempts r) (Analytics.total_attempts r) |}.

(** The sum of a list of integers. *)
Definition total (l : list Z) : Z := foldr Z.add 0 l.

(** What [get_quiz_results] shows of a submission. *)
Definition answer_view (s : Submission.t) : Quizzes.AnswerView :=
  {| Quizzes.answer_question_id := Submission.question_id s;
     Quizzes.answer_selected := Submission.selected_answer s;
     Quizzes.answer_is_correct := Submission.is_correct s |}.

(** The submissions of a user among [l], in order. *)
Definition by_user (user_id : string) (l : list Submission.t) : list Submission.t :=
  List.filter (λ s, String.eqb (Submission.user_id s) user_id) l.

(** The entry of a user in the results of a quiz with the submissions [l]. *)
Definition user_tally (quiz_id user_id : string) (l : list Submission.t)
  : Quizzes.UserTally :=
  {| Quizzes.tally_user_id := user_id;
     Quizzes.tally_quiz_id := quiz_id;
     Quizzes.tally_score := correct_among Submission.user_id user_id l;
     Quizzes.tally_total_questions := attempts Submission.user_id user_id l;
     Quizzes.tally_answers := answer_view <$> by_user user_id l |}.

Definition user_result (quiz_id user_id : string) (l : list Submission.t)
  : Quizzes.UserResult :=
  {| Quizzes.result_user_id := user_id;
     Quizzes.result_quiz_id := quiz_id;
     Quizzes.result_score := correct_among Submission.user_id user_id l;
     Quizzes.result_total_questions := attempts Submission.user_id user_id l;
     Quizzes.result_percentage :=
       Quizzes.Round2 (correct_among Submission.user_id user_id l)
         (attempts Submission.user_id user_id l);
     Quizzes.result_answers := answer_view <$> by_user user_id l |}.

(** The dictionary [get_quiz_results] builds. *)
Definition results_by_user (quiz_id : string) (l : list Submission.t)
  : Dict.t Quizzes.UserTally :=
  foldl (Quizzes.record_submission quiz_id) [] l.

(** The rows of a page of a search; none when the request fails. *)
Definition search_page (pg : Documents.Postgres) (q : string) (lim : Z)
  (sort_by : string) (type : option string) (db : Database) (page : nat)
  : list Documents.SearchRow :=
  match (serve (Documents.search_files pg q (Z.of_nat page) lim sort_by type) db).1 with
  | Return r => Documents.results r
  | Raise _ => []
  end.

(** The rows of a page of the list of quizzes; none when the request fails. *)
Definition quizzes_page (collate_ge : string → string → bool) (lim : Z)
  (db : Database) (page : nat) : list Quiz.t :=
  match (serve (Quizzes.get_all_quizzes collate_ge (Z.of_nat page) lim) db).1 with
  | Return r => Quizzes.page_data r
  | Raise _ => []
  end.

(** The rows of all the documents a search matches. *)
Definition matching_rows (pg : Documents.Postgres) (q : string)
  (types : list string) (db : Database) : list Documents.SearchRow :=
  Documents.search_row pg q <$> matching pg q types db.

(** The order of [ORDER BY relevance DESC] and of [ORDER BY name ASC]. *)
Definition by_relevance (a b : Documents.SearchRow) : bool :=
  Qle_bool (Documents.relevance b) (Documents.relevance a).

Definition by_name (pg : Documents.Postgres) (a b : Documents.SearchRow) : bool :=
  Documents.collate_le pg (Documents.row_name a) (Documents.row_name b).

(** The whole sorted list a search cuts its pages from. *)
Definition sorted_rows (pg : Documents.Postgres) (q : string) (types : list string)
  (sort_by : string) (db : Database) : list Documents.SearchRow :=
  Documents.order_by
    (if String.eqb sort_by "relevance" then by_relevance else by_name pg)
    (matching_rows pg q types db).

(** The order a search asks for. *)
Definition sort_order (pg : Documents.Postgres) (sort_by : string)
  : Documents.SearchRow → Documents.SearchRow → bool :=
  if String.eqb sort_by "relevance" then by_relevance else by_name pg.

(** The rows of the query with this LIMIT and OFFSET in the order it gives
    them, before the window is cut. *)
Definition query_rows (pg : Documents.Postgres) (q : string) (types : list string)
  (sort_by : string) (lim offset : Z) (db : Database) : list Documents.SearchRow :=
  Documents.order_by (sort_order pg sort_by)
    (Documents.search_row pg q
       <$> Documents.order_by (Documents.heap_le pg lim offset)
             (matching pg q types db)).

(** No two different rows of the matching documents have the same place in
    the order asked for. *)
Definition untied (pg : Documents.Postgres) (q : string) (types : list string)
  (sort_by : string) (db : Database) : Prop :=
  ∀ a b, a ∈ matching_rows pg q types db → b ∈ matching_rows pg q types db →
         sort_order pg sort_by a b = true → sort_order pg sort_by b a = true →
         a = b.

(** The questions [create_quiz] queues for entries with the values [raws]
    under [question], [options] and [correct_answer], numbered from
    [index]. *)
Fixpoint raw_objects (quiz_id : string) (index : Z)
  (raws : list (pyvalue * pyvalue * pyvalue)) : list orm_object :=
  match raws with
  | [] => []
  | (text, options, answer) :: rest =>
      NewQuestion (Quizzes.question_id_of quiz_id index) quiz_id text
        (JsonDumps options) answer
      :: raw_objects quiz_id (index + 1) rest
  end.



(** An object [submit_quiz] queues for a quiz and a user. *)
Definition graded_object (quiz_id user_id : string) (o : orm_object) : Prop :=
  ∃ submission_id question_id selected is_correct,
    o = NewSubmission submission_id quiz_id user_id question_id selected is_correct.

(** A row [submit_quiz] writes for a quiz and a user at a time. *)
Definition graded_row (quiz_id user_id : string) (now : Z) (r : Submission.t) : Prop :=
  Submission.quiz_id r = quiz_id
  ∧ Submission.user_id r = user_id
  ∧ Submission.created_at r = now.

(** The answer is a JSON object without the key. *)
Definition lacks (key : string) (a : pyvalue) : Prop :=
  ∃ entries, a = PyDict entries ∧ Value.dict_get key entries = None.

Definition is_dict (a : pyvalue) : Prop := ∃ entries, a = PyDict entries.


(** What [get_document] shows of a stored document. *)
Definition details_of (utcnow : string) (d : Document.t) : Documents.DocumentDetails :=
  {| Documents.data_file_id := Document.file_id d;
     Documents.data_name := Document.name d;
     Documents.data_file_type := Document.file_type d;
     Documents.data_content := Document.content d;
     Documents.metadata_length :=
       match Document.content d with
       | Some (String _ _ as text) => Z.of_nat (String.length text)
       | _ => 0
       end;
     Documents.metadata_retrieved_at := utcnow |}.

(** The document an upload stores. *)
Definition uploaded (file : Documents.UploadFile) (file_id : string)
  (text : option string) : Document.t :=
  Document.Build file_id (Documents.filename file) (Documents.content_type file)
    text (ToTsvector <$> text).

(** ** Sample data *)

Module Sample.

Definition uuid4 (k : nat) : string := "uuid-" ++ Py.str (Z.of_nat k).

Definition seo : Document.t :=
  Document.Build "file001" "seo.txt" "text/plain"
    (Some "SEO means search engine optimization")
    (Some (ToTsvector "SEO means search engine optimization")).

Definition library : Database :=
  {| documents := [seo]; quizzes := []; questions := []; quiz_submissions := [] |}.

Definition payload : Quizzes.QuizCreateRequest :=
  {| Quizzes.name := "SEO basics";
     Quizzes.difficulty := "easy";
     Quizzes.topic := "SEO";
     Quizzes.file_ids := ["file001"];
     Quizzes.number_of_questions := 1;
     Quizzes.question_type := "mcq";
     Quizzes.custom_instructions := "" |}.

(** The first entry of the output format the prompt of [create_quiz]
    shows to the generation service. *)
Definition prompt_entry : pyvalue :=
  PyDict [(PyStr "question_id", PyStr "q1");
          (PyStr "question", PyStr "What is SEO?");
          (PyStr "options",
           PyList [PyStr "A. Search Engine Optimization";
                   PyStr "B. Search Engine Operation";
                   PyStr "C. Software Engineering Optimization";
                   PyStr "D. None of the above"]);
          (PyStr "correct_answer", PyStr "A")].

Definition service (p : Quizzes.Prompt) : Quizzes.generation :=
  Quizzes.Generated (PyList [prompt_entry]).

(** A request for three questions, answered with two. *)
Definition payload3 : Quizzes.QuizCreateRequest :=
  {| Quizzes.name := "SEO basics";
     Quizzes.difficulty := "easy";
     Quizzes.topic := "SEO";
     Quizzes.file_ids := ["file001"];
     Quizzes.number_of_questions := 3;
     Quizzes.question_type := "mcq";
     Quizzes.custom_instructions := "" |}.

Definition short_service (p : Quizzes.Prompt) : Quizzes.generation :=
  Quizzes.Generated (PyList [prompt_entry; prompt_entry]).

(** A stand-in for the full-text search of the database: a document matches
    when the query occurs in its text, every match has rank 1, names are
    ordered character by character; a query with an even OFFSET meets the
    rows in table order, one with an odd OFFSET from the last identifier
    to the first. *)
Definition pg : Documents.Postgres :=
  {| Documents.to_tsvector_ok := λ _, true;
     Documents.to_tsquery_ok := λ _, true;
     Documents.ts_match := λ v q,
       match v with
       | ToTsvector text =>
           match String.index 0 q text with Some _ => true | None => false end
       end;
     Documents.ts_rank := λ _ _, 1%Q;
     Documents.collate_le := String.leb;
     Documents.heap_le := λ lim offset a b,
       if Z.even offset then true
       else String.leb (Document.file_id b) (Document.file_id a) |}.

Definition extractors : Documents.Extractors :=
  {| Documents.write_temp := λ path bytes, Return ();
     Documents.read_utf8 := λ bytes, Return bytes;
     Documents.extract_text := λ bytes, Return bytes;
     Documents.docx_paragraphs := λ bytes, Return [bytes];
     Documents.remove_temp := λ path, Return () |}.

Definition notes : Documents.UploadFile :=
  {| Documents.filename := "notes.txt";
     Documents.content_type := "text/plain";
     Documents.body := "SEO means search engine optimization" |}.

Definition paper : Documents.UploadFile :=
  {| Documents.filename := "paper.pdf";
     Documents.content_type := "application/pdf";
     Documents.body := "Ranking of documents" |}.

Definition letters : json_text :=
  JsonDumps (PyList [PyStr "A"; PyStr "B"; PyStr "C"; PyStr "D"]).

(** Two quizzes; the questions of the first have the correct answer "A". *)
Definition classroom : Database :=
  {| documents := [seo];
     quizzes := [Quiz.Build "Q1" "SEO basics" "easy" "SEO" 2 "mcq" (Some "") 0;
                 Quiz.Build "Q2" "Ranking" "hard" "SEO" 1 "mcq" (Some "") 0];
     questions := [Question.Build "Q1_q1" "Q1" "What is SEO?" letters "A";
                   Question.Build "Q1_q2" "Q1" "What is a crawler?" letters "A";
                   Question.Build "Q2_q1" "Q2" "What is a rank?" letters "B"];
     quiz_submissions := [] |}.

(** The same, with other correct answers. *)
Definition classroom' : Database :=
  {| documents := [seo];
     quizzes := [Quiz.Build "Q1" "SEO basics" "easy" "SEO" 2 "mcq" (Some "") 0;
                 Quiz.Build "Q2" "Ranking" "hard" "SEO" 1 "mcq" (Some "") 0];
     questions := [Question.Build "Q1_q1" "Q1" "What is SEO?" letters "C";
                   Question.Build "Q1_q2" "Q1" "What is a crawler?" letters "D";
                   Question.Build "Q2_q1" "Q2" "What is a rank?" letters "B"];
     quiz_submissions := [] |}.

Definition answer (question_id selected_answer : string) : pyvalue :=
  PyDict [(PyStr "question_id", PyStr question_id);
          (PyStr "selected_answer", PyStr selected_answer)].

(** The classroom after three users' answers: two by the first user and one
    by the second to the first quiz, one by the first user to the second. *)
Definition graded : Database :=
  {| documents := documents classroom;
     quizzes := quizzes classroom;
     questions := questions classroom;
     quiz_submissions :=
       [Submission.Build "s1" "Q1" "ann" "Q1_q1" "A" true 10;
        Submission.Build "s2" "Q1" "ann" "Q1_q2" "a" false 10;
        Submission.Build "s3" "Q1" "bob" "Q1_q1" "A" true 20;
        Submission.Build "s4" "Q2" "ann" "Q2_q1" "B" true 30] |}.

(** A stand-in for [strptime]: two dates it knows, at instants 0 and 15. *)
Definition strptime (date : string) : option Z :=
  if String.eqb date "2024-01-01" then Some 0
  else if String.eqb date "2024-01-02" then Some 15
  else None.

(** A stand-in for the reading of UUIDs: it knows three users, the first
    also in capitals. *)
Definition uuid_of (text : string) : option N :=
  if String.eqb text "ann" || String.eqb text "ANN" then Some 1%N
  else if String.eqb text "bob" then Some 2%N
  else if String.eqb text "cyd" then Some 3%N
  else None.

(** A table with a document whose identifier is no "file" and a number. *)
Definition stuck : Database :=
  {| documents := [Document.Build "report" "report.txt" "text/plain" None None];
     quizzes := []; questions := []; quiz_submissions := [] |}.

Definition picture : Documents.UploadFile :=
  {| Documents.filename := "cat.png";
     Documents.content_type := "image/png";
     Documents.body := "" |}.

(** Two documents that match "SEO", with names out of order. *)
Definition shelf : Database :=
  {| documents :=
       [Document.Build "file001" "zebra.txt" "text/plain" (Some "SEO one")
          (Some (ToTsvector "SEO one"));
        Document.Build "file002" "apple.pdf" "application/pdf" (Some "SEO two")
          (Some (ToTsvector "SEO two"));
        Document.Build "file003" "mango.txt" "text/plain" (Some "other")
          (Some (ToTsvector "other"))];
     quizzes := []; questions := []; quiz_submissions := [] |}.

Definition first_quiz : Quiz.t :=
  Quiz.Build "Q1" "SEO basics" "easy" "SEO" 2 "mcq" (Some "") 0.


End Sample.

(** * Properties *)

(** Running a request step by step. *)
Ltac run :=
  unfold serve, mbind, request_bind, mret, request_ret, raise, lift, select,
    db_add, db_add_all, db_commit; cbn [store pending fst snd].

(** ** Texts the database takes *)

Section Storable.

Lemma pg_text_app a b : pg_text (a ++ b) = pg_text a && pg_text b.
Proof.
  induction a as [|c a IH]; [done|]. simpl. by rewrite IH, andb_assoc.
Qed.

Lemma pg_text_uint d : pg_text (NilEmpty.string_of_uint d) = true.
Proof. induction d; cbn; auto. Qed.

Lemma pg_text_str n : pg_text (Py.str n) = true.
Proof.
  unfold Py.str, NilZero.string_of_int, NilZero.string_of_uint.
  destruct (Z.to_int n) as [d|d]; destruct d;
    cbn - [NilEmpty.string_of_uint]; try apply pg_text_uint; try reflexivity.
  all: cbn; try apply pg_text_uint.
Qed.

Lemma pg_text_zeros k : pg_text (zeros k) = true.
Proof. unfold zeros. induction k as [|k IH]; [done|]. cbn. exact IH. Qed.

Lemma pg_text_zfill width s : pg_text s = true → pg_text (Py.zfill width s) = true.
Proof.
  intros Hs. unfold Py.zfill.
  destruct (width <=? String.length s)%nat; [done|].
  fold (zeros (width - String.length s)).
  destruct s as [|c r]; [apply pg_text_zeros|].
  cbn [pg_text] in Hs. apply andb_true_iff in Hs as [Hc Hr].
  destruct (Ascii.eqb c "-" || Ascii.eqb c "+").
  - cbn [pg_text]. by rewrite Hc, pg_text_app, pg_text_zeros, Hr.
  - rewrite pg_text_app, pg_text_zeros. cbn [pg_text]. by rewrite Hc, Hr.
Qed.

Lemma pg_text_custom_file_id n : pg_text (Documents.custom_file_id n) = true.
Proof.
  unfold Documents.custom_file_id. rewrite pg_text_app.
  by rewrite pg_text_zfill by apply pg_text_str.
Qed.

Lemma pg_text_allowed_type file_type :
  file_type ∈ Documents.allowed_types → pg_text file_type = true.
Proof.
  unfold Documents.allowed_types. rewrite !elem_of_cons, elem_of_nil.
  by intros [-> | [-> | [-> | []]]].
Qed.

Lemma to_tsvector_text pg text v :
  Documents.to_tsvector pg text = Return v →
  v = ToTsvector <$> text
  ∧ match text with Some t => pg_text t | None => true end = true.
Proof.
  unfold Documents.to_tsvector. destruct text as [t|]; [|by intros [= <-]].
  destruct (pg_text t); [|done].
  by destruct (Documents.to_tsvector_ok pg t); intros [= <-].
Qed.

(** What an accepted upload does. *)
Lemma upload_file_accepted pg ext now field file db ids text :
  accepted_with pg ext file text →
  Documents.existing_ids (Document.file_id <$> documents db) = Return ids →
  Documents.custom_file_id (Py.max_default 0 ids + 1)
    ∉ Document.file_id <$> documents db →
  serve (Documents.upload_file pg ext now [(field, Documents.FormFile file)]) db
  = (Return {| Documents.message := "File uploaded successfully";
               Documents.file_id :=
                 Documents.custom_file_id (Py.max_default 0 ids + 1) |},
     {| documents :=
          documents db
          ++ [uploaded file (Documents.custom_file_id (Py.max_default 0 ids + 1)) text];
        quizzes := quizzes db;
        questions := questions db;
        quiz_submissions := quiz_submissions db |}).
Proof.
  intros (Htype & Hwrite & Htext & Hvector & Hname & Hremove) Hids Hfresh.
  destruct (to_tsvector_text _ _ _ Hvector) as [_ Hcontent].
  unfold Documents.upload_file.
  cbn [Documents.form_values foldl Dict.set Dict.values fmap list_fmap snd fst
       length Nat.eqb negb].
  rewrite bool_decide_eq_true_2 by done. cbn [negb]. run.
  rewrite Hwrite, Htext. cbn [store pending]. rewrite Hids, Hvector.
  cbn [store pending app flush]. unfold insert. cbn [storable].
  rewrite pg_text_custom_file_id, Hname, (pg_text_allowed_type _ Htype), Hcontent.
  cbn [andb insert_row]. rewrite bool_decide_eq_false_2 by done.
  cbn [store pending]. rewrite Hremove. reflexivity.
Qed.

Lemma pg_text_question_id quiz_id index :
  pg_text quiz_id = true → pg_text (Quizzes.question_id_of quiz_id index) = true.
Proof.
  intros Hquiz. unfold Quizzes.question_id_of.
  by rewrite !pg_text_app, Hquiz, pg_text_str.
Qed.

End Storable.

(** ** Quiz creation *)

Section CreateQuiz.

Import Quizzes.

Variable service : Prompt → generation.
Variable uuid4 : nat → string.
Variable now : Z.

Lemma create_quiz_resolved payload db :
  files_resolve payload db →
  bool_decide (requested_documents (file_ids payload) db = [])
  || negb (length (requested_documents (file_ids payload) db)
           =? length (file_ids payload))%nat = false.
Proof.
  intros [Hne Hlen]. rewrite bool_decide_eq_false_2 by done.
  rewrite Hlen, Nat.eqb_refl. reflexivity.
Qed.

(** C3. When the try block around the generation call and the parsing of
    its answer raises, when the parsed value is not a list, or when the
    list has not the requested number of entries, [create_quiz] raises an
    [HTTPException] of status 500 and the database is left as it was: no
    quiz and no question is written. *)
Theorem create_quiz_rejects_malformed_output payload db :
  files_resolve payload db →
  (∀ p, malformed (number_of_questions payload) (service p)) →
  ∃ detail,
    serve (create_quiz service uuid4 now payload) db
    = (Raise (HTTPException 500 detail), db)
    ∧ (detail = "Invalid response from OpenAI."
       ∨ ∃ message, detail = "OpenAI error: " ++ message).
Proof.
  intros Hres Hbad. unfold create_quiz. run.
  rewrite (create_quiz_resolved _ _ Hres).
  match goal with |- context [service ?p] =>
    specialize (Hbad p); destruct (service p) as [msg|v] end.
  - exists ("OpenAI error: " ++ msg). split; [reflexivity | eauto].
  - exists "Invalid response from OpenAI.". split; [| by left].
    destruct v; try reflexivity. simpl in Hbad.
    apply Z.eqb_neq in Hbad. rewrite Hbad. reflexivity.
Qed.

Lemma str_inj : Inj (=) (=) Py.str.
Proof.
  intros a b Hab. unfold Py.str in Hab. apply DecimalZ.to_int_inj.
  assert (∀ n, NilZero.int_of_string (NilZero.string_of_int (Z.to_int n))
               = Some (Z.to_int n)) as Hround.
  { intros n. apply NilZero.isi; destruct n; cbn; try discriminate;
      intros [= H]; by apply DecimalPos.Unsigned.to_uint_nonnil in H. }
  pose proof (Hround a) as Ha. rewrite Hab, Hround in Ha. congruence.
Qed.

Lemma question_id_of_inj quiz_id : Inj (=) (=) (question_id_of quiz_id).
Proof.
  intros a b Hab. unfold question_id_of in Hab.
  by apply String.app_inj, String.app_inj, str_inj in Hab.
Qed.

(** The loop either raises, with nothing written, or queues one question
    for each entry. *)
Lemma add_questions_run quiz_id entries index s :
  (∃ e s', add_questions quiz_id index entries s = (Raise (Unhandled e), s')
           ∧ store s' = store s)
  ∨ (∃ objs, add_questions quiz_id index entries s
             = (Return (), {| store := store s; pending := pending s ++ objs |})
             ∧ Forall2 (queued_for quiz_id) entries objs).
Proof.
  revert index s. induction entries as [|entry entries IH]; intros index s.
  { right. exists []. cbn. rewrite app_nil_r. split; [by destruct s | constructor]. }
  cbn [add_questions]. run.
  assert (∀ key, (∃ e, Value.subscript entry key = Raise (Unhandled e))
                 ∨ ∃ v, Value.subscript entry key = Return v) as Hsub.
  { intros key. unfold Value.subscript.
    destruct entry as [| | | | | | |dict|]; try (left; by eexists).
    destruct (Value.dict_get key dict); [right | left]; by eexists. }
  destruct (Hsub "question") as [[e ->] | [text Htext]];
    [left; by exists e, s | rewrite Htext].
  destruct (Hsub "options") as [[e ->] | [options Hoptions]];
    [left; by exists e, s | rewrite Hoptions].
  unfold json_dumps.
  destruct (Value.json_serializable options) eqn:Hjson;
    [|left; by exists TypeError, s].
  destruct (Hsub "correct_answer") as [[e ->] | [answer Hanswer]];
    [left; by exists e, s | rewrite Hanswer].
  match goal with |- context [add_questions quiz_id (index + 1) entries ?s1] =>
    destruct (IH (index + 1) s1) as [(e & s' & -> & Hstore) | (objs & -> & Hobjs)] end.
  - left. by eexists _, _.
  - right. eexists (_ :: objs). cbn [store pending]. rewrite <- app_assoc.
    split; [reflexivity|]. constructor; [|done].
    by eexists _, _, _, _.
Qed.

Lemma add_questions_fields quiz_id entries fields index s :
  Forall2 (λ entry f, entry_fields entry = Some f) entries fields →
  add_questions quiz_id index entries s
  = (Return (), {| store := store s;
                   pending := pending s ++ question_objects quiz_id index fields |}).
Proof.
  intros Hfields. revert index s.
  induction Hfields as [|entry [[text options] answer] entries fields Hentry _ IH];
    intros index s.
  { cbn. rewrite app_nil_r. by destruct s. }
  unfold entry_fields in Hentry. cbn [add_questions]. run.
  destruct (Value.subscript entry "question") as [[]|]; try discriminate.
  destruct (Value.subscript entry "options") as [options'|]; try discriminate.
  destruct (Value.subscript entry "correct_answer") as [[]|]; try discriminate.
  unfold json_dumps.
  destruct (Value.json_serializable options'); [|discriminate].
  injection Hentry as -> -> ->. rewrite IH. cbn [store pending question_objects].
  by rewrite <- app_assoc.
Qed.

Lemma flush_refused queue db :
  Exists (λ o, ∀ db', insert now o db' = None) queue →
  flush now queue db = None.
Proof.
  intros Hbad. revert db.
  induction Hbad as [o queue Ho | o queue _ IH]; intros db; cbn [flush].
  - by rewrite Ho.
  - destruct (insert now o db); [apply IH | done].
Qed.

Lemma queued_refused quiz_id entry o :
  queued_for quiz_id entry o →
  entry_fields entry = None →
  ∀ db, insert now o db = None.
Proof.
  intros (qid & text & options & answer & -> & Htext & Hoptions & Hjson & Hanswer)
    Hnone db.
  unfold entry_fields in Hnone. rewrite Htext, Hoptions, Hanswer, Hjson in Hnone.
  unfold insert. destruct (storable _); [|done]. cbn [insert_row].
  destruct (bool_decide _); [done|]. destruct (bool_decide _); [|done].
  destruct text, answer; try done.
Qed.

Lemma flush_questions quiz_id fields index db :
  pg_text quiz_id = true →
  forallb fields_storable fields = true →
  quiz_id ∈ Quiz.quiz_id <$> quizzes db →
  (∀ j, index <= j →
        question_id_of quiz_id j ∉ Question.question_id <$> questions db) →
  flush now (question_objects quiz_id index fields) db
  = Some {| documents := documents db;
            quizzes := quizzes db;
            questions := questions db ++ question_rows quiz_id index fields;
            quiz_submissions := quiz_submissions db |}.
Proof.
  intros Hid. revert index db.
  induction fields as [|[[text options] answer] fields IH];
    intros index db Hfields Hquiz Hfresh.
  { cbn. rewrite app_nil_r. by destruct db. }
  cbn [forallb] in Hfields. apply andb_true_iff in Hfields as [Hfield Hfields].
  unfold fields_storable in Hfield. cbn [fst snd] in Hfield.
  apply andb_true_iff in Hfield as [Htext Hanswer].
  cbn [question_objects question_rows flush]. unfold insert.
  cbn [storable pg_value insert_row Value.as_text].
  rewrite (pg_text_question_id _ _ Hid), Hid, Htext, Hanswer. cbn [andb].
  rewrite bool_decide_eq_false_2 by (apply Hfresh; lia).
  rewrite bool_decide_eq_true_2 by done.
  rewrite IH; cbn [documents quizzes questions quiz_submissions]; [|done|done|].
  - by rewrite <- app_assoc.
  - intros j Hj. rewrite fmap_app, elem_of_app. intros [Hold | Hnew].
    + apply (Hfresh j); [lia | done].
    + cbn in Hnew. apply list_elem_of_singleton in Hnew.
      apply question_id_of_inj in Hnew. lia.
Qed.

(** C1, as the handler has it. [create_quiz] does not compare the correct
    answer of an entry with its options. For a generated list of the
    requested length, what every entry is checked for before anything is
    written is that it has the fields [question], [options] and
    [correct_answer], with texts for the first and the last and a JSON
    form for the options: if an entry fails this, the request ends in an
    exception nobody catches and no quiz and no question is written; if
    all pass, the new identifiers are free, and the database takes the
    values (no text of the request, of the questions or of their correct
    answers holds the code point 0, and the number of questions is a 32-bit
    integer), the quiz and one question per entry are written with the
    correct answers as generated. *)
Theorem create_quiz_checks_fields_only payload db entries :
  files_resolve payload db →
  (∀ p, service p = Generated (PyList entries)) →
  Z.of_nat (length entries) = number_of_questions payload →
  (Exists (λ entry, entry_fields entry = None) entries →
   ∃ e, serve (create_quiz service uuid4 now payload) db = (Raise (Unhandled e), db))
  ∧ (∀ fields,
       Forall2 (λ entry f, entry_fields entry = Some f) entries fields →
       uuid4 0%nat ∉ Quiz.quiz_id <$> quizzes db →
       (∀ j, 1 <= j →
             question_id_of (uuid4 0%nat) j ∉ Question.question_id <$> questions db) →
       pg_text (uuid4 0%nat) = true →
       request_storable payload = true →
       forallb fields_storable fields = true →
       serve (create_quiz service uuid4 now payload) db
       = (Return {| create_message := "Quiz created successfully.";
                    created_quiz_id := uuid4 0%nat |},
          with_quiz db (quiz_row payload (uuid4 0%nat) now)
            (question_rows (uuid4 0%nat) 1 fields))).
Proof.
  intros Hres Hservice Hlen.
  assert (negb (Z.of_nat (length entries) =? number_of_questions payload) = false)
    as Hcount by (rewrite Hlen, Z.eqb_refl; reflexivity).
  split.
  - intros Hbad. unfold create_quiz. run.
    rewrite (create_quiz_resolved _ _ Hres), Hservice, Hcount.
    match goal with |- context [add_questions ?q 1 entries ?s1] =>
      destruct (add_questions_run q entries 1 s1)
        as [(e & s' & -> & Hstore) | (objs & -> & Hobjs)] end.
    + exists e. cbn [store] in Hstore. by rewrite Hstore.
    + exists DBAPIError. cbn [store pending app].
      rewrite flush_refused; [reflexivity|].
      apply Exists_cons_tl.
      clear -Hbad Hobjs. induction Hobjs as [|entry o entries objs Hq _ IH].
      { by apply Exists_nil in Hbad. }
      apply Exists_cons in Hbad as [Hhere | Hlater].
      * apply Exists_cons_hd. by eapply queued_refused.
      * apply Exists_cons_tl. by apply IH.
  - intros fields Hfields Hquiz Hfresh Hid Hrequest Hstorable.
    unfold create_quiz. run.
    rewrite (create_quiz_resolved _ _ Hres), Hservice, Hcount.
    rewrite (add_questions_fields _ _ _ _ _ Hfields).
    cbn [store pending app flush]. unfold insert at 1.
    replace (storable _) with true
      by (symmetry; unfold request_storable in Hrequest; cbn [storable];
          rewrite Hid; exact Hrequest).
    cbn [insert_row].
    rewrite bool_decide_eq_false_2 by done.
    rewrite flush_questions; cbn [documents quizzes questions quiz_submissions].
    + reflexivity.
    + done.
    + done.
    + rewrite fmap_app, elem_of_app. right. cbn. apply list_elem_of_singleton. done.
    + done.
Qed.

End CreateQuiz.

(** ** Reading a quiz *)

Section GetQuiz.

Import Quizzes.

Lemma view_questions_same_but_answers quiz_id l1 l2 :
  Forall2 same_but_answer l1 l2 →
  (λ q, {| view_question_id := Question.question_id q;
           view_question := Question.question q;
           view_options := Question.options q |})
    <$> List.filter (λ q, String.eqb (Question.quiz_id q) quiz_id) l1
  = (λ q, {| view_question_id := Question.question_id q;
             view_question := Question.question q;
             view_options := Question.options q |})
    <$> List.filter (λ q, String.eqb (Question.quiz_id q) quiz_id) l2.
Proof.
  induction 1 as [|a b l1 l2 (Hid & Hquiz & Htext & Hopts) _ IH]; [done|].
  cbn [List.filter]. rewrite Hquiz.
  destruct (String.eqb (Question.quiz_id b) quiz_id); [|exact IH].
  rewrite !fmap_cons, IH, Hid, Htext, Hopts. reflexivity.
Qed.

(** C10. For an existing quiz, the answer of [get_quiz] lists the
    identifier, the text and the options of each question of the quiz, and
    nothing of it depends on a stored correct answer: on two states that
    differ only in correct answers, [get_quiz] gives the same answer. *)
Theorem get_quiz_hides_correct_answers quiz_id quiz db1 db2 :
  find_quiz quiz_id db1 = Some quiz →
  same_but_answers db1 db2 →
  (∃ details,
      (serve (get_quiz quiz_id) db1).1 = Return details
      ∧ details_questions details = view <$> questions_of quiz_id db1)
  ∧ (serve (get_quiz quiz_id) db1).1 = (serve (get_quiz quiz_id) db2).1.
Proof.
  intros Hquiz (Hdocs & Hquizzes & Hquestions & Hsubs).
  assert (find_quiz quiz_id db2 = Some quiz) as Hquiz2.
  { unfold find_quiz in *. by rewrite <- Hquizzes. }
  unfold get_quiz. run. rewrite Hquiz, Hquiz2. simpl. split.
  - eexists. split; [reflexivity|]. reflexivity.
  - do 2 f_equal. by apply view_questions_same_but_answers.
Qed.

End GetQuiz.

(** ** Search *)

Section Search.

Import Documents.

Variable pg : Postgres.



Lemma valid_sort sort_by :
  sort_by = "relevance" ∨ sort_by = "name" →
  negb (bool_decide (sort_by ∈ ["relevance"; "name"])) = false.
Proof. intros [-> | ->]; reflexivity. Qed.


Lemma row_count_spec n : row_count n = true ↔ 0 <= n < 2 ^ 63.
Proof. unfold row_count. rewrite andb_true_iff, Z.leb_le, Z.ltb_lt. done. Qed.


(** C4. [search_files] does not validate [page] and [limit]: with
    [page < 1] or [limit < 1] it runs the query with offset
    [(page - 1) * limit] and the request ends in an exception nobody
    catches (the database refusing a negative LIMIT or OFFSET, or the
    division by a zero [limit]), never in the [HTTPException] of status 400
    that [get_all_quizzes] raises for the same arguments. *)
Theorem search_files_unchecked_pagination q page lim sort_by type db :
  sort_by = "relevance" ∨ sort_by = "name" →
  page < 1 ∨ lim < 1 →
  ∃ e, serve (search_files pg q page lim sort_by type) db = (Raise (Unhandled e), db).
Proof.
  intros Hsort Hbad.
  unfold search_files. rewrite (valid_sort _ Hsort). run.
  destruct (type_filter type) as [types|f] eqn:Htypes.
  - unfold search_rows, search_count.
    destruct (negb (to_tsquery_ok pg q) || negb (row_count lim)
              || negb (row_count ((page - 1) * lim)))
      eqn:Hquery; [by eexists|].
    apply orb_false_iff in Hquery as [Hquery Hoffset].
    apply orb_false_iff in Hquery as [Hq Hlim].
    apply negb_false_iff, row_count_spec in Hoffset, Hlim.
    rewrite Hq. unfold floordiv.
    assert (lim = 0) as -> by nia.
    by eexists.
  - destruct type as [[|c t]|]; try discriminate.
    cbn [type_filter] in Htypes.
    revert f Htypes. generalize (Py.split "," (String c t)).
    induction l as [|a l IH]; intros f Hf; [discriminate|].
    cbn [map_file_types] in Hf.
    destruct (mime_map !! Py.strip a); [|injection Hf as <-; by eexists].
    destruct (map_file_types l); [discriminate|].
    injection Hf as <-. by apply IH.
Qed.

(** The same arguments, given to [get_all_quizzes]. *)
Lemma get_all_quizzes_checks_pagination collate_ge page lim db :
  page < 1 ∨ lim < 1 →
  serve (Quizzes.get_all_quizzes collate_ge page lim) db
  = (Raise (HTTPException 400 "Page and limit must be positive integers."), db).
Proof.
  intros Hbad. unfold Quizzes.get_all_quizzes.
  replace ((page <? 1) || (lim <? 1)) with true; [reflexivity|].
  symmetry. apply orb_true_iff. lia.
Qed.

Lemma mime_map_lookup alias :
  recognized alias ↔ is_Some (mime_map !! alias).
Proof.
  unfold recognized, mime_map. split.
  - intros [-> | [-> | ->]]; by eexists.
  - intros [mime Hmime].
    destruct (decide (alias = "txt")) as [|Htxt]; [tauto|].
    destruct (decide (alias = "pdf")) as [|Hpdf]; [tauto|].
    destruct (decide (alias = "docx")) as [|Hdocx]; [tauto|].
    rewrite !lookup_insert_ne in Hmime by done. by rewrite lookup_empty in Hmime.
Qed.

Lemma map_file_types_unrecognized parts :
  Exists (λ part, ¬ recognized (Py.strip part)) parts →
  ∃ alias, ¬ recognized alias
           ∧ map_file_types parts = Raise (Unhandled (KeyError alias)).
Proof.
  induction parts as [|a l IH]; intros Hex; [by apply Exists_nil in Hex|].
  cbn [map_file_types].
  destruct (mime_map !! Py.strip a) as [mime|] eqn:Hmime.
  - apply Exists_cons in Hex as [Hhere | Hlater].
    + exfalso. apply Hhere, mime_map_lookup. by eexists.
    + destruct (IH Hlater) as (alias & Hno & ->). by exists alias.
  - exists (Py.strip a). split; [|reflexivity].
    intros Hrec%mime_map_lookup. rewrite Hmime in Hrec. by destruct Hrec.
Qed.

(** C5. The three aliases map to their MIME strings; an alias of the
    filter that is none of them makes [search_files] end in a [KeyError]
    nobody catches, which is answered with status 500 and not with the
    status 400 of an invalid argument. *)
Theorem search_files_unrecognized_alias q page lim sort_by c type db :
  sort_by = "relevance" ∨ sort_by = "name" →
  Exists (λ alias, ¬ recognized alias) (aliases (String c type)) →
  mime_map !! "txt" = Some "text/plain"
  ∧ mime_map !! "pdf" = Some "application/pdf"
  ∧ mime_map !! "docx"
    = Some "application/vnd.openxmlformats-officedocument.wordprocessingml.document"
  ∧ ∃ alias,
      ¬ recognized alias
      ∧ serve (search_files pg q page lim sort_by (Some (String c type))) db
        = (Raise (Unhandled (KeyError alias)), db).
Proof.
  intros Hsort Hbad. do 3 (split; [reflexivity|]).
  assert (Exists (λ part, ¬ recognized (Py.strip part))
            (Py.split "," (String c type))) as Hparts.
  { apply Exists_exists in Hbad as (alias & Hin & Hno).
    apply list_elem_of_fmap in Hin as (part & -> & Hpart).
    apply Exists_exists. by exists part. }
  destruct (map_file_types_unrecognized _ Hparts) as (alias & Hno & Hraise).
  exists alias. split; [done|].
  unfold search_files. rewrite (valid_sort _ Hsort). run.
  cbn [type_filter]. by rewrite Hraise.
Qed.

End Search.

(** ** Grading *)

Section Submit.

Import Quizzes.

Variable uuid4 : nat → string.
Variable now : Z.

Lemma question_ids_of_references answers ids :
  Forall2 references answers ids →
  question_ids_of answers = Return (PyStr <$> ids).
Proof.
  induction 1 as [|a id answers ids Ha _ IH]; [done|].
  cbn [question_ids_of]. unfold references in Ha. by rewrite Ha, IH.
Qed.

Lemma all_text ids : forallb text_or_null (PyStr <$> ids) = true.
Proof.
  induction ids as [|id ids IH]; [done|].
  rewrite fmap_cons. cbn [forallb text_or_null]. by rewrite IH.
Qed.

Lemma existsb_str_eq id ids :
  existsb (Value.str_eq id) (PyStr <$> ids) = true ↔ id ∈ ids.
Proof.
  induction ids as [|x ids IH].
  - split; [done | by intros ?%elem_of_nil].
  - rewrite fmap_cons. cbn [existsb Value.str_eq].
    rewrite orb_true_iff, IH, elem_of_cons, String.eqb_eq. done.
Qed.

Lemma elem_of_resolved quiz_id ids db q :
  q ∈ resolved quiz_id ids db
  ↔ q ∈ questions_of quiz_id db ∧ Question.question_id q ∈ ids.
Proof.
  unfold resolved, questions_of.
  rewrite !list_elem_of_In, !filter_In, <- !list_elem_of_In.
  rewrite andb_true_iff, existsb_str_eq. tauto.
Qed.

Lemma NoDup_fmap_filter {A B} (f : A → B) (p : A → bool) l :
  NoDup (f <$> l) → NoDup (f <$> List.filter p l).
Proof.
  induction l as [|x l IH]; [done|].
  rewrite fmap_cons, NoDup_cons. intros [Hx Hl]. cbn [List.filter].
  destruct (p x); [|by apply IH].
  rewrite fmap_cons, NoDup_cons. split; [|by apply IH].
  intros (y & Hxy & Hy)%list_elem_of_fmap. apply Hx, list_elem_of_fmap.
  exists y. split; [done|].
  apply list_elem_of_In in Hy. apply filter_In in Hy as [Hy _].
  by apply list_elem_of_In.
Qed.








Lemma resolved_length quiz_id ids db :
  questions_keyed db →
  NoDup ids →
  (∀ id, id ∈ ids → id ∈ Question.question_id <$> questions_of quiz_id db) →
  length (resolved quiz_id ids db) = length ids.
Proof.
  intros Hkey Hnodup Hall.
  rewrite <- (length_fmap Question.question_id (resolved quiz_id ids db)).
  apply Permutation_length, NoDup_Permutation; [by apply NoDup_fmap_filter|done|].
  intros id. split.
  - intros (q & -> & Hq)%list_elem_of_fmap.
    by apply elem_of_resolved in Hq as [_ ?].
  - intros Hid. pose proof (Hall id Hid) as Hin.
    apply list_elem_of_fmap in Hin as (q & -> & Hq).
    apply list_elem_of_fmap. exists q. split; [done|].
    by apply elem_of_resolved.
Qed.

(** Among the rows the validation found, the question an answer names is
    the question of the quiz with that identifier. *)
Lemma find_resolved quiz_id ids db id :
  id ∈ ids →
  List.find (λ q, Value.str_eq (Question.question_id q) (PyStr id))
    (resolved quiz_id ids db)
  = List.find (λ q, String.eqb (Question.question_id q) id) (questions_of quiz_id db).
Proof.
  intros Hid. unfold resolved, questions_of.
  induction (questions db) as [|q l IH]; [done|]. cbn [List.filter].
  destruct (String.eqb (Question.quiz_id q) quiz_id); cbn [andb]; [|exact IH].
  destruct (String.eqb (Question.question_id q) id) eqn:Hq.
  - apply String.eqb_eq in Hq as Hq'.
    assert (existsb (Value.str_eq (Question.question_id q)) (PyStr <$> ids) = true)
      as -> by (apply existsb_str_eq; by rewrite Hq').
    cbn [List.find Value.str_eq]. by rewrite Hq.
  - destruct (existsb _ _); cbn [List.find Value.str_eq]; rewrite Hq; exact IH.
Qed.

Lemma find_some_of_quiz quiz_id db id :
  id ∈ Question.question_id <$> questions_of quiz_id db →
  is_Some (List.find (λ q, String.eqb (Question.question_id q) id)
             (questions_of quiz_id db)).
Proof.
  induction (questions_of quiz_id db) as [|q l IH]; [by intros ?%elem_of_nil|].
  rewrite fmap_cons, elem_of_cons. cbn [List.find]. intros Hid.
  destruct (String.eqb (Question.question_id q) id) eqn:Hq; [by eexists|].
  apply String.eqb_neq in Hq. destruct Hid as [->|Hid]; [done | by apply IH].
Qed.

Lemma grade_spec quiz_id ids db answers qas k submissions points :
  Forall2 answers_with answers qas →
  (∀ id, id ∈ qas.*1 → id ∈ ids) →
  (∀ id, id ∈ qas.*1 → id ∈ Question.question_id <$> questions_of quiz_id db) →
  grade uuid4 quiz_id (uuid4 0%nat) (resolved quiz_id ids db) k answers
    submissions points
  = Return ((submissions ++ graded_objects uuid4 quiz_id db k qas)%list,
            points + Z.of_nat (length (List.filter (exactly_right quiz_id db) qas))).
Proof.
  intros Hanswers. revert k submissions points.
  induction Hanswers as [|a [id sel] answers qas [Hid Hsel] _ IH];
    intros k submissions points Hids Hquiz.
  { cbn. by rewrite app_nil_r, Z.add_0_r. }
  cbn [fst snd] in Hid, Hsel. cbn [grade]. rewrite Hid, Hsel.
  unfold next_question.
  rewrite find_resolved by (apply Hids; rewrite fmap_cons; apply elem_of_cons; by left).
  destruct (find_some_of_quiz quiz_id db id) as [q Hq].
  { apply Hquiz. rewrite fmap_cons. apply elem_of_cons. by left. }
  rewrite Hq. rewrite IH; cycle 1.
  { intros x Hx. apply Hids. rewrite fmap_cons. apply elem_of_cons. by right. }
  { intros x Hx. apply Hquiz. rewrite fmap_cons. apply elem_of_cons. by right. }
  assert (Value.str_eq (Question.correct_answer q) (PyStr sel)
          = exactly_right quiz_id db (id, sel)) as ->.
  { unfold exactly_right, stored_answer. cbn [fst snd Value.str_eq]. rewrite Hq.
    cbn [fmap option_fmap option_map].
    destruct (String.eqb (Question.correct_answer q) sel) eqn:Heq.
    - apply String.eqb_eq in Heq as ->. by rewrite bool_decide_eq_true_2.
    - apply String.eqb_neq in Heq. rewrite bool_decide_eq_false_2; congruence. }
  cbn [graded_objects List.filter fst snd]. rewrite <- app_assoc. cbn [app].
  destruct (exactly_right quiz_id db (id, sel)); cbn [length]; do 2 f_equal; lia.
Qed.

Lemma flush_graded quiz_id db0 qas k db :
  pg_text quiz_id = true →
  forallb answer_storable qas = true →
  NoDup (uuid4 <$> seq k (length qas)) →
  (∀ i, (k ≤ i < k + length qas)%nat →
        uuid4 i ∉ Submission.submission_id <$> quiz_submissions db) →
  flush now (graded_objects uuid4 quiz_id db0 k qas) db
  = Some (with_submissions db (graded_rows uuid4 now quiz_id db0 k qas)).
Proof.
  intros Hquiz. revert k db.
  induction qas as [|qa qas IH]; intros k db Hstorable Hnodup Hfresh.
  { cbn. unfold with_submissions. rewrite app_nil_r. by destruct db. }
  cbn [forallb] in Hstorable. apply andb_true_iff in Hstorable as [Hqa Hstorable].
  cbn [graded_objects graded_rows flush length seq] in *. unfold insert.
  cbn [storable pg_value insert_row Value.as_text].
  rewrite Hquiz. unfold answer_storable in Hqa. rewrite andb_true_l, Hqa.
  rewrite fmap_cons in Hnodup. apply NoDup_cons in Hnodup as [Hk Hnodup].
  rewrite bool_decide_eq_false_2 by (apply Hfresh; lia).
  rewrite IH; [| done | done |].
  - unfold with_submissions. cbn. by rewrite <- app_assoc.
  - intros i Hi. cbn [quiz_submissions]. rewrite fmap_app, elem_of_app.
    intros [Hold | Hnew].
    + apply (Hfresh i); [lia | done].
    + cbn in Hnew. apply list_elem_of_singleton in Hnew.
      apply Hk. rewrite <- Hnew. apply list_elem_of_fmap. exists i. split; [done|].
      apply elem_of_seq. lia.
Qed.

(** C7. For a submission the validation accepts and the database takes
    (no text of it holds the code point 0), every answer is graded by
    exact equality of the selected answer with the stored correct answer
    of its question, in the returned score and in the row written: the
    score counts the answers that are equal to the stored one character
    for character, and the row of each answer carries that same flag. *)
Theorem submit_quiz_grades_by_equality quiz_id quiz answers qas db :
  find_quiz quiz_id db = Some quiz →
  questions_keyed db →
  Forall2 answers_with answers qas →
  qas ≠ [] →
  NoDup qas.*1 →
  (∀ id, id ∈ qas.*1 → id ∈ Question.question_id <$> questions_of quiz_id db) →
  NoDup (uuid4 <$> seq 1 (length qas)) →
  (∀ i, (1 ≤ i < 1 + length qas)%nat →
        uuid4 i ∉ Submission.submission_id <$> quiz_submissions db) →
  pg_text quiz_id = true →
  forallb answer_storable qas = true →
  let right := Z.of_nat (length (List.filter (exactly_right quiz_id db) qas)) in
  let total := Z.of_nat (length qas) in
  serve (submit_quiz uuid4 now quiz_id answers) db
  = (Return {| submit_quiz_id := quiz_id;
               score := right;
               total_questions := total;
               percentage := Round2 right total |},
     with_submissions db (graded_rows uuid4 now quiz_id db 1 qas))
  ∧ ∀ qa correct,
      stored_answer quiz_id qa.1 db = Some correct →
      (exactly_right quiz_id db qa = true ↔ qa.2 = correct).
Proof.
  intros Hquiz Hkey Hanswers Hsome Hnodup Hall Huuid Hfresh Hid Hstorable right total.
  split.
  - assert (Forall2 references answers qas.*1) as Hrefs.
    { clear -Hanswers. induction Hanswers as [|a qa ?? [Ha _] _ IH];
        [constructor|]. rewrite fmap_cons. by constructor. }
    pose proof (Forall2_length _ _ _ Hanswers) as Hlen.
    unfold submit_quiz. run. rewrite Hquiz.
    rewrite (question_ids_of_references _ _ Hrefs).
    unfold select_questions. rewrite all_text. cbn [store pending].
    change (List.filter _ (questions db)) with (resolved quiz_id qas.*1 db).
    rewrite (resolved_length _ _ _ Hkey Hnodup Hall), length_fmap, <- Hlen.
    rewrite Nat.eqb_refl. cbn [negb].
    rewrite (grade_spec quiz_id qas.*1 db answers qas) by done.
    cbn [fst snd app store pending]. rewrite flush_graded by done.
    unfold percentage_of. rewrite Hlen, Z.add_0_l.
    destruct qas as [|qa qas']; [done|].
    replace (Z.of_nat (length (qa :: qas')) =? 0) with false
      by (symmetry; apply Z.eqb_neq; cbn [length]; lia).
    reflexivity.
  - intros qa correct Hstored. unfold exactly_right. rewrite Hstored.
    rewrite bool_decide_eq_true. split; [by intros [= ->] | by intros ->].
Qed.

(** C2. With no answer at all, [submit_quiz] passes its validation,
    commits nothing and then divides by the zero total: the request ends
    in a [ZeroDivisionError] nobody catches, not in the [HTTPException] of
    status 400 of an invalid argument. *)
Theorem submit_quiz_no_answers quiz_id quiz db :
  find_quiz quiz_id db = Some quiz →
  serve (submit_quiz uuid4 now quiz_id []) db
  = (Raise (Unhandled ZeroDivisionError), db).
Proof.
  intros Hquiz. unfold submit_quiz. run. rewrite Hquiz.
  cbn [question_ids_of]. unfold select_questions.
  cbn [forallb existsb store pending].
  assert (List.filter (λ q, String.eqb (Question.quiz_id q) quiz_id && false)
            (questions db) = []) as ->.
  { induction (questions db) as [|q l IH]; [done|].
    cbn [List.filter]. by rewrite andb_false_r. }
  reflexivity.
Qed.

End Submit.

(** ** Document identifiers *)

Section Allocator.

Import Documents.

Lemma digit_facts c :
  Py.is_digit c = true →
  Py.is_int_space c = false ∧ Ascii.eqb c "_" = false ∧ Ascii.eqb c "-" = false
  ∧ Ascii.eqb c "+" = false ∧ Ascii.eqb c "f" = false.
Proof.
  destruct c as [[] [] [] [] [] [] [] []]; vm_compute; intros [=]; done.
Qed.

Lemma digits_of_uint d : all_chars Py.is_digit (NilEmpty.string_of_uint d) = true.
Proof. induction d; cbn [NilEmpty.string_of_uint all_chars]; try done. Qed.

Lemma digits_zeros k s :
  all_chars Py.is_digit s = true → all_chars Py.is_digit (zeros k ++ s) = true.
Proof. intros Hs. induction k as [|k IH]; [done|]. exact IH. Qed.

Lemma uint_of_zeros k d :
  ∃ d', NilEmpty.uint_of_string (zeros k ++ NilEmpty.string_of_uint d) = Some d'
        ∧ Z.of_uint d' = Z.of_uint d.
Proof.
  induction k as [|k (d' & Hd' & Hval)].
  - exists d. split; [apply NilEmpty.usu | done].
  - exists (Decimal.D0 d'). split; [|done].
    change (zeros (S k) ++ NilEmpty.string_of_uint d)
      with (String "0" (zeros k ++ NilEmpty.string_of_uint d)).
    cbn [NilEmpty.uint_of_string]. by rewrite Hd'.
Qed.

Lemma lstrip_digits c s :
  Py.is_digit c = true →
  Py.lstrip_with Py.is_int_space (String c s) = String c s.
Proof. intros (Hsp & _)%digit_facts. cbn. by rewrite Hsp. Qed.

Lemma rstrip_digits s :
  all_chars Py.is_digit s = true → Py.rstrip_with Py.is_int_space s = s.
Proof.
  induction s as [|c s IH]; [done|]. cbn [all_chars Py.rstrip_with].
  intros [Hc Hs]%andb_true_iff. rewrite (IH Hs).
  apply digit_facts in Hc as (Hsp & _). rewrite Hsp. by destruct s.
Qed.

Lemma rstrip_signed s :
  all_chars Py.is_digit s = true →
  Py.rstrip_with Py.is_int_space (String "-" s) = String "-" s.
Proof.
  intros Hs. cbn [Py.rstrip_with]. rewrite (rstrip_digits _ Hs). by destruct s.
Qed.

Lemma literal_ok_digits b c s :
  all_chars Py.is_digit (String c s) = true → Py.literal_ok b (String c s) = true.
Proof.
  revert b c. induction s as [|c' s IH]; intros b c; cbn [all_chars Py.literal_ok].
  - intros [-> _]%andb_true_iff. done.
  - intros [-> Hs]%andb_true_iff. by apply IH.
Qed.

Lemma drop_underscores_digits s :
  all_chars Py.is_digit s = true → Py.drop_underscores s = s.
Proof.
  induction s as [|c s IH]; [done|]. cbn [all_chars Py.drop_underscores].
  intros [Hc Hs]%andb_true_iff. rewrite (IH Hs).
  apply digit_facts in Hc as (_ & -> & _). done.
Qed.

Lemma replace_no_f k s :
  all_chars (λ c, negb (Ascii.eqb c "f")) s = true →
  Py.replace_fuel k "file" "" s = s.
Proof.
  revert s. induction k as [|k IH]; intros s; [done|].
  destruct s as [|c s]; [done|]. cbn [all_chars].
  intros [Hc Hs]%andb_true_iff. cbn [Py.replace_fuel String.prefix].
  destruct (ascii_dec "f" c) as [<-|_]; [done|]. by rewrite IH.
Qed.

Lemma substring_all s : String.substring 0 (String.length s) s = s.
Proof. induction s as [|c s IH]; [done|]. cbn. by rewrite IH. Qed.

Lemma replace_fuel_file k s :
  Py.replace_fuel (S k) "file" "" ("file" ++ s)
  = Py.replace_fuel k "file" "" s.
Proof.
  change ("file" ++ s) with (String "f" (String "i" (String "l" (String "e" s)))).
  cbn [Py.replace_fuel String.prefix].
  repeat (destruct (ascii_dec _ _) as [_|]; [|done]).
  assert (String.prefix "" s = true) as -> by by destruct s.
  cbn [String.length Nat.sub String.substring String.append].
  by rewrite Nat.sub_0_r, substring_all.
Qed.

(** Removing "file" from an identifier built on a numeral leaves the
    numeral. *)
Lemma replace_custom s :
  all_chars (λ c, negb (Ascii.eqb c "f")) s = true →
  Py.replace "file" "" ("file" ++ s) = s.
Proof.
  intros Hs. unfold Py.replace.
  change (String.length ("file" ++ s)) with (S (3 + String.length s)).
  by rewrite replace_fuel_file, replace_no_f.
Qed.

Lemma all_chars_impl (p q : ascii → bool) s :
  (∀ c, p c = true → q c = true) → all_chars p s = true → all_chars q s = true.
Proof.
  intros Hpq. induction s as [|c s IH]; [done|]. cbn [all_chars].
  intros [Hc Hs]%andb_true_iff. by rewrite (Hpq c Hc), IH.
Qed.

Lemma no_f_digits s :
  all_chars Py.is_digit s = true →
  all_chars (λ c, negb (Ascii.eqb c "f")) s = true.
Proof.
  apply all_chars_impl. intros c (_ & _ & _ & _ & ->)%digit_facts. done.
Qed.

(** A padded numeral reads as the number. *)
Lemma literal_value_padded k d :
  d ≠ Decimal.Nil →
  Py.literal_value (zeros k ++ NilEmpty.string_of_uint d) = Some (Z.of_uint d).
Proof.
  intros Hd. unfold Py.literal_value.
  assert (all_chars Py.is_digit (zeros k ++ NilEmpty.string_of_uint d) = true)
    as Hdigits by apply digits_zeros, digits_of_uint.
  rewrite (drop_underscores_digits _ Hdigits).
  destruct (uint_of_zeros k d) as (d' & -> & <-).
  destruct (zeros k ++ NilEmpty.string_of_uint d) as [|c s] eqn:Hs.
  - destruct k; [|discriminate]. destruct d; done.
  - by rewrite literal_ok_digits.
Qed.

Lemma int_padded k d :
  d ≠ Decimal.Nil →
  Py.int (zeros k ++ NilEmpty.string_of_uint d) = Some (Z.of_uint d)
  ∧ Py.int (String "-" (zeros k ++ NilEmpty.string_of_uint d)) = Some (- Z.of_uint d).
Proof.
  intros Hd.
  assert (all_chars Py.is_digit (zeros k ++ NilEmpty.string_of_uint d) = true)
    as Hdigits by apply digits_zeros, digits_of_uint.
  pose proof (literal_value_padded k d Hd) as Hvalue.
  unfold Py.int. split.
  - destruct (zeros k ++ NilEmpty.string_of_uint d) as [|c s] eqn:Hs;
      [discriminate|].
    assert (Py.is_digit c = true) as Hc
      by (cbn [all_chars] in Hdigits; by apply andb_true_iff in Hdigits as [? _]).
    rewrite (lstrip_digits _ _ Hc), (rstrip_digits _ Hdigits).
    apply digit_facts in Hc as (_ & _ & -> & -> & _). done.
  - change (Py.lstrip_with Py.is_int_space (String "-" ?s)) with (String "-" s).
    rewrite (rstrip_signed _ Hdigits). cbn [Ascii.eqb Bool.eqb].
    by rewrite Hvalue.
Qed.

Lemma zfill_digits d :
  d ≠ Decimal.Nil →
  ∃ k, Py.zfill 3 (NilEmpty.string_of_uint d) = zeros k ++ NilEmpty.string_of_uint d
       ∧ Py.zfill 3 (String "-" (NilEmpty.string_of_uint d))
         = String "-" (zeros (k - 1) ++ NilEmpty.string_of_uint d).
Proof.
  intros Hd. pose proof (digits_of_uint d) as Hdigits. unfold Py.zfill.
  destruct (NilEmpty.string_of_uint d) as [|c s] eqn:Hs; [by destruct d|].
  cbn [all_chars] in Hdigits. apply andb_true_iff in Hdigits as [Hc _].
  apply digit_facts in Hc as (_ & _ & -> & -> & _).
  cbn [Ascii.eqb Bool.eqb orb String.length].
  destruct s as [|c1 [|c2 s]]; [by exists 2%nat | by exists 1%nat | by exists 0%nat].
Qed.

(** The number an identifier was built from is read back from it. *)
Lemma numeric_suffix_custom n : numeric_suffix (custom_file_id n) = Some n.
Proof.
  unfold numeric_suffix, custom_file_id, Py.str.
  destruct n as [|p|p]; [reflexivity| |].
  - cbn [Z.to_int NilZero.string_of_int].
    pose proof (DecimalPos.Unsigned.to_uint_nonnil p) as Hnil.
    assert (NilZero.string_of_uint (Pos.to_uint p)
            = NilEmpty.string_of_uint (Pos.to_uint p)) as ->
      by by destruct (Pos.to_uint p).
    destruct (zfill_digits _ Hnil) as (k & -> & _).
    rewrite replace_custom by apply no_f_digits, digits_zeros, digits_of_uint.
    destruct (int_padded k _ Hnil) as [-> _].
    unfold Z.of_uint. by rewrite DecimalPos.Unsigned.of_to.
  - cbn [Z.to_int NilZero.string_of_int].
    pose proof (DecimalPos.Unsigned.to_uint_nonnil p) as Hnil.
    assert (NilZero.string_of_uint (Pos.to_uint p)
            = NilEmpty.string_of_uint (Pos.to_uint p)) as ->
      by by destruct (Pos.to_uint p).
    destruct (zfill_digits _ Hnil) as (k & _ & ->).
    rewrite replace_custom; cycle 1.
    { cbn [all_chars]. apply andb_true_iff. split; [done|].
      apply no_f_digits, digits_zeros, digits_of_uint. }
    destruct (int_padded (k - 1) _ Hnil) as [_ ->].
    unfold Z.of_uint. by rewrite DecimalPos.Unsigned.of_to.
Qed.

Lemma custom_file_id_inj : Inj (=) (=) custom_file_id.
Proof.
  intros a b Hab. pose proof (numeric_suffix_custom a) as Ha.
  rewrite Hab, numeric_suffix_custom in Ha. congruence.
Qed.

Lemma existing_ids_suffixes rows ids :
  existing_ids rows = Return ids →
  Forall2 (λ row n, numeric_suffix row = Some n) rows ids.
Proof.
  revert ids. induction rows as [|row rows IH]; intros ids; cbn [existing_ids].
  - intros [= <-]. constructor.
  - destruct (numeric_suffix row) as [n|] eqn:Hrow; [|discriminate].
    destruct (existing_ids rows) as [ns|]; [|discriminate].
    intros [= <-]. constructor; [done | by apply IH].
Qed.

Lemma existing_ids_snoc rows ids row n :
  existing_ids rows = Return ids →
  numeric_suffix row = Some n →
  existing_ids (rows ++ [row])%list = Return (ids ++ [n])%list.
Proof.
  revert ids. induction rows as [|r rows IH]; intros ids; cbn [existing_ids app].
  - intros [= <-] ->. done.
  - destruct (numeric_suffix r); [|discriminate].
    destruct (existing_ids rows) as [ns|]; [|discriminate].
    intros [= <-] Hrow. by rewrite (IH ns eq_refl Hrow).
Qed.

Lemma foldl_max_ge a l :
  a <= foldl Z.max a l ∧ ∀ x, x ∈ l → x <= foldl Z.max a l.
Proof.
  revert a. induction l as [|y l IH]; intros a; cbn [foldl].
  - split; [lia | by intros x ?%elem_of_nil].
  - destruct (IH (Z.max a y)) as [Hacc Hl]. split; [lia|].
    intros x [-> | Hx]%elem_of_cons; [lia | by apply Hl].
Qed.

Lemma max_default_ge ids x : x ∈ ids → x <= Py.max_default 0 ids.
Proof.
  destruct ids as [|y ids]; [by intros ?%elem_of_nil|]. cbn [Py.max_default].
  destruct (foldl_max_ge y ids) as [Hy Hl].
  intros [-> | Hx]%elem_of_cons; [done | by apply Hl].
Qed.

Lemma max_default_snoc ids :
  Py.max_default 0 (ids ++ [Py.max_default 0 ids + 1])%list
  = Py.max_default 0 ids + 1.
Proof.
  destruct ids as [|y ids]; [done|]. cbn [Py.max_default app].
  rewrite foldl_app. cbn [foldl]. lia.
Qed.

(** An identifier built on a number above every existing suffix is new. *)
Lemma custom_file_id_fresh rows ids n :
  existing_ids rows = Return ids →
  Py.max_default 0 ids < n →
  custom_file_id n ∉ rows.
Proof.
  intros Hids%existing_ids_suffixes Hn Hin.
  apply list_elem_of_lookup in Hin as [i Hi].
  destruct (Forall2_lookup_l _ _ _ _ _ Hids Hi) as (x & Hx & Hsuffix).
  rewrite numeric_suffix_custom in Hsuffix. injection Hsuffix as <-.
  apply list_elem_of_lookup_2, max_default_ge in Hx. lia.
Qed.

(** One upload: the identifier, and the table after it. *)
Lemma upload_file_step pg ext now field file db ids :
  accepted pg ext file →
  existing_ids (Document.file_id <$> documents db) = Return ids →
  ∃ db',
    serve (upload_file pg ext now [(field, FormFile file)]) db
    = (Return {| message := "File uploaded successfully";
                 file_id := custom_file_id (Py.max_default 0 ids + 1) |}, db')
    ∧ Document.file_id <$> documents db'
      = ((Document.file_id <$> documents db)
           ++ [custom_file_id (Py.max_default 0 ids + 1)])%list.
Proof.
  intros [text Hfile] Hids.
  rewrite (upload_file_accepted _ _ _ _ _ _ _ _ Hfile Hids)
    by (eapply custom_file_id_fresh; [done | lia]).
  eexists. split; [reflexivity|].
  cbn [documents]. by rewrite fmap_app.
Qed.

Lemma ingest_all_allocates pg ext now files db ids :
  Forall (accepted pg ext) files →
  existing_ids (Document.file_id <$> documents db) = Return ids →
  (ingest_all pg ext now files db).1
  = (λ id, Return {| message := "File uploaded successfully"; file_id := id |})
      <$> allocated (Py.max_default 0 ids) (length files)
  ∧ Document.file_id <$> documents (ingest_all pg ext now files db).2
    = ((Document.file_id <$> documents db)
         ++ allocated (Py.max_default 0 ids) (length files))%list.
Proof.
  intros Hfiles. revert db ids.
  induction Hfiles as [|file files Hfile _ IH]; intros db ids Hids.
  { cbn. by rewrite app_nil_r. }
  destruct (upload_file_step pg ext now "file" file db ids Hfile Hids) as (db' & Hstep & Hrows).
  assert (existing_ids (Document.file_id <$> documents db')
          = Return (ids ++ [Py.max_default 0 ids + 1])%list) as Hids'.
  { rewrite Hrows. apply existing_ids_snoc; [done | apply numeric_suffix_custom]. }
  destruct (IH db' _ Hids') as [Hanswers Htable].
  rewrite max_default_snoc in Hanswers, Htable.
  assert (allocated (Py.max_default 0 ids) (S (length files))
          = custom_file_id (Py.max_default 0 ids + 1)
            :: allocated (Py.max_default 0 ids + 1) (length files)) as Hshift.
  { unfold allocated. cbn [seq fmap list_fmap]. f_equal; [f_equal; lia|].
    rewrite <- fmap_S_seq, <- list_fmap_compose.
    apply list_fmap_ext. intros _ k _. cbn. f_equal. lia. }
  cbn [ingest_all length]. rewrite Hstep, Hshift.
  destruct (ingest_all pg ext now files db') as [answers db''].
  cbn [fst snd] in *. rewrite Hanswers, Htable, Hrows, <- app_assoc. done.
Qed.

(** C6. Served one after the other, uploads that are carried through (the
    file is of an allowed type, its text extracts, the database takes the
    text and the name, the temporary file is written and removed) get the
    identifiers
    "file" + zfill(m + 1, 3), "file" + zfill(m + 2, 3), ... where [m] is the
    greatest numeric suffix of the identifiers in the table before the
    first of them, 0 for an empty table: each upload takes the greatest
    suffix of the table it finds, plus one.  The identifiers are pairwise
    distinct, distinct from those in the table before, and their numeric
    suffixes increase strictly in the order of the uploads. *)
Theorem upload_file_allocates_next_identifier pg ext now files db ids :
  Forall (accepted pg ext) files →
  existing_ids (Document.file_id <$> documents db) = Return ids →
  let m := Py.max_default 0 ids in
  let new_ids :=
    (λ k, "file" ++ Py.zfill 3 (Py.str (m + 1 + Z.of_nat k)))
      <$> seq 0 (length files) in
  (∀ field file, accepted pg ext file →
     (serve (upload_file pg ext now [(field, FormFile file)]) db).1
     = Return {| message := "File uploaded successfully";
                 file_id := "file" ++ Py.zfill 3 (Py.str (m + 1)) |})
  ∧ (ingest_all pg ext now files db).1
    = (λ id, Return {| message := "File uploaded successfully"; file_id := id |})
        <$> new_ids
  ∧ Document.file_id <$> documents (ingest_all pg ext now files db).2
    = ((Document.file_id <$> documents db) ++ new_ids)%list
  ∧ NoDup new_ids
  ∧ (∀ id, id ∈ new_ids → id ∉ Document.file_id <$> documents db)
  ∧ (∀ i j a b, (i < j)%nat → new_ids !! i = Some a → new_ids !! j = Some b →
       ∃ x y, numeric_suffix a = Some x ∧ numeric_suffix b = Some y ∧ x < y).
Proof.
  intros Hfiles Hids m new_ids.
  change new_ids with (allocated m (length files)).
  destruct (ingest_all_allocates pg ext now files db ids Hfiles Hids) as [Hanswers Htable].
  split; [|split; [done|split; [done|split; [|split]]]].
  - intros field file Hfile.
    destruct (upload_file_step pg ext now field file db ids Hfile Hids)
      as (db' & -> & _).
    reflexivity.
  - unfold allocated. apply NoDup_fmap_2; [|apply NoDup_seq].
    intros a b Hab. apply custom_file_id_inj in Hab. lia.
  - intros id (k & -> & _)%list_elem_of_fmap.
    eapply custom_file_id_fresh; [done | lia].
  - intros i j a b Hij Ha Hb. unfold allocated in Ha, Hb.
    rewrite list_lookup_fmap in Ha, Hb.
    destruct (seq 0 (length files) !! i) as [x|] eqn:Hx; [|discriminate].
    destruct (seq 0 (length files) !! j) as [y|] eqn:Hy; [|discriminate].
    apply lookup_seq in Hx as [-> _]. apply lookup_seq in Hy as [-> _].
    injection Ha as <-. injection Hb as <-.
    eexists _, _. split; [apply numeric_suffix_custom|].
    split; [apply numeric_suffix_custom|]. lia.
Qed.

End Allocator.

(** ** The statements on the sample data *)

(** A decidable statement about the sample data, by evaluation. *)
Ltac decided :=
  unfold questions_keyed; apply (bool_decide_unpack _); vm_compute; exact I.

(** C3 on a request for three questions answered with two. *)
Lemma create_quiz_rejects_malformed_output_sample :
  files_resolve Sample.payload3 Sample.library
  ∧ (∀ p, malformed (Quizzes.number_of_questions Sample.payload3)
            (Sample.short_service p))
  ∧ ∃ detail,
      serve (Quizzes.create_quiz Sample.short_service Sample.uuid4 0 Sample.payload3)
        Sample.library
      = (Raise (HTTPException 500 detail), Sample.library)
      ∧ (detail = "Invalid response from OpenAI."
         ∨ ∃ message, detail = "OpenAI error: " ++ message).
Proof.
  assert (files_resolve Sample.payload3 Sample.library) as Hres
    by (split; [discriminate | reflexivity]).
  assert (∀ p, malformed (Quizzes.number_of_questions Sample.payload3)
                 (Sample.short_service p)) as Hbad
    by (intros p; cbn; lia).
  split; [exact Hres|]. split; [exact Hbad|].
  exact (create_quiz_rejects_malformed_output Sample.short_service Sample.uuid4 0
           Sample.payload3 Sample.library Hres Hbad).
Defined.

(** C1 as the handler has it, on the entry of the prompt. *)
Lemma create_quiz_checks_fields_only_sample :
  files_resolve Sample.payload Sample.library
  ∧ (∀ p, Sample.service p = Quizzes.Generated (PyList [Sample.prompt_entry]))
  ∧ answer_among_options Sample.prompt_entry = false
  ∧ request_storable Sample.payload = true
  ∧ serve (Quizzes.create_quiz Sample.service Sample.uuid4 0 Sample.payload)
      Sample.library
    = (Return {| Quizzes.create_message := "Quiz created successfully.";
                 Quizzes.created_quiz_id := "uuid-0" |},
       with_quiz Sample.library (quiz_row Sample.payload "uuid-0" 0)
         [Question.Build "uuid-0_q1" "uuid-0" "What is SEO?"
            (JsonDumps (PyList [PyStr "A. Search Engine Optimization";
                                PyStr "B. Search Engine Operation";
                                PyStr "C. Software Engineering Optimization";
                                PyStr "D. None of the above"]))
            "A"]).
Proof.
  assert (files_resolve Sample.payload Sample.library) as Hres
    by (split; [discriminate | reflexivity]).
  split; [exact Hres|]. split; [reflexivity|]. split; [reflexivity|].
  split; [reflexivity|].
  refine (proj2 (create_quiz_checks_fields_only Sample.service Sample.uuid4 0
                   Sample.payload Sample.library [Sample.prompt_entry]
                   Hres (λ p, eq_refl) eq_refl)
            [("What is SEO?",
              PyList [PyStr "A. Search Engine Optimization";
                      PyStr "B. Search Engine Operation";
                      PyStr "C. Software Engineering Optimization";
                      PyStr "D. None of the above"],
              "A")] _ _ _ eq_refl eq_refl eq_refl).
  - repeat constructor.
  - cbn. apply not_elem_of_nil.
  - intros j _. cbn. apply not_elem_of_nil.
Defined.

(** C1 as the specification states it fails on the entry of the prompt: its
    correct answer is none of its options, and the request succeeds. *)
Lemma create_quiz_accepts_answer_outside_options :
  ¬ (∀ service uuid4 now payload db entries,
       files_resolve payload db →
       (∀ p, service p = Quizzes.Generated (PyList entries)) →
       Exists (λ entry, answer_among_options entry = false) entries →
       ∃ f, serve (Quizzes.create_quiz service uuid4 now payload) db = (Raise f, db)).
Proof.
  intros Hclaim.
  destruct (Hclaim Sample.service Sample.uuid4 0 Sample.payload Sample.library
              [Sample.prompt_entry]) as [f Hf].
  - split; [discriminate | reflexivity].
  - reflexivity.
  - apply Exists_cons_hd. reflexivity.
  - vm_compute in Hf. discriminate.
Qed.

(** C10 on two classrooms that differ in the correct answers. *)
Lemma get_quiz_hides_correct_answers_sample :
  Quizzes.find_quiz "Q1" Sample.classroom
  = Some (Quiz.Build "Q1" "SEO basics" "easy" "SEO" 2 "mcq" (Some "") 0)
  ∧ same_but_answers Sample.classroom Sample.classroom'
  ∧ (∃ details,
        (serve (Quizzes.get_quiz "Q1") Sample.classroom).1 = Return details
        ∧ Quizzes.details_questions details
          = view <$> questions_of "Q1" Sample.classroom)
  ∧ (serve (Quizzes.get_quiz "Q1") Sample.classroom).1
    = (serve (Quizzes.get_quiz "Q1") Sample.classroom').1.
Proof.
  assert (same_but_answers Sample.classroom Sample.classroom') as Hsame.
  { repeat split. repeat constructor. }
  split; [reflexivity|]. split; [exact Hsame|].
  exact (get_quiz_hides_correct_answers "Q1" _ Sample.classroom Sample.classroom'
           eq_refl Hsame).
Defined.


(** C4 on a limit of zero. *)
Lemma search_files_unchecked_pagination_sample :
  (1 < 1 ∨ 0 < 1)
  ∧ ∃ e, serve (Documents.search_files Sample.pg "SEO" 1 0 "relevance" None)
           Sample.library
         = (Raise (Unhandled e), Sample.library).
Proof.
  split; [right; lia|].
  apply (search_files_unchecked_pagination Sample.pg "SEO" 1 0 "relevance" None
           Sample.library); [by left | right; lia].
Defined.

(** C5 on the filter [txt,exe]. *)
Lemma search_files_unrecognized_alias_sample :
  Exists (λ alias, ¬ recognized alias) (aliases "txt,exe")
  ∧ ∃ alias,
      ¬ recognized alias
      ∧ serve (Documents.search_files Sample.pg "SEO" 1 10 "relevance" (Some "txt,exe"))
          Sample.library
        = (Raise (Unhandled (KeyError alias)), Sample.library).
Proof.
  assert (Exists (λ alias, ¬ recognized alias) (aliases "txt,exe")) as Hbad.
  { apply Exists_cons_tl, Exists_cons_hd. intros [H | [H | H]]; discriminate H. }
  split; [exact Hbad|].
  apply (search_files_unrecognized_alias Sample.pg "SEO" 1 10 "relevance" "t"
           "xt,exe" Sample.library); [by left | exact Hbad].
Defined.


(** C2 on the first quiz of the classroom. *)
Lemma submit_quiz_no_answers_sample :
  serve (Quizzes.submit_quiz Sample.uuid4 0 "Q1" []) Sample.classroom
  = (Raise (Unhandled ZeroDivisionError), Sample.classroom).
Proof.
  exact (submit_quiz_no_answers Sample.uuid4 0 "Q1" _ Sample.classroom eq_refl).
Defined.

(** C7 on the answers "A" and "a" to two questions whose correct answer is
    "A": the first is right, the second is not. *)
Lemma submit_quiz_grades_by_equality_sample :
  questions_keyed Sample.classroom
  ∧ Forall2 answers_with [Sample.answer "Q1_q1" "A"; Sample.answer "Q1_q2" "a"]
      [("Q1_q1", "A"); ("Q1_q2", "a")]
  ∧ serve (Quizzes.submit_quiz Sample.uuid4 7 "Q1"
             [Sample.answer "Q1_q1" "A"; Sample.answer "Q1_q2" "a"])
      Sample.classroom
    = (Return {| Quizzes.submit_quiz_id := "Q1";
                 Quizzes.score := 1;
                 Quizzes.total_questions := 2;
                 Quizzes.percentage := Quizzes.Round2 1 2 |},
       with_submissions Sample.classroom
         [Submission.Build "uuid-1" "Q1" "uuid-0" "Q1_q1" "A" true 7;
          Submission.Build "uuid-2" "Q1" "uuid-0" "Q1_q2" "a" false 7]).
Proof.
  assert (questions_keyed Sample.classroom) as Hkey
    by (decided).
  assert (Forall2 answers_with [Sample.answer "Q1_q1" "A"; Sample.answer "Q1_q2" "a"]
            [("Q1_q1", "A"); ("Q1_q2", "a")]) as Hanswers
    by (repeat constructor).
  split; [exact Hkey|]. split; [exact Hanswers|].
  refine (proj1 (submit_quiz_grades_by_equality Sample.uuid4 7 "Q1" _ _
                   [("Q1_q1", "A"); ("Q1_q2", "a")] Sample.classroom
                   eq_refl Hkey Hanswers _ _ _ _ _ eq_refl eq_refl)).
  - discriminate.
  - decided.
  - apply Forall_forall. decided.
  - decided.
  - intros i _. cbn. apply not_elem_of_nil.
Defined.

(** C6 on two uploads into an empty table: "file001", then "file002". *)
Lemma upload_file_allocates_next_identifier_sample :
  Forall (accepted Sample.pg Sample.extractors) [Sample.notes; Sample.paper]
  ∧ (ingest_all Sample.pg Sample.extractors 0 [Sample.notes; Sample.paper]
       empty_database).1
    = [Return {| Documents.message := "File uploaded successfully";
                 Documents.file_id := "file001" |};
       Return {| Documents.message := "File uploaded successfully";
                 Documents.file_id := "file002" |}]
  ∧ NoDup ["file001"; "file002"].
Proof.
  assert (Forall (accepted Sample.pg Sample.extractors) [Sample.notes; Sample.paper])
    as Hfiles.
  { constructor; [eexists; split; [decided | by repeat split]|].
    constructor; [eexists; split; [decided | by repeat split]|]. constructor. }
  pose proof (upload_file_allocates_next_identifier Sample.pg Sample.extractors 0
                [Sample.notes; Sample.paper] empty_database [] Hfiles eq_refl)
    as (_ & Hanswers & _ & Hnodup & _).
  split; [exact Hfiles|]. split; [exact Hanswers | exact Hnodup].
Defined.

(** ** Dictionaries *)

Section DictFacts.

Context {V : Type}.
Implicit Types (d : Dict.t V) (k : string) (v : V).

Lemma dict_mem_keys k d : Dict.mem k d = true ↔ k ∈ d.*1.
Proof.
  unfold Dict.mem. induction d as [|[k' v] d IH].
  - split; [done | by intros ?%elem_of_nil].
  - rewrite fmap_cons. cbn [existsb fst]. rewrite orb_true_iff, IH, elem_of_cons.
    rewrite String.eqb_eq. naive_solver.
Qed.

Lemma dict_get_set k k' v d :
  Dict.get k' (Dict.set k v d) = if String.eqb k' k then Some v else Dict.get k' d.
Proof.
  unfold Dict.get. induction d as [|[k0 v0] d IH]; cbn [Dict.set List.find fst].
  - rewrite (String.eqb_sym k k'). by destruct (String.eqb k' k).
  - destruct (String.eqb k0 k) eqn:Hk0; cbn [List.find fst].
    + apply String.eqb_eq in Hk0 as ->. rewrite (String.eqb_sym k k').
      by destruct (String.eqb k' k).
    + destruct (String.eqb k0 k') eqn:Hk0'; [|exact IH].
      apply String.eqb_eq in Hk0' as ->. by rewrite Hk0.
Qed.

Lemma dict_get_alter (f : V → V) k k' d :
  Dict.get k' (Dict.alter f k d)
  = if String.eqb k' k then f <$> Dict.get k' d else Dict.get k' d.
Proof.
  unfold Dict.get, Dict.alter. induction d as [|[k0 v0] d IH]; [by destruct (String.eqb k' k)|].
  rewrite fmap_cons. cbn [fst snd List.find].
  destruct (String.eqb k0 k) eqn:Hk0; cbn [List.find fst snd].
  - apply String.eqb_eq in Hk0 as ->.
    destruct (String.eqb k k') eqn:Hkk'.
    + apply String.eqb_eq in Hkk' as ->. by rewrite String.eqb_refl.
    + rewrite IH. done.
  - destruct (String.eqb k0 k') eqn:Hk0'; [|exact IH].
    apply String.eqb_eq in Hk0' as ->. by rewrite Hk0.
Qed.

Lemma dict_keys_alter (f : V → V) k d : (Dict.alter f k d).*1 = d.*1.
Proof.
  unfold Dict.alter. induction d as [|[k0 v0] d IH]; [done|].
  rewrite !fmap_cons, IH. cbn [fst snd]. by destruct (String.eqb k0 k).
Qed.

Lemma dict_keys_set_new k v d : k ∉ d.*1 → (Dict.set k v d).*1 = (d.*1 ++ [k])%list.
Proof.
  induction d as [|[k0 v0] d IH]; [done|].
  rewrite fmap_cons, not_elem_of_cons. cbn [fst Dict.set]. intros [Hne Hk].
  destruct (String.eqb k0 k) eqn:Hk0; [by apply String.eqb_eq in Hk0|].
  rewrite fmap_cons, IH by done. done.
Qed.

Lemma dict_get_keys k d : is_Some (Dict.get k d) ↔ k ∈ d.*1.
Proof.
  unfold Dict.get. induction d as [|[k0 v0] d IH].
  - split; [by intros [? [=]] | by intros ?%elem_of_nil].
  - rewrite fmap_cons, elem_of_cons. cbn [List.find fst].
    destruct (String.eqb k0 k) eqn:Hk0.
    + apply String.eqb_eq in Hk0 as ->. split; [by left | by eexists].
    + apply String.eqb_neq in Hk0. rewrite IH. naive_solver.
Qed.

(** In a dictionary, an entry is what [get] finds under its key. *)
Lemma dict_elem_of k v d : NoDup d.*1 → (k, v) ∈ d ↔ Dict.get k d = Some v.
Proof.
  unfold Dict.get. induction d as [|[k0 v0] d IH]; intros Hnodup.
  - split; [by intros ?%elem_of_nil | done].
  - rewrite fmap_cons in Hnodup. apply NoDup_cons in Hnodup as [Hk0 Hnodup].
    rewrite elem_of_cons. cbn [List.find fst snd].
    destruct (String.eqb k0 k) eqn:Heq.
    + apply String.eqb_eq in Heq as ->. split.
      * intros [[= ->] | Hin]; [done|].
        exfalso. apply Hk0. apply list_elem_of_fmap. by exists (k, v).
      * intros [= ->]. by left.
    + apply String.eqb_neq in Heq. rewrite <- (IH Hnodup). naive_solver.
Qed.

End DictFacts.

(** ** Statistics by question and by quiz *)

Section Tally.

Import Analytics.

Variable key : Submission.t → string.

Lemma tally_snoc l s : tally key (l ++ [s]) = record_attempt key (tally key l) s.
Proof. unfold tally. by rewrite foldl_app. Qed.

Lemma attempts_snoc k l s :
  attempts key k (l ++ [s])
  = attempts key k l + (if String.eqb (key s) k then 1 else 0).
Proof.
  unfold attempts. rewrite List.filter_app, length_app. cbn [List.filter].
  destruct (String.eqb (key s) k); cbn [length]; lia.
Qed.

Lemma correct_among_snoc k l s :
  correct_among key k (l ++ [s])
  = correct_among key k l
    + (if String.eqb (key s) k && Submission.is_correct s then 1 else 0).
Proof.
  unfold correct_among. rewrite List.filter_app, length_app. cbn [List.filter].
  destruct (String.eqb (key s) k && Submission.is_correct s); cbn [length]; lia.
Qed.

Lemma attempts_none k l :
  k ∉ key <$> l → attempts key k l = 0 ∧ correct_among key k l = 0.
Proof.
  unfold attempts, correct_among. induction l as [|s l IH]; [done|].
  rewrite fmap_cons, not_elem_of_cons. intros [Hne Hl]. cbn [List.filter].
  assert (String.eqb (key s) k = false) as -> by (apply String.eqb_neq; congruence).
  by apply IH.
Qed.

Lemma attempts_some k l : k ∈ key <$> l → 1 <= attempts key k l.
Proof.
  unfold attempts. induction l as [|s l IH]; [by intros ?%elem_of_nil|].
  rewrite fmap_cons, elem_of_cons. cbn [List.filter].
  destruct (String.eqb (key s) k) eqn:Hs.
  - intros _. cbn [length]. lia.
  - apply String.eqb_neq in Hs. intros [-> | Hl]; [done | by apply IH].
Qed.

Lemma correct_among_le k l : 0 <= correct_among key k l <= attempts key k l.
Proof.
  unfold correct_among, attempts. split; [lia|]. apply inj_le.
  induction l as [|s l IH]; [done|]. cbn [List.filter].
  destruct (String.eqb (key s) k); cbn [andb]; [|exact IH].
  destruct (Submission.is_correct s); cbn [length]; lia.
Qed.

(** The statistics hold, under each key that occurs, the counts of the
    submissions with that key, and nothing under another key; no key is
    there twice. *)
Lemma tally_spec l :
  NoDup (tally key l).*1
  ∧ ∀ k, Dict.get k (tally key l)
         = if bool_decide (k ∈ key <$> l)
           then Some {| stats_key := k;
                        total_attempts := attempts key k l;
                        correct_attempts := correct_among key k l |}
           else None.
Proof.
  induction l as [|s l [Hnodup Hget]] using rev_ind.
  { split; [constructor|]. intros k. rewrite bool_decide_eq_false_2; [done|].
    by intros ?%elem_of_nil. }
  rewrite tally_snoc. unfold record_attempt.
  set (d := tally key l) in *. set (k0 := key s).
  set (started := if negb (Dict.mem k0 d) then Dict.set k0 _ d else d).
  assert (NoDup started.*1
          ∧ ∀ k, Dict.get k started
                 = if String.eqb k k0
                   then Some {| stats_key := k0;
                                total_attempts := attempts key k0 l;
                                correct_attempts := correct_among key k0 l |}
                   else Dict.get k d) as [Hnodup' Hstarted].
  { unfold started. destruct (Dict.mem k0 d) eqn:Hmem; cbn [negb].
    - split; [done|]. intros k. destruct (String.eqb k k0) eqn:Hk; [|done].
      apply String.eqb_eq in Hk as ->. rewrite Hget.
      apply dict_mem_keys, dict_get_keys in Hmem as [r Hr].
      rewrite Hget in Hr. by destruct (bool_decide (k0 ∈ key <$> l)).
    - assert (k0 ∉ d.*1) as Hnew
        by (rewrite <- dict_mem_keys; by rewrite Hmem).
      split.
      + rewrite dict_keys_set_new by done. apply NoDup_app.
        split; [done|]. split; [|apply NoDup_singleton].
        intros x Hx ->%list_elem_of_singleton. done.
      + intros k. rewrite dict_get_set. destruct (String.eqb k k0); [|done].
        assert (k0 ∉ key <$> l) as Hnone.
        { intros Hin. apply Hnew, dict_get_keys. rewrite Hget.
          rewrite bool_decide_eq_true_2 by done. by eexists. }
        by destruct (attempts_none _ _ Hnone) as [-> ->]. }
  clearbody started. split.
  { destruct (Submission.is_correct s); by rewrite ?dict_keys_alter. }
  intros k. rewrite fmap_app, attempts_snoc, correct_among_snoc. fold k0.
  rewrite (String.eqb_sym k0 k).
  assert (Dict.get k (if Submission.is_correct s
                      then Dict.alter
                             (λ r, {| stats_key := stats_key r;
                                      total_attempts := total_attempts r;
                                      correct_attempts := correct_attempts r + 1 |})
                             k0
                             (Dict.alter
                                (λ r, {| stats_key := stats_key r;
                                         total_attempts := total_attempts r + 1;
                                         correct_attempts := correct_attempts r |})
                                k0 started)
                      else Dict.alter
                             (λ r, {| stats_key := stats_key r;
                                      total_attempts := total_attempts r + 1;
                                      correct_attempts := correct_attempts r |})
                             k0 started)
          = if String.eqb k k0
            then Some {| stats_key := k0;
                         total_attempts := attempts key k0 l + 1;
                         correct_attempts :=
                           correct_among key k0 l
                           + (if Submission.is_correct s then 1 else 0) |}
            else Dict.get k d) as ->.
  { destruct (Submission.is_correct s); rewrite ?dict_get_alter, Hstarted;
      destruct (String.eqb k k0); cbn [fmap option_fmap option_map];
      rewrite ?Z.add_0_r; done. }
  destruct (String.eqb k k0) eqn:Hk.
  - apply String.eqb_eq in Hk as ->. rewrite bool_decide_eq_true_2; [done|].
    apply elem_of_app. right. by apply list_elem_of_singleton.
  - apply String.eqb_neq in Hk. rewrite Hget, !Z.add_0_r.
    rewrite (bool_decide_ext (k ∈ ((key <$> l) ++ (key <$> [s]))%list)
               (k ∈ key <$> l)); [done|].
    rewrite elem_of_app. cbn. rewrite list_elem_of_singleton. tauto.
Qed.

Lemma tally_keys l k : k ∈ (tally key l).*1 ↔ k ∈ key <$> l.
Proof.
  destruct (tally_spec l) as [_ Hget]. rewrite <- dict_get_keys, Hget.
  destruct (bool_decide (k ∈ key <$> l)) eqn:Hk.
  - apply bool_decide_eq_true in Hk. split; [done | by eexists].
  - apply bool_decide_eq_false in Hk. split; [by intros [? [=]] | done].
Qed.

(** Every entry of the statistics carries the counts of its key. *)
Lemma tally_entry l k r :
  (k, r) ∈ tally key l →
  k ∈ key <$> l
  ∧ r = {| stats_key := k;
           total_attempts := attempts key k l;
           correct_attempts := correct_among key k l |}.
Proof.
  destruct (tally_spec l) as [Hnodup Hget].
  intros Hin. apply (dict_elem_of _ _ _ Hnodup) in Hin. rewrite Hget in Hin.
  destruct (bool_decide (k ∈ key <$> l)) eqn:Hk; [|done].
  apply bool_decide_eq_true in Hk. by injection Hin as <-.
Qed.

Lemma total_alter (f : Stats → Z) (g : Stats → Stats) c k (d : Dict.t Stats) :
  NoDup d.*1 → k ∈ d.*1 → (∀ r, f (g r) = f r + c) →
  total (f <$> Dict.values (Dict.alter g k d)) = total (f <$> Dict.values d) + c.
Proof.
  intros Hnodup Hk Hfg. unfold Dict.values, Dict.alter, total.
  induction d as [|[k0 r0] d IH]; [by apply elem_of_nil in Hk|].
  rewrite fmap_cons in Hnodup, Hk. apply NoDup_cons in Hnodup as [Hk0 Hnodup].
  rewrite !fmap_cons. cbn [fst snd foldr].
  destruct (String.eqb k0 k) eqn:Heq.
  - apply String.eqb_eq in Heq as ->. cbn [snd]. rewrite Hfg.
    assert (((λ kv : string * Stats,
                if String.eqb kv.1 k then (kv.1, g kv.2) else kv) <$> d) = d) as ->.
    { clear -Hk0. induction d as [|[k1 r1] d IH]; [done|].
      rewrite fmap_cons in Hk0. apply not_elem_of_cons in Hk0 as [Hne Hk0].
      rewrite fmap_cons, IH by done. cbn [fst snd] in *.
      assert (String.eqb k1 k = false) as -> by (apply String.eqb_neq; congruence).
      done. }
    lia.
  - apply String.eqb_neq in Heq. cbn [fst] in Hk.
    apply elem_of_cons in Hk as [-> | Hk]; [done|].
    cbn [snd]. rewrite IH by done. lia.
Qed.

Lemma total_set_new (f : Stats → Z) k v (d : Dict.t Stats) :
  k ∉ d.*1 →
  total (f <$> Dict.values (Dict.set k v d)) = total (f <$> Dict.values d) + f v.
Proof.
  unfold Dict.values, total. induction d as [|[k0 r0] d IH].
  - intros _. cbn. lia.
  - rewrite fmap_cons, not_elem_of_cons. intros [Hne Hk]. cbn [Dict.set fst] in *.
    assert (String.eqb k0 k = false) as -> by (apply String.eqb_neq; congruence).
    rewrite !fmap_cons. cbn [snd foldr]. rewrite IH by done. lia.
Qed.

Lemma sum_correct_snoc l s :
  sum_correct (l ++ [s])
  = sum_correct l + (if Submission.is_correct s then 1 else 0).
Proof.
  unfold sum_correct. rewrite foldl_app. cbn [foldl].
  destruct (Submission.is_correct s); lia.
Qed.

Lemma sum_correct_bounds l : 0 <= sum_correct l <= Z.of_nat (length l).
Proof.
  induction l as [|s l IH] using rev_ind; [done|].
  rewrite sum_correct_snoc, length_app. cbn [length].
  destruct (Submission.is_correct s); lia.
Qed.

(** The attempts of all entries add up to the number of submissions, the
    correct attempts to the number of correct submissions. *)
Lemma tally_totals l :
  total (total_attempts <$> Dict.values (tally key l)) = Z.of_nat (length l)
  ∧ total (correct_attempts <$> Dict.values (tally key l)) = sum_correct l.
Proof.
  induction l as [|s l [Hall Hcorrect]] using rev_ind; [done|].
  destruct (tally_spec l) as [Hnodup _].
  rewrite tally_snoc, sum_correct_snoc, length_app. cbn [length].
  unfold record_attempt. set (d := tally key l) in *. set (k0 := key s).
  set (started := if negb (Dict.mem k0 d) then Dict.set k0 _ d else d).
  assert (NoDup started.*1 ∧ k0 ∈ started.*1
          ∧ total (total_attempts <$> Dict.values started)
            = total (total_attempts <$> Dict.values d)
          ∧ total (correct_attempts <$> Dict.values started)
            = total (correct_attempts <$> Dict.values d))
    as (Hnodup' & Hk0 & Hall' & Hcorrect').
  { unfold started. destruct (Dict.mem k0 d) eqn:Hmem; cbn [negb].
    - apply dict_mem_keys in Hmem. done.
    - assert (k0 ∉ d.*1) as Hnew by (rewrite <- dict_mem_keys; by rewrite Hmem).
      rewrite dict_keys_set_new, !total_set_new by done. cbn.
      split; [|split; [|lia]].
      + apply NoDup_app. split; [done|]. split; [|apply NoDup_singleton].
        intros x Hx ->%list_elem_of_singleton. done.
      + apply elem_of_app. right. by apply list_elem_of_singleton. }
  clearbody started.
  destruct (Submission.is_correct s).
  - rewrite (total_alter total_attempts _ 0), (total_alter total_attempts _ 1),
      (total_alter correct_attempts _ 1), (total_alter correct_attempts _ 0);
      rewrite ?dict_keys_alter; try done; try (intros r; cbn; lia).
    lia.
  - rewrite (total_alter total_attempts _ 1), (total_alter correct_attempts _ 0);
      try done; try (intros r; cbn; lia).
    lia.
Qed.

Lemma traverse_with_accuracy rs :
  Forall (λ r, total_attempts r ≠ 0) rs →
  traverse with_accuracy rs = Return (stats_view <$> rs).
Proof.
  induction 1 as [|r rs Hr _ IH]; [done|]. cbn [traverse].
  unfold with_accuracy at 1, Quizzes.percentage_of.
  apply Z.eqb_neq in Hr. rewrite Hr, IH. done.
Qed.

(** The answer the handlers build from the statistics: one entry for each
    key, none of them with a zero divisor. *)
Lemma tally_views l :
  traverse with_accuracy (Dict.values (tally key l))
  = Return (stats_view <$> Dict.values (tally key l)).
Proof.
  apply traverse_with_accuracy, Forall_forall. intros r Hr.
  apply list_elem_of_fmap in Hr as ([k r'] & -> & Hin). cbn [snd].
  apply tally_entry in Hin as [Hk ->]. cbn [total_attempts].
  pose proof (attempts_some k l Hk). lia.
Qed.

End Tally.

(** ** Analytics *)

Section AnalyticsFacts.

Import Analytics.

Lemma views_of_tally key l v :
  v ∈ stats_view <$> Dict.values (tally key l) →
  view_key v ∈ key <$> l
  ∧ view_total_attempts v = attempts key (view_key v) l
  ∧ view_correct_attempts v = correct_among key (view_key v) l
  ∧ view_accuracy_percentage v
    = Quizzes.Round2 (view_correct_attempts v) (view_total_attempts v).
Proof.
  intros (r & -> & Hr)%list_elem_of_fmap.
  apply list_elem_of_fmap in Hr as ([k r'] & -> & Hin). cbn [snd].
  by apply tally_entry in Hin as [Hk ->].
Qed.

Lemma view_keys_of_tally key l :
  view_key <$> (stats_view <$> Dict.values (tally key l)) = (tally key l).*1.
Proof.
  unfold Dict.values. rewrite <- !list_fmap_compose.
  apply list_fmap_ext. intros _ [k r] Hin%list_elem_of_lookup_2. cbn.
  by apply tally_entry in Hin as [_ ->].
Qed.

Lemma view_totals_of_tally key l :
  total (view_total_attempts <$> (stats_view <$> Dict.values (tally key l)))
  = Z.of_nat (length l)
  ∧ total (view_correct_attempts <$> (stats_view <$> Dict.values (tally key l)))
    = sum_correct l.
Proof.
  rewrite <- !list_fmap_compose. exact (tally_totals key l).
Qed.

Lemma get_quiz_analytics_run strptime quiz_id quiz start_date end_date lo hi db :
  Quizzes.find_quiz quiz_id db = Some quiz →
  parse_bound strptime start_date = Some lo →
  parse_bound strptime end_date = Some hi →
  submissions_between quiz_id lo hi db ≠ [] →
  serve (get_quiz_analytics strptime quiz_id start_date end_date) db
  = (Return
       {| analytics_quiz_id := quiz_id;
          analytics_start_date := start_date;
          analytics_end_date := end_date;
          quiz_total_submissions :=
            Z.of_nat (length (submissions_between quiz_id lo hi db));
          quiz_total_correct := sum_correct (submissions_between quiz_id lo hi db);
          quiz_accuracy_percentage :=
            Accuracy (Quizzes.Round2
                        (sum_correct (submissions_between quiz_id lo hi db))
                        (Z.of_nat (length (submissions_between quiz_id lo hi db))));
          question_stats :=
            stats_view <$> Dict.values
              (tally Submission.question_id (submissions_between quiz_id lo hi db)) |},
     db).
Proof.
  intros Hquiz Hlo Hhi Hsome. unfold get_quiz_analytics. run.
  rewrite Hquiz, Hlo, Hhi. cbn [store].
  destruct (submissions_between quiz_id lo hi db) as [|s l] eqn:Hsubs; [done|].
  change (foldl (record_attempt Submission.question_id) [] (s :: l))
    with (tally Submission.question_id (s :: l)).
  rewrite tally_views. unfold accuracy_of.
  replace (0 <? Z.of_nat (length (s :: l))) with true
    by (symmetry; apply Z.ltb_lt; cbn [length]; lia).
  reflexivity.
Qed.

(** What an answer of [get_quiz_analytics] tells about the request. *)
Lemma get_quiz_analytics_returns strptime quiz_id start_date end_date db r db' :
  serve (get_quiz_analytics strptime quiz_id start_date end_date) db = (Return r, db') →
  ∃ quiz lo hi,
    Quizzes.find_quiz quiz_id db = Some quiz
    ∧ parse_bound strptime start_date = Some lo
    ∧ parse_bound strptime end_date = Some hi
    ∧ submissions_between quiz_id lo hi db ≠ [].
Proof.
  unfold get_quiz_analytics. run.
  destruct (Quizzes.find_quiz quiz_id db) as [quiz|] eqn:Hquiz; [|discriminate].
  destruct (parse_bound strptime start_date) as [lo|] eqn:Hlo; [|discriminate].
  destruct (parse_bound strptime end_date) as [hi|] eqn:Hhi; [|discriminate].
  cbn [store].
  destruct (submissions_between quiz_id lo hi db) as [|s l] eqn:Hsubs; [discriminate|].
  intros _. exists quiz, lo, hi. by rewrite Hsubs.
Qed.

(** [get_quiz_analytics], question by question: the answer has one entry
    for each question with a submission of the quiz in the range, no
    question twice, and the entry of a question counts its submissions in
    the range and the correct ones among them. *)
Theorem get_quiz_analytics_per_question
  strptime quiz_id quiz start_date end_date lo hi db :
  Quizzes.find_quiz quiz_id db = Some quiz →
  parse_bound strptime start_date = Some lo →
  parse_bound strptime end_date = Some hi →
  submissions_between quiz_id lo hi db ≠ [] →
  ∃ r,
    serve (get_quiz_analytics strptime quiz_id start_date end_date) db = (Return r, db)
    ∧ NoDup (view_key <$> question_stats r)
    ∧ (∀ k, k ∈ view_key <$> question_stats r
            ↔ k ∈ Submission.question_id <$> submissions_between quiz_id lo hi db)
    ∧ (∀ v, v ∈ question_stats r →
            view_total_attempts v
            = attempts Submission.question_id (view_key v)
                (submissions_between quiz_id lo hi db)
            ∧ view_correct_attempts v
              = correct_among Submission.question_id (view_key v)
                  (submissions_between quiz_id lo hi db)
            ∧ 0 <= view_correct_attempts v <= view_total_attempts v
            ∧ 1 <= view_total_attempts v).
Proof.
  intros Hquiz Hlo Hhi Hsome. eexists. split; [by eapply get_quiz_analytics_run|].
  cbn [question_stats]. rewrite view_keys_of_tally.
  split; [apply tally_spec|]. split; [apply tally_keys|].
  intros v (Hk & Hall & Hcorrect & _)%views_of_tally.
  rewrite Hall, Hcorrect. split; [done|]. split; [done|].
  split; [apply correct_among_le | by apply attempts_some].
Qed.

(** [get_quiz_analytics], the totals: in every answer the attempts of the
    questions add up to [total_submissions], their correct attempts to
    [total_correct], which lies between 0 and [total_submissions]; there is
    at least one submission, so the accuracy is never the 0.0 of the empty
    case; and the database is as it was. *)
Theorem get_quiz_analytics_totals strptime quiz_id start_date end_date db r db' :
  serve (get_quiz_analytics strptime quiz_id start_date end_date) db = (Return r, db') →
  db' = db
  ∧ total (view_total_attempts <$> question_stats r) = quiz_total_submissions r
  ∧ total (view_correct_attempts <$> question_stats r) = quiz_total_correct r
  ∧ 0 <= quiz_total_correct r <= quiz_total_submissions r
  ∧ 1 <= quiz_total_submissions r
  ∧ quiz_accuracy_percentage r
    = Accuracy (Quizzes.Round2 (quiz_total_correct r) (quiz_total_submissions r)).
Proof.
  intros Hserve.
  destruct (get_quiz_analytics_returns _ _ _ _ _ _ _ Hserve)
    as (quiz & lo & hi & Hquiz & Hlo & Hhi & Hsome).
  rewrite (get_quiz_analytics_run _ _ _ _ _ _ _ _ Hquiz Hlo Hhi Hsome) in Hserve.
  injection Hserve as <- <-.
  cbn [question_stats quiz_total_submissions quiz_total_correct
         quiz_accuracy_percentage].
  destruct (view_totals_of_tally Submission.question_id
              (submissions_between quiz_id lo hi db)) as [-> ->].
  pose proof (sum_correct_bounds (submissions_between quiz_id lo hi db)).
  destruct (submissions_between quiz_id lo hi db); [done|]. cbn [length] in *.
  repeat split; try done; lia.
Qed.


Lemma distinct_keys_of_tally key l :
  size (list_to_set (C := gset string) (key <$> l)) = length (tally key l).
Proof.
  rewrite <- (length_fmap fst (tally key l)).
  rewrite <- (size_list_to_set (C := gset string) (tally key l).*1)
    by apply tally_spec.
  f_equal. apply set_eq. intros k. by rewrite !elem_of_list_to_set, tally_keys.
Qed.

Variable uuid_of : string → option N.

Lemma get_user_analytics_run user_id db :
  submissions_by uuid_of user_id db ≠ [] →
  serve (get_user_analytics uuid_of user_id) db
  = (Return
       {| analytics_user_id := user_id;
          total_attempted_quizzes :=
            Z.of_nat (length (tally Submission.quiz_id (submissions_by uuid_of user_id db)));
          user_total_submissions := Z.of_nat (length (submissions_by uuid_of user_id db));
          user_total_correct := sum_correct (submissions_by uuid_of user_id db);
          user_accuracy_percentage :=
            Accuracy (Quizzes.Round2
                        (sum_correct (submissions_by uuid_of user_id db))
                        (Z.of_nat (length (submissions_by uuid_of user_id db))));
          quiz_stats :=
            stats_view <$> Dict.values
              (tally Submission.quiz_id (submissions_by uuid_of user_id db)) |},
     db).
Proof.
  intros Hsome. unfold get_user_analytics.
  destruct (uuid_of user_id) as [u|] eqn:Hu;
    [|by unfold submissions_by in Hsome; rewrite Hu in Hsome].
  run.
  destruct (submissions_by uuid_of user_id db) as [|s l] eqn:Hsubs; [done|].
  change (foldl (record_attempt Submission.quiz_id) [] (s :: l))
    with (tally Submission.quiz_id (s :: l)).
  rewrite tally_views, distinct_keys_of_tally. unfold accuracy_of.
  replace (0 <? Z.of_nat (length (s :: l))) with true
    by (symmetry; apply Z.ltb_lt; cbn [length]; lia).
  reflexivity.
Qed.

(** [get_user_analytics], quiz by quiz: for a user with submissions the
    answer has one entry for each quiz the user answered, no quiz twice,
    [total_attempted_quizzes] is the number of the entries, and the entry
    of a quiz counts the user's submissions to it and the correct ones
    among them. *)
Theorem get_user_analytics_per_quiz user_id db :
  submissions_by uuid_of user_id db ≠ [] →
  ∃ r,
    serve (get_user_analytics uuid_of user_id) db = (Return r, db)
    ∧ total_attempted_quizzes r = Z.of_nat (length (quiz_stats r))
    ∧ NoDup (view_key <$> quiz_stats r)
    ∧ (∀ k, k ∈ view_key <$> quiz_stats r
            ↔ k ∈ Submission.quiz_id <$> submissions_by uuid_of user_id db)
    ∧ (∀ v, v ∈ quiz_stats r →
            view_total_attempts v
            = attempts Submission.quiz_id (view_key v)
                (submissions_by uuid_of user_id db)
            ∧ view_correct_attempts v
              = correct_among Submission.quiz_id (view_key v)
                  (submissions_by uuid_of user_id db)
            ∧ 0 <= view_correct_attempts v <= view_total_attempts v
            ∧ 1 <= view_total_attempts v).
Proof.
  intros Hsome. eexists. split; [by apply get_user_analytics_run|].
  cbn [quiz_stats total_attempted_quizzes]. rewrite view_keys_of_tally.
  split; [unfold Dict.values; by rewrite !length_fmap|].
  split; [apply tally_spec|]. split; [apply tally_keys|].
  intros v (Hk & Hall & Hcorrect & _)%views_of_tally.
  rewrite Hall, Hcorrect. split; [done|]. split; [done|].
  split; [apply correct_among_le | by apply attempts_some].
Qed.

(** [get_user_analytics], the refusals and the totals: a [user_id] the
    driver does not read as a UUID ends the request in an error of the
    database nobody catches; a UUID without a submission is answered with
    status 404; in every answer the attempts of the quizzes add up to
    [total_submissions], their correct attempts to [total_correct], which
    lies between 0 and [total_submissions], and the database is as it
    was. *)
Theorem get_user_analytics_totals user_id db :
  (uuid_of user_id = None →
   serve (get_user_analytics uuid_of user_id) db
   = (Raise (Unhandled DBAPIError), db))
  ∧ (is_Some (uuid_of user_id) →
     submissions_by uuid_of user_id db = [] →
     serve (get_user_analytics uuid_of user_id) db
     = (Raise (HTTPException 404 "No submissions found for this user"), db))
  ∧ ∀ r db',
      serve (get_user_analytics uuid_of user_id) db = (Return r, db') →
      db' = db
      ∧ total (view_total_attempts <$> quiz_stats r) = user_total_submissions r
      ∧ total (view_correct_attempts <$> quiz_stats r) = user_total_correct r
      ∧ 0 <= user_total_correct r <= user_total_submissions r
      ∧ 1 <= user_total_submissions r
      ∧ user_accuracy_percentage r
        = Accuracy (Quizzes.Round2 (user_total_correct r) (user_total_submissions r)).
Proof.
  split; [|split].
  { intros Hu. unfold get_user_analytics. by rewrite Hu. }
  { intros [u Hu] Hnone. unfold get_user_analytics. rewrite Hu. run.
    by rewrite Hnone. }
  intros r db' Hserve.
  assert (submissions_by uuid_of user_id db ≠ []) as Hsome.
  { intros Hnone. revert Hserve. unfold get_user_analytics.
    destruct (uuid_of user_id); [|done]. run. by rewrite Hnone. }
  rewrite (get_user_analytics_run _ _ Hsome) in Hserve.
  injection Hserve as <- <-.
  cbn [quiz_stats user_total_submissions user_total_correct user_accuracy_percentage].
  destruct (view_totals_of_tally Submission.quiz_id (submissions_by uuid_of user_id db))
    as [-> ->].
  pose proof (sum_correct_bounds (submissions_by uuid_of user_id db)).
  destruct (submissions_by uuid_of user_id db); [done|]. cbn [length] in *.
  repeat split; try done; lia.
Qed.

End AnalyticsFacts.

(** ** Results of a quiz *)

Section Results.

Import Quizzes.

Variable quiz_id : string.

Lemma by_user_snoc u l s :
  by_user u (l ++ [s])
  = (by_user u l ++ (if String.eqb (Submission.user_id s) u then [s] else []))%list.
Proof.
  unfold by_user. rewrite List.filter_app. cbn [List.filter].
  by destruct (String.eqb (Submission.user_id s) u).
Qed.

Lemma by_user_none u l : u ∉ Submission.user_id <$> l → by_user u l = [].
Proof.
  unfold by_user. induction l as [|s l IH]; [done|].
  rewrite fmap_cons, not_elem_of_cons. intros [Hne Hl]. cbn [List.filter].
  assert (String.eqb (Submission.user_id s) u = false) as ->
    by (apply String.eqb_neq; congruence).
  by apply IH.
Qed.

(** The dictionary holds, under each user with a submission, the entry of
    that user, and no user twice. *)
Lemma results_by_user_spec l :
  NoDup (results_by_user quiz_id l).*1
  ∧ ∀ u, Dict.get u (results_by_user quiz_id l)
         = if bool_decide (u ∈ Submission.user_id <$> l)
           then Some (user_tally quiz_id u l) else None.
Proof.
  induction l as [|s l [Hnodup Hget]] using rev_ind.
  { split; [constructor|]. intros u. rewrite bool_decide_eq_false_2; [done|].
    by intros ?%elem_of_nil. }
  unfold results_by_user in *. rewrite foldl_app. cbn [foldl].
  set (d := foldl (record_submission quiz_id) [] l) in *.
  unfold record_submission.
  set (u0 := Submission.user_id s).
  set (started := if negb (Dict.mem u0 d) then Dict.set u0 _ d else d).
  assert (NoDup started.*1
          ∧ ∀ u, Dict.get u started
                 = if String.eqb u u0 then Some (user_tally quiz_id u0 l)
                   else Dict.get u d) as [Hnodup' Hstarted].
  { unfold started. destruct (Dict.mem u0 d) eqn:Hmem; cbn [negb].
    - split; [done|]. intros u. destruct (String.eqb u u0) eqn:Hu; [|done].
      apply String.eqb_eq in Hu as ->. rewrite Hget.
      apply dict_mem_keys, dict_get_keys in Hmem as [r Hr].
      rewrite Hget in Hr. by destruct (bool_decide (u0 ∈ Submission.user_id <$> l)).
    - assert (u0 ∉ d.*1) as Hnew by (rewrite <- dict_mem_keys; by rewrite Hmem).
      split.
      + rewrite dict_keys_set_new by done. apply NoDup_app.
        split; [done|]. split; [|apply NoDup_singleton].
        intros x Hx ->%list_elem_of_singleton. done.
      + intros u. rewrite dict_get_set. destruct (String.eqb u u0); [|done].
        assert (u0 ∉ Submission.user_id <$> l) as Hnone.
        { intros Hin. apply Hnew, dict_get_keys. rewrite Hget.
          rewrite bool_decide_eq_true_2 by done. by eexists. }
        unfold user_tally. rewrite (by_user_none _ _ Hnone).
        by destruct (attempts_none Submission.user_id _ _ Hnone) as [-> ->]. }
  clearbody started. split; [by rewrite dict_keys_alter|].
  intros u. rewrite dict_get_alter, Hstarted.
  destruct (String.eqb u u0) eqn:Hu.
  - apply String.eqb_eq in Hu as ->. rewrite bool_decide_eq_true_2; cycle 1.
    { rewrite fmap_app. apply elem_of_app. right. by apply list_elem_of_singleton. }
    cbn [fmap option_fmap option_map]. f_equal. unfold user_tally.
    rewrite attempts_snoc, correct_among_snoc, by_user_snoc. fold u0.
    rewrite String.eqb_refl, fmap_app. cbn [tally_user_id tally_quiz_id tally_score
      tally_total_questions tally_answers andb].
    change (answer_view <$> [s]) with [answer_view s].
    destruct (Submission.is_correct s) eqn:Hc; rewrite ?Z.add_0_r;
      unfold answer_view; by rewrite Hc.
  - apply String.eqb_neq in Hu. rewrite Hget.
    rewrite (bool_decide_ext (u ∈ Submission.user_id <$> (l ++ [s])%list)
               (u ∈ Submission.user_id <$> l)).
    + destruct (bool_decide (u ∈ Submission.user_id <$> l)); [|done].
      f_equal. unfold user_tally.
      rewrite attempts_snoc, correct_among_snoc, by_user_snoc. fold u0.
      assert (String.eqb u0 u = false) as -> by (apply String.eqb_neq; congruence).
      cbn [andb]. by rewrite !Z.add_0_r, app_nil_r.
    + rewrite fmap_app, elem_of_app. cbn. rewrite list_elem_of_singleton.
      fold u0. naive_solver.
Qed.

Lemma results_by_user_entry l u r :
  (u, r) ∈ results_by_user quiz_id l →
  u ∈ Submission.user_id <$> l ∧ r = user_tally quiz_id u l.
Proof.
  destruct (results_by_user_spec l) as [Hnodup Hget].
  intros Hin. apply (dict_elem_of _ _ _ Hnodup) in Hin. rewrite Hget in Hin.
  destruct (bool_decide (u ∈ Submission.user_id <$> l)) eqn:Hu; [|done].
  apply bool_decide_eq_true in Hu. by injection Hin as <-.
Qed.

Lemma results_by_user_keys l u :
  u ∈ (results_by_user quiz_id l).*1 ↔ u ∈ Submission.user_id <$> l.
Proof.
  destruct (results_by_user_spec l) as [_ Hget]. rewrite <- dict_get_keys, Hget.
  destruct (bool_decide (u ∈ Submission.user_id <$> l)) eqn:Hu.
  - apply bool_decide_eq_true in Hu. split; [done | by eexists].
  - apply bool_decide_eq_false in Hu. split; [by intros [? [=]] | done].
Qed.

(** The second loop of [get_quiz_results] divides by no zero. *)
Lemma results_with_percentage l :
  traverse with_percentage (Dict.values (results_by_user quiz_id l))
  = Return ((λ u, user_result quiz_id u l) <$> (results_by_user quiz_id l).*1).
Proof.
  assert (∀ d : Dict.t UserTally,
            (∀ u r, (u, r) ∈ d → u ∈ Submission.user_id <$> l
                                 ∧ r = user_tally quiz_id u l) →
            traverse with_percentage (Dict.values d)
            = Return ((λ u, user_result quiz_id u l) <$> d.*1)) as Hall.
  { induction d as [|[u r] d IH]; intros Hd; [done|].
    unfold Dict.values. rewrite !fmap_cons. cbn [traverse fst snd].
    destruct (Hd u r) as [Hu ->]; [by left|].
    unfold with_percentage at 1, percentage_of, user_tally.
    cbn [tally_user_id tally_quiz_id tally_score tally_total_questions tally_answers].
    pose proof (attempts_some Submission.user_id u l Hu) as Hpos.
    replace (attempts Submission.user_id u l =? 0) with false by lia.
    fold (Dict.values d). rewrite IH; [done|].
    intros u' r' Hin. apply Hd. by right. }
  apply Hall. intros u r. apply results_by_user_entry.
Qed.

End Results.

(** ** Pages *)

Section Pages.

Import Documents.

Lemma insert_by_perm {A} (le : A → A → bool) x l : insert_by le x l ≡ₚ x :: l.
Proof.
  induction l as [|y l IH]; [done|]. cbn [insert_by].
  destruct (le x y); [done|]. rewrite IH. apply Permutation_swap.
Qed.

Lemma order_by_perm {A} (le : A → A → bool) l : order_by le l ≡ₚ l.
Proof.
  induction l as [|x l IH]; [done|]. unfold order_by in *. cbn [foldr].
  by rewrite insert_by_perm, IH.
Qed.

Lemma insert_by_sorted {A} (le : A → A → bool) x l :
  (∀ a b, le a b = true ∨ le b a = true) →
  (∀ a b c, le a b = true → le b c = true → le a c = true) →
  StronglySorted (λ a b, le a b = true) l →
  StronglySorted (λ a b, le a b = true) (insert_by le x l).
Proof.
  intros Htotal Htrans. induction 1 as [|y l Hl IH Hy]; cbn [insert_by].
  { repeat constructor. }
  destruct (le x y) eqn:Hxy.
  - constructor; [by constructor|]. constructor; [done|].
    eapply Forall_impl; [exact Hy|]. intros z Hz. by eapply Htrans.
  - constructor; [done|]. rewrite insert_by_perm. constructor; [|done].
    destruct (Htotal x y); congruence.
Qed.

Lemma order_by_sorted {A} (le : A → A → bool) l :
  (∀ a b, le a b = true ∨ le b a = true) →
  (∀ a b c, le a b = true → le b c = true → le a c = true) →
  StronglySorted (λ a b, le a b = true) (order_by le l).
Proof.
  intros Htotal Htrans. induction l as [|x l IH]; [constructor|].
  unfold order_by in *. cbn [foldr]. by apply insert_by_sorted.
Qed.

Lemma sorted_weaken {A} (R R' : relation A) l :
  (∀ a b, R a b → R' a b) → StronglySorted R l → StronglySorted R' l.
Proof.
  intros HR. induction 1 as [|x l _ IH Hx]; constructor; [done|].
  eapply Forall_impl; [exact Hx | by intros; apply HR].
Qed.

Lemma window_sorted {A} (R : relation A) (n m : nat) l :
  StronglySorted R l → StronglySorted R (take n (drop m l)).
Proof.
  intros Hl. rewrite <- (take_drop m l) in Hl.
  apply StronglySorted_app_1_r in Hl.
  rewrite <- (take_drop n (drop m l)) in Hl.
  by apply StronglySorted_app_1_l in Hl.
Qed.

(** The first [n] windows of [lim] elements, one after the other, are the
    first [n * lim] elements. *)
Lemma windows_concat {A} (lim n : nat) (l : list A) :
  mjoin ((λ p, take lim (drop (p * lim) l)) <$> seq 0 n) = take (n * lim) l.
Proof.
  induction n as [|n IH]; [done|].
  rewrite seq_S, fmap_app, join_app, IH. cbn [fmap list_fmap mjoin list_join].
  rewrite app_nil_r, take_take_drop. f_equal. lia.
Qed.

Lemma windows_cover {A} (lim n : nat) (l : list A) :
  (length l ≤ n * lim)%nat →
  mjoin ((λ p, take lim (drop (p * lim) l)) <$> seq 0 n) = l.
Proof. intros Hn. rewrite windows_concat. by apply take_ge. Qed.

Variable pg : Postgres.

Lemma valid_sort_by sort_by :
  sort_by = "relevance" ∨ sort_by = "name" →
  negb (bool_decide (sort_by ∈ ["relevance"; "name"])) = false.
Proof. intros [-> | ->]; reflexivity. Qed.

Lemma search_files_run q page lim sort_by type types db :
  sort_by = "relevance" ∨ sort_by = "name" →
  type_filter type = Return types →
  to_tsquery_ok pg q = true →
  1 <= page → 1 <= lim →
  lim < 2 ^ 63 → (page - 1) * lim < 2 ^ 63 →
  serve (search_files pg q page lim sort_by type) db
  = (Return {| search_term := q;
               file_types := types;
               sort := sort_by;
               current_page := page;
               limit := lim;
               total_results := Z.of_nat (length (matching pg q types db));
               total_pages :=
                 Z.of_nat (length (matching pg q types db)) / lim
                 + (if 0 <? Z.of_nat (length (matching pg q types db)) mod lim
                    then 1 else 0);
               results :=
                 take (Z.to_nat lim)
                   (drop (Z.to_nat ((page - 1) * lim))
                      (query_rows pg q types sort_by lim ((page - 1) * lim) db)) |},
     db).
Proof.
  intros Hsort Htypes Hq Hpage Hlim Hlimit Hoffset.
  unfold search_files. rewrite (valid_sort_by _ Hsort). run.
  rewrite Htypes. unfold search_rows, search_count. rewrite Hq. cbn [negb orb].
  rewrite (proj2 (row_count_spec lim)) by lia.
  rewrite (proj2 (row_count_spec ((page - 1) * lim))) by nia.
  cbn [negb orb store]. unfold floordiv, modulo.
  replace (lim =? 0) with false by lia.
  unfold query_rows, sort_order, matching.
  by destruct (String.eqb sort_by "relevance").
Qed.

Lemma query_rows_perm q types sort_by lim offset db :
  query_rows pg q types sort_by lim offset db ≡ₚ matching_rows pg q types db.
Proof.
  unfold query_rows, matching_rows. by rewrite !order_by_perm.
Qed.

Lemma sort_order_total sort_by :
  (∀ a b, collate_le pg a b = true ∨ collate_le pg b a = true) →
  ∀ a b, sort_order pg sort_by a b = true ∨ sort_order pg sort_by b a = true.
Proof.
  intros Htotal a b. unfold sort_order.
  destruct (String.eqb sort_by "relevance"); [|apply Htotal].
  unfold by_relevance. rewrite !Qle_bool_iff.
  destruct (Qlt_le_dec (relevance a) (relevance b)) as [Hlt|Hle]; [|by left].
  right. by apply Qlt_le_weak.
Qed.

Lemma sort_order_trans sort_by :
  (∀ a b c, collate_le pg a b = true → collate_le pg b c = true →
            collate_le pg a c = true) →
  ∀ a b c, sort_order pg sort_by a b = true → sort_order pg sort_by b c = true →
           sort_order pg sort_by a c = true.
Proof.
  intros Htrans a b c. unfold sort_order.
  destruct (String.eqb sort_by "relevance"); [|apply Htrans].
  unfold by_relevance. rewrite !Qle_bool_iff. intros Hab Hbc. by eapply Qle_trans.
Qed.

(** Without ties the order asked for leaves the database no choice. *)
Lemma query_rows_untied q types sort_by lim offset db :
  (∀ a b, collate_le pg a b = true ∨ collate_le pg b a = true) →
  (∀ a b c, collate_le pg a b = true → collate_le pg b c = true →
            collate_le pg a c = true) →
  untied pg q types sort_by db →
  query_rows pg q types sort_by lim offset db = sorted_rows pg q types sort_by db.
Proof.
  intros Htotal Htrans Huntied.
  assert (sorted_rows pg q types sort_by db ≡ₚ matching_rows pg q types db) as Hperm
    by apply order_by_perm.
  apply (StronglySorted_unique_strong (λ a b, sort_order pg sort_by a b = true)).
  - intros a b Ha Hb. rewrite query_rows_perm in Ha. rewrite Hperm in Hb.
    by apply Huntied.
  - apply order_by_sorted; [by apply sort_order_total | by apply sort_order_trans].
  - apply (order_by_sorted (sort_order pg sort_by));
      [by apply sort_order_total | by apply sort_order_trans].
  - by rewrite query_rows_perm, Hperm.
Qed.

Lemma search_page_window q lim sort_by type types db page :
  sort_by = "relevance" ∨ sort_by = "name" →
  type_filter type = Return types →
  to_tsquery_ok pg q = true →
  1 <= lim → lim < 2 ^ 63 → Z.of_nat page * lim < 2 ^ 63 →
  search_page pg q lim sort_by type db (S page)
  = take (Z.to_nat lim)
      (drop (page * Z.to_nat lim)
         (query_rows pg q types sort_by lim (Z.of_nat page * lim) db)).
Proof.
  intros Hsort Htypes Hq Hlim Hlimit Hoffset. unfold search_page.
  replace (Z.of_nat page * lim) with ((Z.of_nat (S page) - 1) * lim) in * by lia.
  rewrite (search_files_run q (Z.of_nat (S page)) lim sort_by type types db)
    by (try done; lia).
  cbn [fst results]. do 2 f_equal. nia.
Qed.

Lemma search_page_length q lim sort_by type db page :
  (length (search_page pg q lim sort_by type db page) ≤ Z.to_nat lim)%nat.
Proof.
  unfold search_page, search_files.
  destruct (negb (bool_decide (sort_by ∈ ["relevance"; "name"])));
    [cbn; lia|]. run.
  destruct (type_filter type) as [types|]; [|cbn; lia].
  unfold search_rows.
  destruct (negb (to_tsquery_ok pg q) || negb (row_count lim)
            || negb (row_count ((Z.of_nat page - 1) * lim))); [cbn; lia|].
  cbn [store].
  destruct (search_count pg q types db) as [total|]; [|cbn; lia].
  destruct (floordiv total lim); [|cbn; lia].
  destruct (modulo total lim); [|cbn; lia].
  cbn [fst results]. rewrite length_take. lia.
Qed.

(** The pages of a search whose order has no ties: for a collation that is
    a total preorder, when no two different rows of the matching documents
    have the same place in the order asked for, pages 1 to [n] of [limit]
    rows, put one after the other, are the sorted list of the rows of the
    matching documents, each once, as soon as [n] pages have room for them
    all (and the last OFFSET is within the integers of the database).  No
    page of any search has more than [limit] rows. *)
Theorem search_files_pages_cover q lim sort_by type types db n :
  sort_by = "relevance" ∨ sort_by = "name" →
  type_filter type = Return types →
  to_tsquery_ok pg q = true →
  1 <= lim → Z.of_nat n * lim < 2 ^ 63 →
  (∀ a b, collate_le pg a b = true ∨ collate_le pg b a = true) →
  (∀ a b c, collate_le pg a b = true → collate_le pg b c = true →
            collate_le pg a c = true) →
  untied pg q types sort_by db →
  Z.of_nat (length (matching pg q types db)) <= Z.of_nat n * lim →
  mjoin (search_page pg q lim sort_by type db <$> seq 1 n)
  = sorted_rows pg q types sort_by db
  ∧ sorted_rows pg q types sort_by db ≡ₚ matching_rows pg q types db
  ∧ ∀ page, (length (search_page pg q lim sort_by type db page)
             ≤ Z.to_nat lim)%nat.
Proof.
  intros Hsort Htypes Hq Hlim Hrange Htotal Htrans Huntied Hroom.
  assert (sorted_rows pg q types sort_by db ≡ₚ matching_rows pg q types db) as Hperm
    by apply order_by_perm.
  split; [|split; [done | apply search_page_length]].
  destruct n as [|n]; [|].
  { cbn. symmetry. apply nil_length_inv. rewrite Hperm. unfold matching_rows.
    rewrite length_fmap. lia. }
  rewrite <- fmap_S_seq, <- list_fmap_compose.
  etrans; [|apply (windows_cover (Z.to_nat lim) (S n))].
  - f_equal. apply list_fmap_ext. intros i p Hp.
    apply lookup_seq in Hp as [-> Hi]. cbn.
    rewrite (search_page_window _ _ _ _ types) by (try done; nia).
    by rewrite query_rows_untied.
  - rewrite Hperm. unfold matching_rows. rewrite length_fmap. nia.
Qed.

Lemma map_file_types_return parts types :
  map_file_types parts = Return types →
  Forall2 (λ part mime, mime_map !! Py.strip part = Some mime) parts types.
Proof.
  revert types. induction parts as [|part parts IH]; intros types; cbn [map_file_types].
  - intros [= <-]. constructor.
  - destruct (mime_map !! Py.strip part) as [mime|] eqn:Hmime; [|discriminate].
    destruct (map_file_types parts) as [l|]; [|discriminate].
    intros [= <-]. constructor; [done | by apply IH].
Qed.

Lemma mime_map_allowed alias mime :
  mime_map !! alias = Some mime → recognized alias ∧ mime ∈ allowed_types.
Proof.
  unfold mime_map, recognized, allowed_types. intros Hmime.
  destruct (decide (alias = "txt")) as [->|Htxt].
  { rewrite lookup_insert_eq in Hmime. injection Hmime as <-.
    split; [tauto | apply (bool_decide_unpack _); reflexivity]. }
  rewrite lookup_insert_ne in Hmime by done.
  destruct (decide (alias = "pdf")) as [->|Hpdf].
  { rewrite lookup_insert_eq in Hmime. injection Hmime as <-.
    split; [tauto | apply (bool_decide_unpack _); reflexivity]. }
  rewrite lookup_insert_ne in Hmime by done.
  destruct (decide (alias = "docx")) as [->|Hdocx].
  { rewrite lookup_insert_eq in Hmime. injection Hmime as <-.
    split; [tauto | apply (bool_decide_unpack _); reflexivity]. }
  rewrite lookup_insert_ne in Hmime by done. by rewrite lookup_empty in Hmime.
Qed.

(** What an answer of [search_files] tells about the request. *)
Lemma search_files_returns q page lim sort_by type db r db' :
  serve (search_files pg q page lim sort_by type) db = (Return r, db') →
  (sort_by = "relevance" ∨ sort_by = "name")
  ∧ (∃ types, type_filter type = Return types)
  ∧ to_tsquery_ok pg q = true
  ∧ 1 <= page ∧ 1 <= lim
  ∧ lim < 2 ^ 63 ∧ (page - 1) * lim < 2 ^ 63.
Proof.
  unfold search_files.
  destruct (bool_decide (sort_by ∈ ["relevance"; "name"])) eqn:Hsort;
    cbn [negb]; [|discriminate].
  apply bool_decide_eq_true in Hsort. run.
  destruct (type_filter type) as [types|] eqn:Htypes; [|discriminate].
  unfold search_rows, search_count.
  destruct (negb (to_tsquery_ok pg q) || negb (row_count lim)
            || negb (row_count ((page - 1) * lim)))
    eqn:Hquery; [discriminate|].
  apply orb_false_iff in Hquery as [Hquery Hoffset].
  apply orb_false_iff in Hquery as [Hq Hlim]. rewrite Hq.
  apply negb_false_iff, row_count_spec in Hoffset, Hlim.
  apply negb_false_iff in Hq. unfold floordiv.
  destruct (lim =? 0) eqn:Hzero; [discriminate|]. intros _.
  split; [|split; [by eexists|split; [done|]]].
  - apply elem_of_cons in Hsort as [-> | Hsort]; [by left|].
    apply list_elem_of_singleton in Hsort as ->. by right.
  - nia.
Qed.

(** [search_files] answers valid requests only, and with matching
    documents only: when it returns, the sort mode is one of the two,
    [page] and [limit] are at least 1, the MIME types of the filter are
    types an upload can have, every row is the row of a stored document
    that the query matches and that has one of these types if there is a
    filter, and the database is as it was. *)
Theorem search_files_answer_sound q page lim sort_by type db r db' :
  serve (search_files pg q page lim sort_by type) db = (Return r, db') →
  db' = db
  ∧ (sort_by = "relevance" ∨ sort_by = "name")
  ∧ 1 <= page ∧ 1 <= lim
  ∧ (∀ mime, mime ∈ file_types r → mime ∈ allowed_types)
  ∧ ∀ row, row ∈ results r →
      ∃ d v, d ∈ documents db
        ∧ row = search_row pg q d
        ∧ Document.search_vector d = Some v
        ∧ ts_match pg v q = true
        ∧ (file_types r ≠ [] → Document.file_type d ∈ file_types r).
Proof.
  intros Hserve.
  destruct (search_files_returns _ _ _ _ _ _ _ _ Hserve)
    as (Hsort & [types Htypes] & Hq & Hpage & Hlim & Hlimit & Hoffset).
  rewrite (search_files_run _ _ _ _ _ _ _ Hsort Htypes Hq Hpage Hlim Hlimit Hoffset)
    in Hserve.
  injection Hserve as <- <-. cbn [file_types results].
  split; [done|]. split; [done|]. split; [done|]. split; [done|]. split.
  - intros mime Hmime. destruct type as [[|c t]|]; cbn [type_filter] in Htypes;
      try (injection Htypes as <-; by apply elem_of_nil in Hmime).
    apply map_file_types_return in Htypes.
    apply list_elem_of_lookup in Hmime as [i Hi].
    destruct (Forall2_lookup_r _ _ _ _ _ Htypes Hi) as (part & _ & Hpart).
    by apply mime_map_allowed in Hpart as [_ ?].
  - intros row Hrow.
    apply (elem_of_sublist _ (query_rows pg q types sort_by lim ((page - 1) * lim) db))
      in Hrow; [|etrans; [apply sublist_take | apply sublist_drop]].
    rewrite query_rows_perm in Hrow. unfold matching_rows, matching in Hrow.
    apply list_elem_of_fmap in Hrow as (d & -> & Hd).
    apply list_elem_of_In, filter_In in Hd as [Hd Hmatch].
    apply list_elem_of_In in Hd. unfold matches in Hmatch.
    apply andb_true_iff in Hmatch as [Hvec Htype].
    destruct (Document.search_vector d) as [v|] eqn:Hv; [|discriminate].
    exists d, v. repeat split; try done.
    intros Hsome. destruct types; [done|]. by apply bool_decide_eq_true in Htype.
Qed.

(** The rows of a page are in the order asked for: with sort mode
    [relevance] no row has a smaller relevance than a later row; with sort
    mode [name], for a collation that is a total preorder, no row comes
    after a row it precedes in the collation. *)
Theorem search_files_sorted q page lim sort_by type db r db' :
  serve (search_files pg q page lim sort_by type) db = (Return r, db') →
  (sort_by = "relevance" →
   StronglySorted (λ a b, (relevance b <= relevance a)%Q) (results r))
  ∧ (sort_by = "name" →
     (∀ a b, collate_le pg a b = true ∨ collate_le pg b a = true) →
     (∀ a b c, collate_le pg a b = true → collate_le pg b c = true →
               collate_le pg a c = true) →
     StronglySorted (λ a b, collate_le pg (row_name a) (row_name b) = true)
       (results r)).
Proof.
  intros Hserve.
  destruct (search_files_returns _ _ _ _ _ _ _ _ Hserve)
    as (Hsort & [types Htypes] & Hq & Hpage & Hlim & Hlimit & Hoffset).
  rewrite (search_files_run _ _ _ _ _ _ _ Hsort Htypes Hq Hpage Hlim Hlimit Hoffset)
    in Hserve.
  injection Hserve as <- <-. cbn [results]. unfold query_rows, sort_order. split.
  - intros ->. cbn [String.eqb Ascii.eqb Bool.eqb]. apply window_sorted.
    eapply (sorted_weaken (λ a b, by_relevance a b = true)).
    { intros a b Hab. by apply Qle_bool_iff in Hab. }
    apply order_by_sorted.
    + intros a b. unfold by_relevance. rewrite !Qle_bool_iff.
      destruct (Qlt_le_dec (relevance a) (relevance b)) as [Hlt|Hle]; [|by left].
      right. by apply Qlt_le_weak.
    + intros a b c. unfold by_relevance. rewrite !Qle_bool_iff.
      intros Hab Hbc. by eapply Qle_trans.
  - intros -> Htotal Htrans. cbn [String.eqb Ascii.eqb Bool.eqb].
    apply window_sorted.
    apply (order_by_sorted (by_name pg)); unfold by_name; [by intros | by eauto].
Qed.

Lemma get_all_quizzes_run collate_ge page lim db :
  1 <= page → 1 <= lim →
  lim < 2 ^ 63 → (page - 1) * lim < 2 ^ 63 →
  serve (Quizzes.get_all_quizzes collate_ge page lim) db
  = (Return {| Quizzes.page_data :=
                 take (Z.to_nat lim)
                   (drop (Z.to_nat ((page - 1) * lim))
                      (order_by (λ a b, collate_ge (Quiz.quiz_id a) (Quiz.quiz_id b))
                         (quizzes db)));
               Quizzes.page_number := page;
               Quizzes.page_limit := lim;
               Quizzes.total_items := Z.of_nat (length (quizzes db)) |}, db).
Proof.
  intros Hpage Hlim Hlimit Hoffset. unfold Quizzes.get_all_quizzes.
  replace ((page <? 1) || (lim <? 1)) with false
    by (symmetry; apply orb_false_iff; lia).
  run.
  rewrite (proj2 (row_count_spec lim)) by lia.
  rewrite (proj2 (row_count_spec ((page - 1) * lim))) by nia.
  reflexivity.
Qed.

(** The pages of [get_all_quizzes], in order, are the list of all quizzes
    sorted by identifier and cut in windows of [limit] rows: for a [limit]
    of at least 1 and [n] pages whose OFFSETs are within the integers of
    the database, pages 1 to [n] put one after the other give every quiz
    once when they have room for them all; each of these pages has no more
    than [limit] rows and reports the number of all quizzes. *)
Theorem get_all_quizzes_pages_cover collate_ge lim db n :
  1 <= lim →
  Z.of_nat n * lim < 2 ^ 63 →
  Z.of_nat (length (quizzes db)) <= Z.of_nat n * lim →
  mjoin (quizzes_page collate_ge lim db <$> seq 1 n) ≡ₚ quizzes db
  ∧ ∀ page, (page < n)%nat →
      ∃ r, serve (Quizzes.get_all_quizzes collate_ge (Z.of_nat (S page)) lim) db
           = (Return r, db)
           ∧ Quizzes.page_data r = quizzes_page collate_ge lim db (S page)
           ∧ (length (Quizzes.page_data r) ≤ Z.to_nat lim)%nat
           ∧ Quizzes.total_items r = Z.of_nat (length (quizzes db)).
Proof.
  intros Hlim Hrange Hroom.
  set (sorted := order_by (λ a b, collate_ge (Quiz.quiz_id a) (Quiz.quiz_id b))
                   (quizzes db)).
  assert (∀ page, (page < n)%nat →
                  quizzes_page collate_ge lim db (S page)
                  = take (Z.to_nat lim) (drop (page * Z.to_nat lim) sorted)) as Hwindow.
  { intros page Hpage. unfold quizzes_page.
    rewrite get_all_quizzes_run by nia. cbn [fst Quizzes.page_data].
    do 2 f_equal. nia. }
  split.
  - rewrite <- fmap_S_seq, <- list_fmap_compose.
    rewrite (list_fmap_ext _ (λ p, take (Z.to_nat lim)
                                     (drop (p * Z.to_nat lim) sorted))).
    + rewrite windows_cover; [apply order_by_perm|].
      unfold sorted. rewrite order_by_perm. nia.
    + intros i p Hp. apply lookup_seq in Hp as [-> Hi]. cbn. by apply Hwindow.
  - intros page Hpage. eexists. split; [apply get_all_quizzes_run; nia|].
    cbn [Quizzes.page_data Quizzes.total_items]. rewrite Hwindow by done.
    split; [do 2 f_equal; nia|]. split; [|done].
    rewrite length_take. lia.
Qed.

End Pages.

(** ** Quiz creation, all or nothing *)

Section CreateQuizWrites.

Import Quizzes.

Variable service : Prompt → generation.
Variable uuid4 : nat → string.
Variable now : Z.

Lemma add_questions_outcome quiz_id entries index s :
  (∃ f s', add_questions quiz_id index entries s = (Raise f, s')
           ∧ store s' = store s)
  ∨ (∃ raws, add_questions quiz_id index entries s
             = (Return (), {| store := store s;
                              pending := pending s ++ raw_objects quiz_id index raws |})
             ∧ length raws = length entries).
Proof.
  revert index s. induction entries as [|entry entries IH]; intros index s.
  { right. exists []. cbn. rewrite app_nil_r. split; [by destruct s | done]. }
  cbn [add_questions]. run.
  destruct (Value.subscript entry "question") as [text|f]; [|left; by exists f, s].
  destruct (Value.subscript entry "options") as [options|f]; [|left; by exists f, s].
  unfold json_dumps.
  destruct (Value.json_serializable options); [|left; by eexists _, s].
  destruct (Value.subscript entry "correct_answer") as [answer|f];
    [|left; by exists f, s].
  match goal with |- context [add_questions quiz_id (index + 1) entries ?s1] =>
    destruct (IH (index + 1) s1) as [(f & s' & -> & Hstore) | (raws & -> & Hlen)] end.
  - left. by exists f, s'.
  - right. exists ((text, options, answer) :: raws). cbn [store pending raw_objects].
    rewrite <- app_assoc. split; [reflexivity|]. cbn [length]. by rewrite Hlen.
Qed.

Lemma flush_raw_objects quiz_id raws index db db' :
  flush now (raw_objects quiz_id index raws) db = Some db' →
  ∃ fields,
    length fields = length raws
    ∧ db' = {| documents := documents db;
               quizzes := quizzes db;
               questions := questions db ++ question_rows quiz_id index fields;
               quiz_submissions := quiz_submissions db |}.
Proof.
  revert index db. induction raws as [|[[text options] answer] raws IH]; intros index db.
  { cbn. intros [= <-]. exists []. split; [done|]. cbn. rewrite app_nil_r.
    by destruct db. }
  cbn [raw_objects flush]. unfold insert.
  destruct (storable _); [|discriminate]. cbn [insert_row].
  destruct (bool_decide _); [discriminate|]. destruct (bool_decide _); [|discriminate].
  destruct (Value.as_text text) as [text'|] eqn:Htext; [|discriminate].
  destruct (Value.as_text answer) as [answer'|] eqn:Hanswer; [|discriminate].
  intros Hflush. apply IH in Hflush as (fields & Hlen & ->).
  exists ((text', options, answer') :: fields). cbn [length]. rewrite Hlen.
  split; [done|]. cbn [documents quizzes questions quiz_submissions question_rows].
  by rewrite <- app_assoc.
Qed.

(** [create_quiz] writes all or nothing: whatever the service answers, a
    failed request leaves the database as it was, and a request that
    returns has added the quiz of the request and as many questions as were
    asked for, numbered from 1 under the new quiz, and nothing else. *)
Theorem create_quiz_all_or_nothing payload db :
  match serve (create_quiz service uuid4 now payload) db with
  | (Raise _, db') => db' = db
  | (Return r, db') =>
      created_quiz_id r = uuid4 0%nat
      ∧ ∃ fields,
          Z.of_nat (length fields) = number_of_questions payload
          ∧ db' = with_quiz db (quiz_row payload (uuid4 0%nat) now)
                    (question_rows (uuid4 0%nat) 1 fields)
  end.
Proof.
  unfold create_quiz. run.
  destruct (bool_decide _ || negb _); [done|].
  match goal with |- context [service ?p] => destruct (service p) as [msg|v] end;
    [done|].
  destruct v as [| | | | |entries| | |]; try done.
  destruct (Z.of_nat (length entries) =? number_of_questions payload) eqn:Hcount;
    cbn [negb]; [|done].
  apply Z.eqb_eq in Hcount.
  match goal with |- context [add_questions ?q 1 entries ?s1] =>
    destruct (add_questions_outcome q entries 1 s1)
      as [(f & s' & -> & Hstore) | (raws & -> & Hlen)] end.
  { cbn [store] in Hstore. by rewrite Hstore. }
  cbn [store pending app flush]. unfold insert at 1.
  destruct (storable _); [|done]. cbn [insert_row].
  destruct (bool_decide (uuid4 0%nat ∈ Quiz.quiz_id <$> quizzes db)); [done|].
  match goal with |- context [flush now ?queue ?d] =>
    destruct (flush now queue d) as [db'|] eqn:Hflush end; [|done].
  apply flush_raw_objects in Hflush as (fields & Hfields & ->).
  cbn [store created_quiz_id]. split; [done|]. exists fields.
  split; [lia | reflexivity].
Qed.




Lemma filter_none {A} (p : A → bool) l :
  (∀ x, x ∈ l → p x = false) → List.filter p l = [].
Proof.
  induction l as [|x l IH]; [done|]. intros Hl. cbn [List.filter].
  rewrite (Hl x) by (by left). apply IH. intros y Hy. apply Hl. by right.
Qed.




End CreateQuizWrites.

(** ** Results of a quiz, user by user *)

Section ResultsFacts.

Import Quizzes.

Lemma get_quiz_results_run quiz_id quiz db :
  find_quiz quiz_id db = Some quiz →
  submissions_of quiz_id db ≠ [] →
  serve (get_quiz_results quiz_id) db
  = (Return ((λ u, user_result quiz_id u (submissions_of quiz_id db))
               <$> (results_by_user quiz_id (submissions_of quiz_id db)).*1), db).
Proof.
  intros Hquiz Hsome. unfold get_quiz_results. run. rewrite Hquiz. cbn [store].
  destruct (submissions_of quiz_id db) as [|s l] eqn:Hsubs; [done|].
  change (foldl (record_submission quiz_id) [] (s :: l))
    with (results_by_user quiz_id (s :: l)).
  by rewrite results_with_percentage.
Qed.

(** [get_quiz_results], user by user: for a quiz with submissions the
    answer has one entry for each user with a submission to the quiz, no
    user twice, and the entry of a user has as score the number of that
    user's correct submissions, as total the number of that user's
    submissions, which is at least 1, and as answers those submissions in
    the order stored. *)
Theorem get_quiz_results_per_user quiz_id quiz db :
  find_quiz quiz_id db = Some quiz →
  submissions_of quiz_id db ≠ [] →
  ∃ results,
    serve (get_quiz_results quiz_id) db = (Return results, db)
    ∧ NoDup (result_user_id <$> results)
    ∧ (∀ u, u ∈ result_user_id <$> results
            ↔ u ∈ Submission.user_id <$> submissions_of quiz_id db)
    ∧ ∀ r, r ∈ results →
        r = user_result quiz_id (result_user_id r) (submissions_of quiz_id db)
        ∧ 0 <= result_score r <= result_total_questions r
        ∧ 1 <= result_total_questions r.
Proof.
  intros Hquiz Hsome. eexists. split; [by eapply get_quiz_results_run|].
  set (subs := submissions_of quiz_id db).
  assert (result_user_id <$> ((λ u, user_result quiz_id u subs)
                                <$> (results_by_user quiz_id subs).*1)
          = (results_by_user quiz_id subs).*1) as Hkeys.
  { rewrite <- list_fmap_compose. rewrite <- (list_fmap_id (_.*1)) at 2.
    by apply list_fmap_ext. }
  rewrite Hkeys. split; [apply results_by_user_spec|].
  split; [apply results_by_user_keys|].
  intros r (u & -> & Hu)%list_elem_of_fmap. cbn [result_user_id user_result
    result_score result_total_questions].
  apply results_by_user_keys in Hu. split; [done|].
  split; [apply correct_among_le | by apply attempts_some].
Qed.


End ResultsFacts.

(** ** What a submission writes *)

Section SubmitWrites.

Import Quizzes.

Variable uuid4 : nat → string.
Variable now : Z.

Lemma with_submissions_nil db : with_submissions db [] = db.
Proof. unfold with_submissions. rewrite app_nil_r. by destruct db. Qed.

Lemma grade_outcome quiz_id user_id found k answers submissions points :
  match grade uuid4 quiz_id user_id found k answers submissions points with
  | Raise _ => True
  | Return (submissions', points') =>
      ∃ objs, submissions' = (submissions ++ objs)%list
              ∧ length objs = length answers
              ∧ Forall (graded_object quiz_id user_id) objs
              ∧ points <= points' <= points + Z.of_nat (length answers)
  end.
Proof.
  revert k submissions points.
  induction answers as [|a answers IH]; intros k submissions points.
  { cbn. exists []. rewrite app_nil_r. repeat split; [constructor | lia | lia]. }
  cbn [grade].
  destruct (Value.subscript a "question_id") as [qid|]; [|done].
  destruct (next_question found qid) as [question|]; [|done].
  destruct (Value.subscript a "selected_answer") as [selected|]; [|done].
  match goal with |- context [grade _ _ _ _ (S k) answers ?s ?p] =>
    specialize (IH (S k) s p); destruct (grade uuid4 quiz_id user_id found (S k) answers s p)
      as [[submissions' points']|]; [|done] end.
  destruct IH as (objs & -> & Hlen & Hobjs & Hpoints).
  eexists (_ :: objs). rewrite <- app_assoc. split; [reflexivity|].
  cbn [length]. split; [by rewrite Hlen|]. split.
  - constructor; [by eexists _, _, _, _ | done].
  - destruct (Value.str_eq _ _); lia.
Qed.

Lemma flush_graded_objects quiz_id user_id objs db db' :
  Forall (graded_object quiz_id user_id) objs →
  flush now objs db = Some db' →
  ∃ rows, db' = with_submissions db rows
          ∧ length rows = length objs
          ∧ Forall (graded_row quiz_id user_id now) rows.
Proof.
  intros Hobjs. revert db.
  induction Hobjs as [|o objs (sid & qid & sel & flag & ->) _ IH]; intros db.
  { cbn. intros [= <-]. exists []. by rewrite with_submissions_nil. }
  cbn [flush]. unfold insert. destruct (storable _); [|discriminate].
  cbn [insert_row]. destruct (bool_decide _); [discriminate|].
  destruct (Value.as_text qid) as [qid'|]; [|discriminate].
  destruct (Value.as_text sel) as [sel'|]; [|discriminate].
  intros Hflush. apply IH in Hflush as (rows & -> & Hlen & Hrows).
  eexists (_ :: rows). split.
  - unfold with_submissions. cbn [documents quizzes questions quiz_submissions].
    by rewrite <- app_assoc.
  - cbn [length]. split; [by rewrite Hlen|]. by constructor.
Qed.

(** [submit_quiz] only appends submissions, all of a request or none:
    whatever the request, the documents, quizzes, questions and earlier
    submissions are as before; a failed request adds nothing; a request
    that returns has added one submission for each answer, all for the quiz
    of the request, one user and the time of the request, and its answer
    has a total of at least 1, equal to the number of answers, and a score
    between 0 and the total. *)
Theorem submit_quiz_appends_only quiz_id answers db :
  ∃ rows,
    (serve (submit_quiz uuid4 now quiz_id answers) db).2 = with_submissions db rows
    ∧ Forall (graded_row quiz_id (uuid4 0%nat) now) rows
    ∧ match (serve (submit_quiz uuid4 now quiz_id answers) db).1 with
      | Raise _ => rows = []
      | Return r =>
          length rows = length answers
          ∧ total_questions r = Z.of_nat (length answers)
          ∧ 1 <= total_questions r
          ∧ 0 <= score r <= total_questions r
          ∧ percentage r = Round2 (score r) (total_questions r)
      end.
Proof.
  assert (∀ f, ∃ rows,
            (Raise f : outcome SubmitResponse, db).2 = with_submissions db rows
            ∧ Forall (graded_row quiz_id (uuid4 0%nat) now) rows
            ∧ rows = []) as Hfail.
  { intros f. exists []. by rewrite with_submissions_nil. }
  unfold submit_quiz. run.
  destruct (find_quiz quiz_id db) as [quiz|]; [|apply Hfail].
  destruct (question_ids_of answers) as [ids|]; [|apply Hfail].
  destruct (select_questions quiz_id ids _) as [found|]; [|apply Hfail].
  destruct (length found =? length answers)%nat; cbn [negb]; [|apply Hfail].
  pose proof (grade_outcome quiz_id (uuid4 0%nat) found 1 answers [] 0) as Hgrade.
  destruct (grade uuid4 quiz_id (uuid4 0%nat) found 1 answers [] 0)
    as [[submissions points]|]; [|apply Hfail].
  destruct Hgrade as (objs & -> & Hlen & Hobjs & Hpoints).
  cbn [fst snd store pending app].
  destruct (flush now objs db) as [db'|] eqn:Hflush; [|apply Hfail].
  destruct (flush_graded_objects _ _ _ _ _ Hobjs Hflush) as (rows & -> & Hrows & Hall).
  unfold percentage_of.
  destruct (Z.of_nat (length answers) =? 0) eqn:Hzero.
  - apply Z.eqb_eq in Hzero. exists rows. cbn [fst snd store].
    split; [done|]. split; [done|]. apply nil_length_inv. lia.
  - apply Z.eqb_neq in Hzero. exists rows. cbn [fst snd store score
      total_questions percentage].
    repeat split; try done; lia.
Qed.

Lemma question_ids_of_missing answers :
  Forall is_dict answers →
  Exists (lacks "question_id") answers →
  question_ids_of answers = Raise (Unhandled (KeyError "question_id")).
Proof.
  intros Hdicts Hlacks. induction Hlacks as [a answers Ha | a answers _ IH].
  - destruct Ha as (entries & -> & Hnone). cbn [question_ids_of Value.subscript].
    by rewrite Hnone.
  - apply Forall_cons in Hdicts as [[entries ->] Hdicts].
    cbn [question_ids_of Value.subscript].
    destruct (Value.dict_get "question_id" entries); [|done].
    by rewrite IH.
Qed.

(** An answer without [question_id]: for an existing quiz, when the answers
    are JSON objects and one of them has no key [question_id], the request
    ends in a [KeyError] nobody catches, before anything is read or
    written. *)
Theorem submit_quiz_missing_question_id quiz_id quiz answers db :
  find_quiz quiz_id db = Some quiz →
  Forall is_dict answers →
  Exists (lacks "question_id") answers →
  serve (submit_quiz uuid4 now quiz_id answers) db
  = (Raise (Unhandled (KeyError "question_id")), db).
Proof.
  intros Hquiz Hdicts Hlacks. unfold submit_quiz. run.
  by rewrite Hquiz, question_ids_of_missing.
Qed.

Lemma grade_missing quiz_id ids db answers some_ids k submissions points :
  Forall2 references answers some_ids →
  (∀ id, id ∈ some_ids → id ∈ ids) →
  (∀ id, id ∈ some_ids → id ∈ Question.question_id <$> questions_of quiz_id db) →
  Exists (lacks "selected_answer") answers →
  grade uuid4 quiz_id (uuid4 0%nat) (resolved quiz_id ids db) k answers
    submissions points
  = Raise (Unhandled (KeyError "selected_answer")).
Proof.
  intros Hrefs. revert k submissions points.
  induction Hrefs as [|a id answers some_ids Ha _ IH];
    intros k submissions points Hids Hquiz Hlacks.
  { by apply Exists_nil in Hlacks. }
  unfold references in Ha. cbn [grade]. rewrite Ha. unfold next_question.
  rewrite find_resolved by (apply Hids; by left).
  destruct (find_some_of_quiz quiz_id db id) as [q ->]; [apply Hquiz; by left|].
  assert (∃ entries, a = PyDict entries) as [entries ->].
  { destruct a; try discriminate. by eexists. }
  cbn [Value.subscript] in *.
  destruct (Value.dict_get "selected_answer" entries) as [selected|] eqn:Hsel;
    [|done].
  apply IH.
  - intros x Hx. apply Hids. by right.
  - intros x Hx. apply Hquiz. by right.
  - apply Exists_cons in Hlacks as [(entries' & [= <-] & Hnone) | Hlater];
      [congruence | done].
Qed.

(** An answer without [selected_answer]: when the answers name distinct
    questions of an existing quiz and one of them has no key
    [selected_answer], the request ends in a [KeyError] nobody catches and
    no submission is written, not even those of the answers before it. *)
Theorem submit_quiz_missing_selected_answer quiz_id quiz answers ids db :
  find_quiz quiz_id db = Some quiz →
  questions_keyed db →
  Forall2 references answers ids →
  NoDup ids →
  (∀ id, id ∈ ids → id ∈ Question.question_id <$> questions_of quiz_id db) →
  Exists (lacks "selected_answer") answers →
  serve (submit_quiz uuid4 now quiz_id answers) db
  = (Raise (Unhandled (KeyError "selected_answer")), db).
Proof.
  intros Hquiz Hkey Hrefs Hnodup Hall Hlacks. unfold submit_quiz. run.
  rewrite Hquiz, (question_ids_of_references _ _ Hrefs).
  unfold select_questions. rewrite all_text. cbn [store pending].
  change (List.filter _ (questions db)) with (resolved quiz_id ids db).
  rewrite (resolved_length _ _ _ Hkey Hnodup Hall).
  rewrite <- (Forall2_length _ _ _ Hrefs), Nat.eqb_refl. cbn [negb].
  by rewrite (grade_missing quiz_id ids db answers ids).
Qed.





End SubmitWrites.

(** ** Uploads and lookups *)

Section Uploads.

Import Documents.

Variable pg : Postgres.
Variable ext : Extractors.
Variable now : Z.

Lemma dict_keys_set_old {V} k (v : V) d : k ∈ d.*1 → (Dict.set k v d).*1 = d.*1.
Proof.
  induction d as [|[k0 v0] d IH]; [by intros ?%elem_of_nil|].
  rewrite fmap_cons. cbn [fst Dict.set].
  destruct (String.eqb k0 k) eqn:Hk0; [done|].
  apply String.eqb_neq in Hk0. intros [? | Hk]%elem_of_cons; [done|].
  rewrite fmap_cons. cbn [fst]. by rewrite IH.
Qed.

(** The parsed form has one value for each field name of the request. *)
Lemma form_values_names form :
  length (form_values form) = size (list_to_set (C := gset string) form.*1).
Proof.
  unfold form_values, Dict.values. rewrite length_fmap.
  set (parsed := foldl (λ d part, Dict.set part.1 part.2 d) [] form).
  assert (NoDup parsed.*1 ∧ ∀ k, k ∈ parsed.*1 ↔ k ∈ form.*1) as [Hnodup Hkeys].
  { unfold parsed. clear parsed.
    induction form as [|[k v] form [Hnodup Hkeys]] using rev_ind.
    { split; [constructor | done]. }
    rewrite foldl_app. cbn [foldl fst snd].
    set (d := foldl (λ d part, Dict.set part.1 part.2 d) [] form) in *.
    destruct (decide (k ∈ d.*1)) as [Hold | Hnew].
    - rewrite dict_keys_set_old by done. split; [done|].
      intros x. rewrite fmap_app, elem_of_app, <- Hkeys. cbn.
      rewrite list_elem_of_singleton. naive_solver.
    - rewrite dict_keys_set_new by done. split.
      + apply NoDup_app. split; [done|]. split; [|apply NoDup_singleton].
        intros x Hx ->%list_elem_of_singleton. done.
      + intros x. rewrite !fmap_app, !elem_of_app, Hkeys. done. }
  rewrite <- (length_fmap fst parsed), <- (size_list_to_set (C := gset string)) by done.
  f_equal. apply set_eq. intros k. by rewrite !elem_of_list_to_set.
Qed.

(** [upload_file], the refusals: a form whose parts have not all one
    field name (no part, or parts under two names or more), a form whose
    value is no file, and a file of a type other than the three allowed
    are answered with status 400, and nothing is written.  The value of a
    form with one field name is the last part sent under it. *)
Theorem upload_file_refusals form db :
  (size (list_to_set (C := gset string) form.*1) ≠ 1%nat →
   serve (upload_file pg ext now form) db
   = (Raise (HTTPException 400 "Exactly one file must be uploaded."), db))
  ∧ (∀ value, form_values form = [FormField value] →
       serve (upload_file pg ext now form) db
       = (Raise (HTTPException 400 "No valid file uploaded."), db))
  ∧ (∀ file, form_values form = [FormFile file] →
       content_type file ∉ allowed_types →
       serve (upload_file pg ext now form) db
       = (Raise (HTTPException 400 "Unsupported file type"), db))
  ∧ (∀ field part parts, form = (field, part) :: parts →
       Forall (λ p, p.1 = field) parts →
       form_values form = [default part (last parts.*2)]).
Proof.
  unfold upload_file. split; [|split; [|split]].
  - rewrite <- form_values_names. intros Hlen. apply Nat.eqb_neq in Hlen.
    by rewrite Hlen.
  - by intros value ->.
  - intros file -> Htype. cbn [length Nat.eqb negb].
    by rewrite bool_decide_eq_false_2.
  - intros field part parts -> Hparts. unfold form_values. cbn [foldl Dict.set fst snd].
    revert part. induction Hparts as [|[k v] parts Hk _ IH]; intros part; [done|].
    cbn [fst] in Hk. subst k. cbn [foldl Dict.set fst snd].
    rewrite String.eqb_refl, IH, !fmap_cons. cbn [snd].
    rewrite last_cons. by destruct (last parts.*2).
Qed.

Lemma existing_ids_stuck rows :
  Exists (λ row, numeric_suffix row = None) rows →
  existing_ids rows = Raise (Unhandled ValueError).
Proof.
  induction 1 as [row rows Hrow | row rows _ IH]; cbn [existing_ids].
  - by rewrite Hrow.
  - destruct (numeric_suffix row); [by rewrite IH | done].
Qed.

(** One identifier that does not read as "file" and an integer stops all
    uploads: with such a document in the table, an upload that passes the
    checks of the form ends in a [ValueError] nobody catches, and nothing
    is written. *)
Theorem upload_file_blocked_by_identifier field file db :
  uploadable ext file →
  Exists (λ id, numeric_suffix id = None) (Document.file_id <$> documents db) →
  serve (upload_file pg ext now [(field, FormFile file)]) db
  = (Raise (Unhandled ValueError), db).
Proof.
  intros (Htype & Hwrite & [text Htext]) Hstuck. unfold upload_file.
  cbn [form_values foldl Dict.set Dict.values fmap list_fmap snd fst
       length Nat.eqb negb].
  rewrite bool_decide_eq_true_2 by done. cbn [negb]. run.
  rewrite Hwrite, Htext. cbn [store pending]. by rewrite existing_ids_stuck.
Qed.




(** An uploaded document is what [get_document] reads under the identifier
    returned: after an upload that is carried through (the file is of an
    allowed type, its text extracts, [to_tsvector] and the database take
    the text and the name, the temporary file is written and removed, the
    identifiers in the table read as numbers), the table has one more
    document, and [get_document] answers the name and the type of the file
    and the extracted text, with its length. *)
Theorem upload_file_then_get_document utcnow field file db ids text :
  accepted_with pg ext file text →
  existing_ids (Document.file_id <$> documents db) = Return ids →
  ∃ r db',
    serve (upload_file pg ext now [(field, FormFile file)]) db = (Return r, db')
    ∧ documents db' = (documents db ++ [uploaded file (file_id r) text])%list
    ∧ serve (get_document utcnow (file_id r)) db'
      = (Return (details_of utcnow (uploaded file (file_id r) text)), db').
Proof.
  intros Hfile Hids.
  assert (custom_file_id (Py.max_default 0 ids + 1)
            ∉ Document.file_id <$> documents db) as Hfresh
    by (eapply custom_file_id_fresh; [done | lia]).
  eexists _, _.
  split; [by apply upload_file_accepted|].
  cbn [file_id documents]. split; [reflexivity|].
  unfold get_document. run.
  match goal with |- context [find_document ?id ?d] =>
    assert (find_document id d
            = Some (uploaded file (custom_file_id (Py.max_default 0 ids + 1)) text))
      as ->; [|reflexivity] end.
  unfold find_document. cbn [documents]. rewrite List.filter_app.
  rewrite filter_none; cycle 1.
  { intros d Hd. apply String.eqb_neq. intros Heq. apply Hfresh.
    rewrite <- Heq. apply list_elem_of_fmap. by exists d. }
  cbn [List.filter app uploaded Document.file_id]. by rewrite String.eqb_refl.
Qed.

End Uploads.

(** ** Handlers together *)

Section Together.

Import Documents.

Lemma map_file_types_recognized parts :
  Forall (λ part, recognized (Py.strip part)) parts →
  ∃ types,
    map_file_types parts = Return types
    ∧ Forall2 (λ part mime, mime_map !! Py.strip part = Some mime) parts types.
Proof.
  induction 1 as [|part parts Hpart _ (types & IH & Hall)].
  { exists []. split; [done | constructor]. }
  apply mime_map_lookup in Hpart as [mime Hmime].
  exists (mime :: types). cbn [map_file_types]. rewrite Hmime, IH.
  split; [done | by constructor].
Qed.

(** The file-type filter of a search: no filter for a missing or empty
    [type]; for aliases that are all among txt, pdf and docx, with or
    without blanks around them, the MIME types of the aliases in their
    order, each a type an upload can have. *)
Theorem type_filter_recognized c t :
  Forall recognized (aliases (String c t)) →
  type_filter None = Return []
  ∧ type_filter (Some "") = Return []
  ∧ ∃ types,
      type_filter (Some (String c t)) = Return types
      ∧ Forall2 (λ alias mime, mime_map !! alias = Some mime)
          (aliases (String c t)) types
      ∧ Forall (λ mime, mime ∈ allowed_types) types.
Proof.
  intros Hall. split; [done|]. split; [done|].
  unfold aliases in *.
  assert (Forall (λ part, recognized (Py.strip part)) (Py.split "," (String c t)))
    as Hparts.
  { apply Forall_forall. intros part Hpart.
    apply (proj1 (Forall_forall _ _) Hall), list_elem_of_fmap. by exists part. }
  destruct (map_file_types_recognized _ Hparts) as (types & Htypes & Hmap).
  exists types. cbn [type_filter]. split; [done|]. split.
  - by apply Forall2_fmap_l.
  - apply Forall_forall. intros mime Hmime.
    apply list_elem_of_lookup in Hmime as [i Hi].
    destruct (Forall2_lookup_r _ _ _ _ _ Hmap Hi) as (part & _ & Hpart).
    by apply mime_map_allowed in Hpart as [_ ?].
Qed.

(** An uploaded document is counted by the searches it matches: after
    an upload that is carried through, a search the database accepts (a
    query text it parses, LIMIT and OFFSET within its 64-bit integers) has
    one more result than before if the query matches the text of the new
    document and the filter, when there is one, has its type, and as many
    as before otherwise. *)
Theorem upload_file_then_search
  ext now pg field file db ids text q page lim sort_by type types :
  accepted_with pg ext file text →
  existing_ids (Document.file_id <$> documents db) = Return ids →
  sort_by = "relevance" ∨ sort_by = "name" →
  type_filter type = Return types →
  to_tsquery_ok pg q = true →
  1 <= page → 1 <= lim →
  lim < 2 ^ 63 → (page - 1) * lim < 2 ^ 63 →
  ∃ r db' before after,
    serve (upload_file pg ext now [(field, FormFile file)]) db = (Return r, db')
    ∧ serve (search_files pg q page lim sort_by type) db = (Return before, db)
    ∧ serve (search_files pg q page lim sort_by type) db' = (Return after, db')
    ∧ total_results after
      = total_results before
        + (if matches pg q types (uploaded file (file_id r) text) then 1 else 0).
Proof.
  intros Hfile Hids Hsort Htypes Hq Hpage Hlim Hlimit Hoffset.
  eexists _, _, _, _.
  split.
  { apply upload_file_accepted; [done | done|].
    eapply custom_file_id_fresh; [done | lia]. }
  split; [by apply search_files_run|].
  split; [by apply search_files_run|].
  cbn [total_results file_id]. unfold matching. cbn [documents].
  rewrite List.filter_app, length_app. cbn [List.filter].
  destruct (matches pg q types _); cbn [length]; lia.
Qed.

Import Quizzes Analytics.

Lemma total_perm l1 l2 : l1 ≡ₚ l2 → total l1 = total l2.
Proof.
  unfold total. induction 1; cbn [foldr]; lia.
Qed.

Lemma submissions_between_unbounded quiz_id db :
  submissions_between quiz_id None None db = submissions_of quiz_id db.
Proof.
  unfold submissions_between, submissions_of.
  induction (quiz_submissions db) as [|s l IH]; [done|]. cbn [List.filter].
  rewrite !andb_true_r, IH. done.
Qed.

(** The results of a quiz and its analytics agree: for a quiz with
    submissions, the scores of the users in [get_quiz_results] add up to
    the [total_correct] of [get_quiz_analytics] without dates, and their
    totals to its [total_submissions]. *)
Theorem results_agree_with_analytics strptime quiz_id quiz db :
  find_quiz quiz_id db = Some quiz →
  submissions_of quiz_id db ≠ [] →
  ∃ results analytics,
    serve (get_quiz_results quiz_id) db = (Return results, db)
    ∧ serve (get_quiz_analytics strptime quiz_id None None) db
      = (Return analytics, db)
    ∧ total (result_score <$> results) = quiz_total_correct analytics
    ∧ total (result_total_questions <$> results) = quiz_total_submissions analytics.
Proof.
  intros Hquiz Hsome. eexists _, _.
  split; [by eapply get_quiz_results_run|].
  split.
  { eapply get_quiz_analytics_run; [done | done | done |].
    by rewrite submissions_between_unbounded. }
  cbn [quiz_total_correct quiz_total_submissions].
  rewrite submissions_between_unbounded.
  set (subs := submissions_of quiz_id db).
  destruct (tally_totals Submission.user_id subs) as [Hall Hcorrect].
  assert ((results_by_user quiz_id subs).*1 ≡ₚ (tally Submission.user_id subs).*1)
    as Hkeys.
  { apply NoDup_Permutation; [apply results_by_user_spec | apply tally_spec|].
    intros u. by rewrite results_by_user_keys, tally_keys. }
  assert (∀ f : Stats → Z,
            f <$> Dict.values (tally Submission.user_id subs)
            = (λ u, f {| stats_key := u;
                         total_attempts := attempts Submission.user_id u subs;
                         correct_attempts :=
                           correct_among Submission.user_id u subs |})
                <$> (tally Submission.user_id subs).*1) as Hvalues.
  { intros f. unfold Dict.values. rewrite <- !list_fmap_compose.
    apply list_fmap_ext. intros _ [u r] Hin%list_elem_of_lookup_2. cbn.
    by apply tally_entry in Hin as [_ ->]. }
  rewrite <- Hcorrect, <- Hall, !Hvalues.
  set (keys := (results_by_user quiz_id subs).*1) in *.
  clearbody keys. split.
  - rewrite <- list_fmap_compose.
    apply total_perm, (fmap_Permutation
      (λ u, correct_among Submission.user_id u subs) _ _ Hkeys).
  - rewrite <- list_fmap_compose.
    apply total_perm, (fmap_Permutation
      (λ u, attempts Submission.user_id u subs) _ _ Hkeys).
Qed.

End Together.

(** ** Further statements on the sample data *)

(** A form without parts, a form with two field names, a form with a plain
    field, and a form with two parts under one name, of which the last, a
    picture, is the one looked at. *)
Lemma upload_file_refusals_sample :
  serve (Documents.upload_file Sample.pg Sample.extractors 0 []) Sample.library
  = (Raise (HTTPException 400 "Exactly one file must be uploaded."), Sample.library)
  ∧ serve (Documents.upload_file Sample.pg Sample.extractors 0
             [("a", Documents.FormFile Sample.notes);
              ("b", Documents.FormFile Sample.paper)]) Sample.library
    = (Raise (HTTPException 400 "Exactly one file must be uploaded."), Sample.library)
  ∧ serve (Documents.upload_file Sample.pg Sample.extractors 0
             [("file", Documents.FormField "notes")]) Sample.library
    = (Raise (HTTPException 400 "No valid file uploaded."), Sample.library)
  ∧ serve (Documents.upload_file Sample.pg Sample.extractors 0
             [("file", Documents.FormFile Sample.notes);
              ("file", Documents.FormFile Sample.picture)]) Sample.library
    = (Raise (HTTPException 400 "Unsupported file type"), Sample.library).
Proof.
  split; [|split; [|split]].
  - apply (upload_file_refusals Sample.pg Sample.extractors 0 [] Sample.library).
    by vm_compute.
  - apply (upload_file_refusals Sample.pg Sample.extractors 0
             [("a", Documents.FormFile Sample.notes);
              ("b", Documents.FormFile Sample.paper)] Sample.library).
    by vm_compute.
  - destruct (upload_file_refusals Sample.pg Sample.extractors 0
                [("file", Documents.FormField "notes")] Sample.library)
      as (_ & Hfield & _).
    by apply (Hfield "notes").
  - destruct (upload_file_refusals Sample.pg Sample.extractors 0
                [("file", Documents.FormFile Sample.notes);
                 ("file", Documents.FormFile Sample.picture)] Sample.library)
      as (_ & _ & Htype & Hlast).
    apply (Htype Sample.picture); [|decided].
    apply (Hlast "file" (Documents.FormFile Sample.notes)
             [("file", Documents.FormFile Sample.picture)] eq_refl).
    by repeat constructor.
Defined.

(** An upload into a table with the identifier "report". *)
Lemma upload_file_blocked_by_identifier_sample :
  uploadable Sample.extractors Sample.notes
  ∧ Documents.numeric_suffix "report" = None
  ∧ serve (Documents.upload_file Sample.pg Sample.extractors 0
             [("file", Documents.FormFile Sample.notes)]) Sample.stuck
    = (Raise (Unhandled ValueError), Sample.stuck).
Proof.
  assert (uploadable Sample.extractors Sample.notes) as Hfile
    by (split; [decided | split; [reflexivity | by eexists]]).
  split; [exact Hfile|]. split; [reflexivity|].
  apply (upload_file_blocked_by_identifier Sample.pg Sample.extractors 0 "file"
           Sample.notes Sample.stuck Hfile).
  apply Exists_cons_hd. reflexivity.
Defined.

(** The first upload into an empty table, read back. *)
Lemma upload_file_then_get_document_sample :
  accepted_with Sample.pg Sample.extractors Sample.notes
    (Some "SEO means search engine optimization")
  ∧ ∃ r db',
      serve (Documents.upload_file Sample.pg Sample.extractors 0
               [("file", Documents.FormFile Sample.notes)]) empty_database
      = (Return r, db')
      ∧ Documents.file_id r = "file001"
      ∧ (serve (Documents.get_document "2024-01-01T00:00:00" "file001") db').1
        = Return {| Documents.data_file_id := "file001";
                    Documents.data_name := "notes.txt";
                    Documents.data_file_type := "text/plain";
                    Documents.data_content :=
                      Some "SEO means search engine optimization";
                    Documents.metadata_length := 36;
                    Documents.metadata_retrieved_at := "2024-01-01T00:00:00" |}.
Proof.
  assert (accepted_with Sample.pg Sample.extractors Sample.notes
            (Some "SEO means search engine optimization")) as Hfile
    by (split; [decided | by repeat split]).
  split; [exact Hfile|].
  destruct (upload_file_then_get_document Sample.pg Sample.extractors 0
              "2024-01-01T00:00:00" "file" Sample.notes empty_database []
              (Some "SEO means search engine optimization") Hfile eq_refl)
    as (r & db' & Hupload & _ & Hget).
  exists r, db'. split; [exact Hupload|].
  vm_compute in Hupload. injection Hupload as <- <-.
  split; [reflexivity|].
  cbn [Documents.file_id] in Hget. rewrite Hget. reflexivity.
Defined.


(** The first quiz between the two dates: the two submissions of the first user. *)
Lemma get_quiz_analytics_per_question_sample :
  Quizzes.find_quiz "Q1" Sample.graded = Some Sample.first_quiz
  ∧ Analytics.parse_bound Sample.strptime (Some "2024-01-01") = Some (Some 0)
  ∧ Analytics.parse_bound Sample.strptime (Some "2024-01-02") = Some (Some 15)
  ∧ Analytics.submissions_between "Q1" (Some 0) (Some 15) Sample.graded ≠ []
  ∧ ∃ r,
      serve (Analytics.get_quiz_analytics Sample.strptime "Q1"
               (Some "2024-01-01") (Some "2024-01-02")) Sample.graded
      = (Return r, Sample.graded)
      ∧ NoDup (Analytics.view_key <$> Analytics.question_stats r)
      ∧ (∀ k, k ∈ Analytics.view_key <$> Analytics.question_stats r
              ↔ k ∈ ["Q1_q1"; "Q1_q2"])
      ∧ ∀ v, v ∈ Analytics.question_stats r →
          0 <= Analytics.view_correct_attempts v <= Analytics.view_total_attempts v
          ∧ 1 <= Analytics.view_total_attempts v.
Proof.
  assert (Analytics.submissions_between "Q1" (Some 0) (Some 15) Sample.graded ≠ [])
    as Hsome by discriminate.
  split; [reflexivity|]. split; [reflexivity|]. split; [reflexivity|].
  split; [exact Hsome|].
  destruct (get_quiz_analytics_per_question Sample.strptime "Q1" Sample.first_quiz
              (Some "2024-01-01") (Some "2024-01-02") (Some 0) (Some 15)
              Sample.graded eq_refl eq_refl eq_refl Hsome)
    as (r & Hrun & Hnodup & Hkeys & Hviews).
  exists r. split; [exact Hrun|]. split; [exact Hnodup|]. split; [exact Hkeys|].
  intros v Hv. destruct (Hviews v Hv) as (_ & _ & Hle & Hpos). by split.
Defined.

(** The totals of the first quiz without dates. *)
Lemma get_quiz_analytics_totals_sample :
  ∃ r,
    serve (Analytics.get_quiz_analytics Sample.strptime "Q1" None None) Sample.graded
    = (Return r, Sample.graded)
    ∧ total (Analytics.view_total_attempts <$> Analytics.question_stats r)
      = Analytics.quiz_total_submissions r
    ∧ total (Analytics.view_correct_attempts <$> Analytics.question_stats r)
      = Analytics.quiz_total_correct r
    ∧ Analytics.quiz_accuracy_percentage r
      = Analytics.Accuracy
          (Quizzes.Round2 (Analytics.quiz_total_correct r)
             (Analytics.quiz_total_submissions r)).
Proof.
  destruct (serve (Analytics.get_quiz_analytics Sample.strptime "Q1" None None)
              Sample.graded) as [[r|f] db'] eqn:Hrun;
    [|vm_compute in Hrun; discriminate].
  destruct (get_quiz_analytics_totals Sample.strptime "Q1" None None Sample.graded
              r db' Hrun) as (-> & Hall & Hcorrect & _ & _ & Haccuracy).
  by exists r.
Defined.


(** The first user answered both quizzes. *)
Lemma get_user_analytics_per_quiz_sample :
  Analytics.submissions_by Sample.uuid_of "ann" Sample.graded ≠ []
  ∧ ∃ r,
      serve (Analytics.get_user_analytics Sample.uuid_of "ann") Sample.graded
      = (Return r, Sample.graded)
      ∧ Analytics.total_attempted_quizzes r
        = Z.of_nat (length (Analytics.quiz_stats r))
      ∧ NoDup (Analytics.view_key <$> Analytics.quiz_stats r)
      ∧ (∀ k, k ∈ Analytics.view_key <$> Analytics.quiz_stats r
              ↔ k ∈ ["Q1"; "Q1"; "Q2"])
      ∧ ∀ v, v ∈ Analytics.quiz_stats r →
          0 <= Analytics.view_correct_attempts v <= Analytics.view_total_attempts v
          ∧ 1 <= Analytics.view_total_attempts v.
Proof.
  assert (Analytics.submissions_by Sample.uuid_of "ann" Sample.graded ≠ []) as Hsome by discriminate.
  split; [exact Hsome|].
  destruct (get_user_analytics_per_quiz Sample.uuid_of "ann" Sample.graded Hsome)
    as (r & Hrun & Hcount & Hnodup & Hkeys & Hviews).
  exists r. split; [exact Hrun|]. split; [exact Hcount|].
  split; [exact Hnodup|]. split; [exact Hkeys|].
  intros v Hv. destruct (Hviews v Hv) as (_ & _ & Hle & Hpos). by split.
Defined.

(** A text that is no UUID, a user without submissions, and the totals of
    the first user under another spelling. *)
Lemma get_user_analytics_totals_sample :
  serve (Analytics.get_user_analytics Sample.uuid_of "zed") Sample.graded
  = (Raise (Unhandled DBAPIError), Sample.graded)
  ∧ serve (Analytics.get_user_analytics Sample.uuid_of "cyd") Sample.graded
    = (Raise (HTTPException 404 "No submissions found for this user"), Sample.graded)
  ∧ ∃ r,
      serve (Analytics.get_user_analytics Sample.uuid_of "ANN") Sample.graded
      = (Return r, Sample.graded)
      ∧ total (Analytics.view_total_attempts <$> Analytics.quiz_stats r)
        = Analytics.user_total_submissions r
      ∧ total (Analytics.view_correct_attempts <$> Analytics.quiz_stats r)
        = Analytics.user_total_correct r
      ∧ 1 <= Analytics.user_total_submissions r.
Proof.
  split; [|split].
  - by apply (get_user_analytics_totals Sample.uuid_of "zed" Sample.graded).
  - by apply (get_user_analytics_totals Sample.uuid_of "cyd" Sample.graded);
      [eexists|].
  - destruct (serve (Analytics.get_user_analytics Sample.uuid_of "ANN") Sample.graded)
      as [[r|f] db'] eqn:Hrun; [|vm_compute in Hrun; discriminate].
    destruct (proj2 (proj2 (get_user_analytics_totals Sample.uuid_of "ANN"
                              Sample.graded)) r db' Hrun)
      as (-> & Hall & Hcorrect & _ & Hpos & _).
    by exists r.
Defined.

(** Characters compare as their codes. *)
Lemma ascii_compare_N a b :
  Ascii.compare a b = N.compare (N_of_ascii a) (N_of_ascii b).
Proof. reflexivity. Defined.

(** The order of the names of the sample collation is transitive. *)
Lemma string_leb_trans a b c :
  String.leb a b = true → String.leb b c = true → String.leb a c = true.
Proof.
  unfold String.leb. revert b c.
  induction a as [|x a IH]; intros [|y b] [|z c]; cbn; try congruence.
  rewrite !ascii_compare_N.
  destruct (N.compare_spec (N_of_ascii x) (N_of_ascii y)) as [Hxy|Hxy|Hxy];
    destruct (N.compare_spec (N_of_ascii y) (N_of_ascii z)) as [Hyz|Hyz|Hyz];
    destruct (N.compare_spec (N_of_ascii x) (N_of_ascii z)) as [Hxz|Hxz|Hxz];
    try congruence; try lia; intros; try (exfalso; lia).
  all: try (eapply IH; eassumption).
Defined.

(** Two pages of one row give the two matches of the shelf by name. *)
Lemma search_files_pages_cover_sample :
  Documents.type_filter None = Return []
  ∧ Documents.to_tsquery_ok Sample.pg "SEO" = true
  ∧ untied Sample.pg "SEO" [] "name" Sample.shelf
  ∧ Z.of_nat (length (matching Sample.pg "SEO" [] Sample.shelf)) <= Z.of_nat 2 * 1
  ∧ Documents.row_name
      <$> mjoin (search_page Sample.pg "SEO" 1 "name" None Sample.shelf <$> seq 1 2)
    = ["apple.pdf"; "zebra.txt"]
  ∧ sorted_rows Sample.pg "SEO" [] "name" Sample.shelf
    ≡ₚ matching_rows Sample.pg "SEO" [] Sample.shelf
  ∧ ∀ page, (length (search_page Sample.pg "SEO" 1 "name" None Sample.shelf page)
             ≤ 1)%nat.
Proof.
  assert (Z.of_nat (length (matching Sample.pg "SEO" [] Sample.shelf))
          <= Z.of_nat 2 * 1) as Hfit by (apply Z.leb_le; reflexivity).
  assert (untied Sample.pg "SEO" [] "name" Sample.shelf) as Huntied.
  { intros a b Ha Hb Hab Hba. vm_compute in Ha, Hb.
    apply elem_of_cons in Ha as [-> | Ha], Hb as [-> | Hb]; try reflexivity;
      repeat match goal with
             | H : _ ∈ _ :: _ |- _ => apply elem_of_cons in H as [-> | H]
             | H : _ ∈ [] |- _ => by apply elem_of_nil in H
             end;
      try reflexivity; vm_compute in Hab, Hba; congruence. }
  split; [reflexivity|]. split; [reflexivity|]. split; [exact Huntied|].
  split; [exact Hfit|].
  destruct (search_files_pages_cover Sample.pg "SEO" 1 "name" None [] Sample.shelf 2)
    as (Hcover & Hperm & Hsize);
    [by right | reflexivity | reflexivity | lia | lia | apply String.leb_total
    | apply string_leb_trans | exact Huntied | exact Hfit|].
  split; [by rewrite Hcover|]. split; [exact Hperm | exact Hsize].
Defined.

(** A search of the shelf for text files. *)
Lemma search_files_answer_sound_sample :
  ∃ r,
    serve (Documents.search_files Sample.pg "SEO" 1 10 "relevance" (Some "txt"))
      Sample.shelf
    = (Return r, Sample.shelf)
    ∧ (∀ mime, mime ∈ Documents.file_types r → mime ∈ Documents.allowed_types)
    ∧ ∀ row, row ∈ Documents.results r →
        ∃ d v, d ∈ documents Sample.shelf
          ∧ row = Documents.search_row Sample.pg "SEO" d
          ∧ Document.search_vector d = Some v
          ∧ Documents.ts_match Sample.pg v "SEO" = true
          ∧ (Documents.file_types r ≠ []
             → Document.file_type d ∈ Documents.file_types r).
Proof.
  destruct (serve (Documents.search_files Sample.pg "SEO" 1 10 "relevance"
                     (Some "txt")) Sample.shelf) as [[r|f] db'] eqn:Hrun;
    [|vm_compute in Hrun; discriminate].
  destruct (search_files_answer_sound Sample.pg "SEO" 1 10 "relevance" (Some "txt")
              Sample.shelf r db' Hrun) as (-> & _ & _ & _ & Htypes & Hrows).
  by exists r.
Defined.

(** A search of the shelf sorted by name. *)
Lemma search_files_sorted_sample :
  ∃ r,
    serve (Documents.search_files Sample.pg "SEO" 1 10 "name" None) Sample.shelf
    = (Return r, Sample.shelf)
    ∧ StronglySorted
        (λ a b, Documents.collate_le Sample.pg (Documents.row_name a)
                  (Documents.row_name b) = true)
        (Documents.results r).
Proof.
  destruct (serve (Documents.search_files Sample.pg "SEO" 1 10 "name" None)
              Sample.shelf) as [[r|f] db'] eqn:Hrun;
    [|vm_compute in Hrun; discriminate].
  destruct (search_files_sorted Sample.pg "SEO" 1 10 "name" None Sample.shelf r db'
              Hrun) as [_ Hname].
  exists r. split.
  - vm_compute in Hrun. by injection Hrun as _ <-.
  - apply Hname; [reflexivity | apply String.leb_total | apply string_leb_trans].
Defined.

(** Two pages of one quiz give the two quizzes of the classroom. *)
Lemma get_all_quizzes_pages_cover_sample :
  Z.of_nat 2 * 1 < 2 ^ 63
  ∧ Z.of_nat (length (quizzes Sample.classroom)) <= Z.of_nat 2 * 1
  ∧ mjoin (quizzes_page (λ a b, String.leb b a) 1 Sample.classroom <$> seq 1 2)
    ≡ₚ quizzes Sample.classroom
  ∧ ∃ r, serve (Quizzes.get_all_quizzes (λ a b, String.leb b a) 2 1)
           Sample.classroom
         = (Return r, Sample.classroom)
         ∧ (length (Quizzes.page_data r) ≤ 1)%nat
         ∧ Quizzes.total_items r = 2.
Proof.
  assert (Z.of_nat (length (quizzes Sample.classroom)) <= Z.of_nat 2 * 1) as Hfit
    by (apply Z.leb_le; reflexivity).
  assert (Z.of_nat 2 * 1 < 2 ^ 63) as Hrange by (apply Z.ltb_lt; reflexivity).
  split; [exact Hrange|]. split; [exact Hfit|].
  destruct (get_all_quizzes_pages_cover (λ a b, String.leb b a) 1 Sample.classroom 2)
    as [Hcover Hpages]; [lia | exact Hrange | exact Hfit|].
  split; [exact Hcover|].
  destruct (Hpages 1%nat) as (r & Hrun & _ & Hsize & Htotal); [lia|].
  by exists r.
Defined.




(** The results of the first quiz: two users. *)
Lemma get_quiz_results_per_user_sample :
  Quizzes.find_quiz "Q1" Sample.graded = Some Sample.first_quiz
  ∧ Quizzes.submissions_of "Q1" Sample.graded ≠ []
  ∧ ∃ results,
      serve (Quizzes.get_quiz_results "Q1") Sample.graded
      = (Return results, Sample.graded)
      ∧ NoDup (Quizzes.result_user_id <$> results)
      ∧ (∀ u, u ∈ Quizzes.result_user_id <$> results ↔ u ∈ ["ann"; "ann"; "bob"])
      ∧ ∀ r, r ∈ results →
          r = user_result "Q1" (Quizzes.result_user_id r)
                (Quizzes.submissions_of "Q1" Sample.graded)
          ∧ 0 <= Quizzes.result_score r <= Quizzes.result_total_questions r
          ∧ 1 <= Quizzes.result_total_questions r.
Proof.
  assert (Quizzes.submissions_of "Q1" Sample.graded ≠ []) as Hsome by discriminate.
  split; [reflexivity|]. split; [exact Hsome|].
  exact (get_quiz_results_per_user "Q1" Sample.first_quiz Sample.graded eq_refl Hsome).
Defined.


(** A second answer without [question_id]. *)
Lemma submit_quiz_missing_question_id_sample :
  Quizzes.find_quiz "Q1" Sample.classroom = Some Sample.first_quiz
  ∧ Forall is_dict [Sample.answer "Q1_q1" "A";
                    PyDict [(PyStr "selected_answer", PyStr "A")]]
  ∧ lacks "question_id" (PyDict [(PyStr "selected_answer", PyStr "A")])
  ∧ serve (Quizzes.submit_quiz Sample.uuid4 0 "Q1"
             [Sample.answer "Q1_q1" "A";
              PyDict [(PyStr "selected_answer", PyStr "A")]])
      Sample.classroom
    = (Raise (Unhandled (KeyError "question_id")), Sample.classroom).
Proof.
  assert (Forall is_dict [Sample.answer "Q1_q1" "A";
                          PyDict [(PyStr "selected_answer", PyStr "A")]]) as Hdicts
    by (repeat constructor; by eexists).
  assert (lacks "question_id" (PyDict [(PyStr "selected_answer", PyStr "A")]))
    as Hlacks by (by eexists).
  split; [reflexivity|]. split; [exact Hdicts|]. split; [exact Hlacks|].
  apply (submit_quiz_missing_question_id Sample.uuid4 0 "Q1" Sample.first_quiz _
           Sample.classroom eq_refl Hdicts).
  by apply Exists_cons_tl, Exists_cons_hd.
Defined.

(** A second answer without [selected_answer]. *)
Lemma submit_quiz_missing_selected_answer_sample :
  Quizzes.find_quiz "Q1" Sample.classroom = Some Sample.first_quiz
  ∧ questions_keyed Sample.classroom
  ∧ Forall2 references [Sample.answer "Q1_q1" "A";
                        PyDict [(PyStr "question_id", PyStr "Q1_q2")]]
      ["Q1_q1"; "Q1_q2"]
  ∧ lacks "selected_answer" (PyDict [(PyStr "question_id", PyStr "Q1_q2")])
  ∧ serve (Quizzes.submit_quiz Sample.uuid4 0 "Q1"
             [Sample.answer "Q1_q1" "A";
              PyDict [(PyStr "question_id", PyStr "Q1_q2")]])
      Sample.classroom
    = (Raise (Unhandled (KeyError "selected_answer")), Sample.classroom).
Proof.
  assert (questions_keyed Sample.classroom) as Hkey by decided.
  assert (Forall2 references [Sample.answer "Q1_q1" "A";
                              PyDict [(PyStr "question_id", PyStr "Q1_q2")]]
            ["Q1_q1"; "Q1_q2"]) as Hrefs by (repeat constructor).
  assert (lacks "selected_answer" (PyDict [(PyStr "question_id", PyStr "Q1_q2")]))
    as Hlacks by (by eexists).
  split; [reflexivity|]. split; [exact Hkey|]. split; [exact Hrefs|].
  split; [exact Hlacks|].
  apply (submit_quiz_missing_selected_answer Sample.uuid4 0 "Q1" Sample.first_quiz _
           ["Q1_q1"; "Q1_q2"] Sample.classroom eq_refl Hkey Hrefs).
  - decided.
  - apply Forall_forall. decided.
  - by apply Exists_cons_tl, Exists_cons_hd.
Defined.


(** The filter [txt, pdf], with a blank. *)
Lemma type_filter_recognized_sample :
  Forall recognized (aliases "txt, pdf")
  ∧ ∃ types,
      Documents.type_filter (Some "txt, pdf") = Return types
      ∧ Forall2 (λ alias mime, Documents.mime_map !! alias = Some mime)
          ["txt"; "pdf"] types
      ∧ Forall (λ mime, mime ∈ Documents.allowed_types) types.
Proof.
  assert (Forall recognized (aliases "txt, pdf")) as Hknown.
  { change (Forall recognized ["txt"; "pdf"]).
    constructor; [by left|]. constructor; [by right; left|]. constructor. }
  split; [exact Hknown|].
  exact (proj2 (proj2 (type_filter_recognized "t" "xt, pdf" Hknown))).
Defined.

(** A second document on SEO is a second result. *)
Lemma upload_file_then_search_sample :
  accepted_with Sample.pg Sample.extractors Sample.notes
    (Some "SEO means search engine optimization")
  ∧ Documents.existing_ids (Document.file_id <$> documents Sample.library) = Return [1]
  ∧ ∃ r db' before after,
      serve (Documents.upload_file Sample.pg Sample.extractors 0
               [("file", Documents.FormFile Sample.notes)]) Sample.library
      = (Return r, db')
      ∧ serve (Documents.search_files Sample.pg "SEO" 1 10 "relevance" None)
          Sample.library = (Return before, Sample.library)
      ∧ serve (Documents.search_files Sample.pg "SEO" 1 10 "relevance" None) db'
        = (Return after, db')
      ∧ Documents.total_results after = Documents.total_results before + 1.
Proof.
  assert (accepted_with Sample.pg Sample.extractors Sample.notes
            (Some "SEO means search engine optimization")) as Hfile
    by (split; [decided | by repeat split]).
  split; [exact Hfile|]. split; [reflexivity|].
  destruct (upload_file_then_search Sample.extractors 0 Sample.pg "file" Sample.notes
              Sample.library [1] (Some "SEO means search engine optimization")
              "SEO" 1 10 "relevance" None [] Hfile)
    as (r & db' & before & after & Hupload & Hbefore & Hafter & Htotal);
    [reflexivity | by left | reflexivity | reflexivity | lia | lia | lia | lia |].
  by exists r, db', before, after.
Defined.

(** The first quiz: the scores of the two users and the totals of the analytics. *)
Lemma results_agree_with_analytics_sample :
  Quizzes.find_quiz "Q1" Sample.graded = Some Sample.first_quiz
  ∧ Quizzes.submissions_of "Q1" Sample.graded ≠ []
  ∧ ∃ results analytics,
      serve (Quizzes.get_quiz_results "Q1") Sample.graded
      = (Return results, Sample.graded)
      ∧ serve (Analytics.get_quiz_analytics Sample.strptime "Q1" None None)
          Sample.graded
        = (Return analytics, Sample.graded)
      ∧ total (Quizzes.result_score <$> results)
        = Analytics.quiz_total_correct analytics
      ∧ total (Quizzes.result_total_questions <$> results)
        = Analytics.quiz_total_submissions analytics.
Proof.
  assert (Quizzes.submissions_of "Q1" Sample.graded ≠ []) as Hsome by discriminate.
  split; [reflexivity|]. split; [exact Hsome|].
  exact (results_agree_with_analytics Sample.strptime "Q1" Sample.first_quiz
           Sample.graded eq_refl Hsome).
Defined.
